(** * ros-interop: the interoperability HTTP client and its serializers

    A shallow embedding of [src/interop/serializers.py] and
    [src/interop/client.py].

    - [Py]: the Python values that flow through the code (decoded JSON,
      message fields), exceptions as an error monad, and the builtins the
      code calls ([float], [int], [str], [bool], subscripting, iteration,
      [in]).
    - [Msg]: the ROS messages the deserializers build, as records.
    - [Serializers]: unit conversions, [iso8601_to_rostime],
      [MissionDeserializer], [ObstaclesDeserializer], [TargetSerializer].
    - [Client]: [InteroperabilityClient] as explicit state passing over a
      trace of observable events; the server and the shutdown flag are
      oracles over that trace.

    Python floats are modelled by the rationals [Qc]: the arithmetic of the
    source (a product, a quotient, a halving) is kept exact, binary64
    rounding is not represented. *)

From Stdlib Require Import ZArith QArith Qcanon String Ascii List Lia.
From stdpp Require Import base option list gmap strings numbers pretty.

Set Warnings "-register-all".
Set Default Proof Using "Type".

Local Open Scope string_scope.
Local Open Scope Z_scope.

(* ===================================================================== *)
(** ** Python values, exceptions and builtins                            *)
(* ===================================================================== *)

Module Py.

(** Exceptions the code raises or lets through. *)
Inductive exn : Type :=
  | TypeError
  | ValueError
  | KeyError (key : string)
  | LookupError
  | AttributeError (name : string)
  | UnboundLocalError (name : string)
  | Timeout
  | ConnectionError
  | HTTPError (status : Z)
  | OutOfRangeError.

(** [except LookupError] catches [KeyError] too: it is a subclass. *)
Definition is_LookupError (e : exn) : bool :=
  match e with
  | LookupError | KeyError _ => true
  | _ => false
  end.


Inductive result (A : Type) : Type :=
  | Ok (a : A)
  | Err (e : exn).
Arguments Ok {A} a.
Arguments Err {A} e.

#[global] Instance result_ret : MRet result := fun A a => Ok a.
#[global] Instance result_bind : MBind result := fun A B f m =>
  match m with
  | Ok a => f a
  | Err e => Err e
  end.
#[global] Instance result_fmap : FMap result := fun A B f m =>
  match m with
  | Ok a => Ok (f a)
  | Err e => Err e
  end.

Definition is_Ok {A} (r : result A) : bool :=
  match r with
  | Ok _ => true
  | Err _ => false
  end.

(** [for x in xs: acc.append(f(x))], stopping at the first exception. *)
Fixpoint mapM {A B} (f : A -> result B) (xs : list A) : result (list B) :=
  match xs with
  | [] => Ok []
  | x :: xs' => y ← f x; ys ← mapM f xs'; Ok (y :: ys)
  end.

(** The message classes of [TargetSerializer.ENUMERATION_TYPES]. *)
Inductive msg_class : Type := Color | Orientation | Shape | TargetType.

#[global] Instance msg_class_eq_dec : EqDecision msg_class.
Proof. solve_decision. Defined.

(** A Python value: what [json.loads] produces, plus an instance of one of
    the enumeration messages, which has the single slot [data]. *)
Inductive pyval : Type :=
  | PNone
  | PBool (b : bool)
  | PInt (z : Z)
  | PFloat (q : Qc)
  | PStr (s : string)
  | PList (l : list pyval)
  | PDict (d : gmap string pyval)
  | PMsg (cls : msg_class) (data : pyval).

(** [type(v)]. *)
Inductive pytype : Type :=
  | TyNone | TyBool | TyInt | TyFloat | TyStr | TyList | TyDict
  | TyMsg (cls : msg_class).

Definition type_of (v : pyval) : pytype :=
  match v with
  | PNone => TyNone
  | PBool _ => TyBool
  | PInt _ => TyInt
  | PFloat _ => TyFloat
  | PStr _ => TyStr
  | PList _ => TyList
  | PDict _ => TyDict
  | PMsg cls _ => TyMsg cls
  end.

Definition is_None (v : pyval) : bool :=
  match v with
  | PNone => true
  | _ => false
  end.

Definition Qc_is_zero (q : Qc) : bool := Z.eqb (Qnum (this q)) 0.

(** Truth value of [v] in [if v:] and [bool(v)]. *)
Definition truthy (v : pyval) : bool :=
  match v with
  | PNone => false
  | PBool b => b
  | PInt z => negb (Z.eqb z 0)
  | PFloat q => negb (Qc_is_zero q)
  | PStr s => negb (String.eqb s "")
  | PList l => match l with [] => false | _ => true end
  | PDict d => match map_to_list d with [] => false | _ => true end
  | PMsg _ _ => true
  end.

(** [container[key]] for a string key. Only a dict accepts it; the key is
    missing in a [KeyError]. *)
Definition getitem (container : pyval) (key : string) : result pyval :=
  match container with
  | PDict d =>
      match d !! key with
      | Some v => Ok v
      | None => Err (KeyError key)
      end
  | _ => Err TypeError
  end.

Fixpoint chars (s : string) : list pyval :=
  match s with
  | EmptyString => []
  | String c s' => PStr (String c EmptyString) :: chars s'
  end.

(** [for x in v]: the items of a list, the keys of a dict, the characters of
    a string. *)
Definition iter (v : pyval) : result (list pyval) :=
  match v with
  | PList l => Ok l
  | PDict d => Ok (PStr <$> (map_to_list d).*1)
  | PStr s => Ok (chars s)
  | _ => Err TypeError
  end.

Fixpoint is_substring (needle s : string) : bool :=
  String.prefix needle s ||
  match s with
  | EmptyString => false
  | String _ s' => is_substring needle s'
  end.

(** [key in container] for a string key. *)
Definition contains (key : string) (container : pyval) : result bool :=
  match container with
  | PDict d => Ok (bool_decide (is_Some (d !! key)))
  | PList l =>
      Ok (existsb (fun x => match x with
                            | PStr s => String.eqb s key
                            | _ => false
                            end) l)
  | PStr s => Ok (is_substring key s)
  | _ => Err TypeError
  end.

(** Truncation toward zero, as [int(x)] does on a float. *)
Definition Qc_trunc (q : Qc) : Z := Z.quot (Qnum (this q)) (Z.pos (Qden (this q))).

(** Parsing and printing of numerals is the interpreter's: the text
    accepted by [float(s)] and [int(s)] ([None]: [ValueError]) and the text
    [str(v)] prints for a value that is not a string. *)
Class Interpreter : Type := {
  float_of_string : string -> option Qc;
  int_of_string : string -> option Z;
  repr : pyval -> string
}.

Section Conversions.
Context `{!Interpreter}.

(** [float(v)]. *)
Definition float (v : pyval) : result Qc :=
  match v with
  | PFloat q => Ok q
  | PInt z => Ok (Qc_of_Z z)
  | PBool b => Ok (Qc_of_Z (if b then 1 else 0))
  | PStr s =>
      match float_of_string s with
      | Some q => Ok q
      | None => Err ValueError
      end
  | _ => Err TypeError
  end.

(** [int(v)]. *)
Definition int (v : pyval) : result Z :=
  match v with
  | PInt z => Ok z
  | PFloat q => Ok (Qc_trunc q)
  | PBool b => Ok (if b then 1 else 0)
  | PStr s =>
      match int_of_string s with
      | Some z => Ok z
      | None => Err ValueError
      end
  | _ => Err TypeError
  end.

(** [str(v)]. *)
Definition str (v : pyval) : string :=
  match v with
  | PStr s => s
  | _ => repr v
  end.

(** [ty(v)]: a type object called as a constructor. A genpy message class
    called with one positional argument stores it in its only slot. *)
Definition call (ty : pytype) (v : pyval) : result pyval :=
  match ty with
  | TyNone => Err TypeError
  | TyBool => Ok (PBool (truthy v))
  | TyInt => PInt <$> int v
  | TyFloat => PFloat <$> float v
  | TyStr => Ok (PStr (str v))
  | TyList => PList <$> iter v
  | TyDict =>
      match v with
      | PDict d => Ok (PDict d)
      | _ => Err TypeError
      end
  | TyMsg cls => Ok (PMsg cls v)
  end.
End Conversions.

End Py.

Import Py.

(* ===================================================================== *)
(** ** ROS messages                                                      *)
(* ===================================================================== *)

(** The messages the deserializers fill in, with the fields the code
    assigns; a field the code never touches keeps its default and is left
    out of the record. *)
Module Msg.

Record Time : Type := { secs : Z; nsecs : Z }.

Record Duration : Type := { d_secs : Z; d_nsecs : Z }.

(** [rospy.Duration(secs)] for a float: whole seconds by truncation, the
    rest as nanoseconds, then brought to [0 <= nsecs < 10^9]. *)
Definition Duration_of (lifetime : Qc) : Duration :=
  let s := Qc_trunc lifetime in
  let n := Qc_trunc ((lifetime - Qc_of_Z s) * Qc_of_Z 1000000000)%Qc in
  {| d_secs := s + n `div` 1000000000; d_nsecs := n `mod` 1000000000 |}.

Record Header : Type := { stamp : Time; frame_id : string }.

Record Point : Type := { x : Qc; y : Qc; z : Qc }.

Definition Point_default : Point := {| x := 0; y := 0; z := 0 |}%Qc.

Record Vector3 : Type := { sx : Qc; sy : Qc; sz : Qc }.

Record Quaternion : Type := { qx : Qc; qy : Qc; qz : Qc; qw : Qc }.

Record Pose : Type := { position : Point; orientation : Quaternion }.

Record ColorRGBA : Type := { r : Qc; g : Qc; b : Qc; a : Qc }.

Record PointStamped : Type := { ps_header : Header; point : Point }.

Record PolygonStamped : Type := { pg_header : Header; polygon : list Point }.

Record FlyZone : Type := { zone : PolygonStamped; max_alt : Qc; min_alt : Qc }.

(** [visualization_msgs/Marker] type constants. *)
Definition SPHERE : Z := 2.
Definition CYLINDER : Z := 3.
Definition POINTS : Z := 8.

Record Marker : Type := {
  header : Header;
  ns : string;
  type : Z;
  pose : Pose;
  scale : Vector3;
  color : ColorRGBA;
  lifetime : Duration;
  points : list Point
}.

End Msg.
Import Msg.

(* ===================================================================== *)
(** ** serializers.py                                                    *)
(* ===================================================================== *)

Module Serializers.

(** The constant [0.3048]. *)
Definition ft_per_m : Qc := Q2Qc (3048 # 10000).

Section Units.
Context `{!Interpreter}.

(** [float(m) / 0.3048] *)
Definition meters_to_feet (m : pyval) : result Qc :=
  q ← float m; Ok (q / ft_per_m)%Qc.

(** [float(ft) * 0.3048] *)
Definition feet_to_meters (ft : pyval) : result Qc :=
  q ← float ft; Ok (q * ft_per_m)%Qc.
End Units.

(** *** datetime *)

(** [datetime.datetime]; [tzinfo] is the UTC offset in seconds of an aware
    value and [None] for a naive one. *)
Record datetime : Type := {
  year : Z; month : Z; day : Z;
  hour : Z; minute : Z; second : Z; microsecond : Z;
  tzinfo : option Z
}.
















(** *** dateutil.parser.parse on ISO 8601 date-times

    The library is not part of the repository. The grammar embedded here is
    the ISO 8601 extended format the server sends,
    [YYYY-MM-DDTHH:MM:SS[.f...][Z|+HH:MM|-HH:MM|+HHMM|+HH]]; a fraction keeps
    its first six digits, as the library does. Text outside this grammar is
    rejected with [ValueError]. *)
Module Dateutil.

Definition digit_of (c : ascii) : option Z :=
  let n := Z.of_nat (nat_of_ascii c) in
  if (48 <=? n) && (n <=? 57) then Some (n - 48) else None.

(** Exactly [n] decimal digits. *)
Fixpoint digits (n : nat) (acc : Z) (s : string) : option (Z * string) :=
  match n with
  | O => Some (acc, s)
  | S n' =>
      match s with
      | String c s' =>
          match digit_of c with
          | Some d => digits n' (acc * 10 + d) s'
          | None => None
          end
      | EmptyString => None
      end
  end.

Definition expect (c : ascii) (s : string) : option string :=
  match s with
  | String c' s' => if Ascii.eqb c c' then Some s' else None
  | EmptyString => None
  end.

(** The longest run of digits at the head of [s]. *)
Fixpoint digit_run (s : string) : list Z * string :=
  match s with
  | String c s' =>
      match digit_of c with
      | Some d => let '(ds, rest) := digit_run s' in (d :: ds, rest)
      | None => ([], s)
      end
  | EmptyString => ([], EmptyString)
  end.

Definition number_of (ds : list Z) : Z := foldl (fun acc d => acc * 10 + d) 0 ds.

(** [int(f.ljust(6, "0")[:6])] *)
Definition micros (ds : list Z) : Z := number_of (take 6 (ds ++ replicate 6 0)).

Definition fraction (s : string) : option (Z * string) :=
  match s with
  | String c s' =>
      if Ascii.eqb c "." || Ascii.eqb c ","
      then match digit_run s' with
           | ([], _) => None
           | (ds, rest) => Some (micros ds, rest)
           end
      else Some (0, s)
  | EmptyString => Some (0, EmptyString)
  end.



Definition date_time (s : string) : option (datetime * string) :=
  '(y, s) ← digits 4 0 s;
  s ← expect "-" s;
  '(mo, s) ← digits 2 0 s;
  s ← expect "-" s;
  '(d, s) ← digits 2 0 s;
  s ← expect "T" s;
  '(h, s) ← digits 2 0 s;
  s ← expect ":" s;
  '(mi, s) ← digits 2 0 s;
  s ← expect ":" s;
  '(sec, s) ← digits 2 0 s;
  '(us, s) ← fraction s;
  Some ({| year := y; month := mo; day := d; hour := h; minute := mi;
           second := sec; microsecond := us; tzinfo := None |}, s).




End Dateutil.

(** *** iso8601_to_rostime *)


(** *** Collaborators outside the repository

    [utm.from_latlon(lat, lon)], of whose result the code keeps the easting
    and the northing (it raises [OutOfRangeError] off the UTM grid), and
    [rospy.get_rostime()], whose [k]-th reading within one top-level call is
    [get_rostime k]. *)
Class Host : Type := {
  from_latlon : pyval -> pyval -> result (Qc * Qc);
  get_rostime : nat -> Time
}.

(** [for x in data: out.append(body(x))] over any iterable. *)
Definition for_each {A} (data : pyval) (body : pyval -> result A) : result (list A) :=
  xs ← iter data; mapM body xs.

Module MissionDeserializer.
Section WithHost.
Context `{!Interpreter} `{!Host}.

(** The projected point of a wire position, without its altitude. *)
Definition planar_point (waypoint : pyval) : result Point :=
  lat ← getitem waypoint "latitude";
  lon ← getitem waypoint "longitude";
  '(easting, northing) ← from_latlon lat lon;
  Ok {| x := easting; y := northing; z := 0 |}.

(** The projected point of a wire position, with its altitude in meters. *)
Definition spatial_point (point : pyval) : result Point :=
  lat ← getitem point "latitude";
  lon ← getitem point "longitude";
  '(easting, northing) ← from_latlon lat lon;
  alt ← getitem point "altitude_msl";
  altitude ← feet_to_meters alt;
  Ok {| x := easting; y := northing; z := altitude |}.

Definition __get_flyzone (data : pyval) (frame : string) (tick : nat)
  : result (list FlyZone) :=
  let header := {| stamp := get_rostime tick; frame_id := frame |} in
  for_each data (fun zone =>
    amax ← getitem zone "altitude_msl_max";
    max_alt ← feet_to_meters amax;
    amin ← getitem zone "altitude_msl_min";
    min_alt ← feet_to_meters amin;
    (* Change boundary points to ros message of type polygon. *)
    pts ← getitem zone "boundary_pts";
    points ← for_each pts planar_point;
    Ok {| zone := {| pg_header := header; polygon := points |};
          max_alt := max_alt; min_alt := min_alt |}).

Definition __get_waypoints (data : pyval) (frame : string) (tick : nat)
  : result Marker :=
  let header := {| stamp := get_rostime tick; frame_id := frame |} in
  points ← for_each data spatial_point;
  Ok {| header := header;
        ns := "waypoints";
        type := POINTS;
        (* Ensure there is no rotation by setting w to 1. *)
        pose := {| position := Point_default;
                   orientation := {| qx := 0; qy := 0; qz := 0; qw := 1 |}%Qc |};
        scale := let s := Q2Qc (1 # 10) in {| sx := s; sy := s; sz := s |};
        color := {| r := 0; g := 0; b := 0; a := 0 |}%Qc;
        (* Set lifetime to 0 because waypoints do not change. *)
        lifetime := {| d_secs := 0; d_nsecs := 0 |};
        points := points |}.

Definition __get_search_grid (data : pyval) (frame : string) (tick : nat)
  : result PolygonStamped :=
  let header := {| stamp := get_rostime tick; frame_id := frame |} in
  points ← for_each data spatial_point;
  Ok {| pg_header := header; polygon := points |}.

Definition __get_airdrop_loc (data : pyval) (frame : string) (tick : nat)
  : result PointStamped :=
  let header := {| stamp := get_rostime tick; frame_id := frame |} in
  p ← planar_point data;
  Ok {| ps_header := header; point := p |}.

Definition __get_offaxis_targ (data : pyval) (frame : string) (tick : nat)
  : result PointStamped :=
  let header := {| stamp := get_rostime tick; frame_id := frame |} in
  p ← planar_point data;
  Ok {| ps_header := header; point := p |}.

Definition __emergent_object (data : pyval) (frame : string) (tick : nat)
  : result PointStamped :=
  let header := {| stamp := get_rostime tick; frame_id := frame |} in
  p ← planar_point data;
  Ok {| ps_header := header; point := p |}.

(** The six messages of a mission, in the order of the returned tuple. *)
Record mission : Type := {
  flyzones : list FlyZone;
  search_grid : PolygonStamped;
  waypoints : Marker;
  air_drop_pos : PointStamped;
  off_axis_targ : PointStamped;
  emergent_obj : PointStamped
}.

Definition from_dict (data : pyval) (frame : string) : result mission :=
  d ← getitem data "fly_zones";
  flyzones ← __get_flyzone d frame 0;
  d ← getitem data "search_grid_points";
  search_grid ← __get_search_grid d frame 1;
  d ← getitem data "mission_waypoints";
  waypoints ← __get_waypoints d frame 2;
  d ← getitem data "air_drop_pos";
  air_drop_pos ← __get_airdrop_loc d frame 3;
  d ← getitem data "off_axis_target_pos";
  off_axis_targ ← __get_offaxis_targ d frame 4;
  d ← getitem data "emergent_last_known_pos";
  emergent_obj ← __emergent_object d frame 5;
  Ok {| flyzones := flyzones; search_grid := search_grid;
        waypoints := waypoints; air_drop_pos := air_drop_pos;
        off_axis_targ := off_axis_targ; emergent_obj := emergent_obj |}.

End WithHost.
End MissionDeserializer.

Module ObstaclesDeserializer.

(** McGill Robotics red. *)
Definition OBSTACLE_COLOR : ColorRGBA :=
  {| r := Q2Qc (218 # 255); g := Q2Qc (41 # 255); b := Q2Qc (28 # 255); a := 1%Qc |}.

(** The orientation of a fresh [Marker]. *)
Definition Quaternion_default : Quaternion := {| qx := 0; qy := 0; qz := 0; qw := 0 |}%Qc.

Section WithHost.
Context `{!Interpreter} `{!Host}.

(** Body of the loop over [data["moving_obstacles"]]. *)
Definition moving_marker (header : Header) (lifetime : Qc) (obj : pyval)
  : result Marker :=
  (* Set scale as radius. *)
  sr ← getitem obj "sphere_radius";
  radius ← feet_to_meters sr;
  (* Convert latitude and longitude to UTM. *)
  lat ← getitem obj "latitude";
  lon ← getitem obj "longitude";
  '(easting, northing) ← from_latlon lat lon;
  alt ← getitem obj "altitude_msl";
  altitude ← feet_to_meters alt;
  Ok {| header := header;
        ns := "moving_obstacles";
        type := SPHERE;
        pose := {| position := {| x := easting; y := northing; z := altitude |};
                   orientation := Quaternion_default |};
        scale := {| sx := radius; sy := radius; sz := radius |};
        color := OBSTACLE_COLOR;
        lifetime := Duration_of lifetime;
        points := [] |}.

(** Body of the loop over [data["stationary_obstacles"]]. *)
Definition stationary_marker (header : Header) (lifetime : Qc) (obj : pyval)
  : result Marker :=
  (* Set scale to define size. *)
  cr ← getitem obj "cylinder_radius";
  radius ← feet_to_meters cr;
  ch ← getitem obj "cylinder_height";
  height ← feet_to_meters ch;
  (* Convert latitude and longitude to UTM. *)
  lat ← getitem obj "latitude";
  lon ← getitem obj "longitude";
  '(easting, northing) ← from_latlon lat lon;
  Ok {| header := header;
        ns := "stationary_obstacles";
        type := CYLINDER;
        pose := {| position := {| x := easting; y := northing;
                                  z := (height / Qc_of_Z 2)%Qc |};
                   orientation := Quaternion_default |};
        scale := {| sx := radius; sy := radius; sz := height |};
        color := OBSTACLE_COLOR;
        lifetime := Duration_of lifetime;
        points := [] |}.

(** The markers of one category: none when the key is absent. *)
Definition markers_of (key : string) (body : pyval -> result Marker) (data : pyval)
  : result (list Marker) :=
  present ← contains key data;
  if present : bool then
    objs ← getitem data key;
    for_each objs body
  else Ok [].

Definition from_dict (data : pyval) (frame : string) (lifetime : Qc)
  : result (list Marker * list Marker) :=
  (* Generate base header. *)
  let header := {| stamp := get_rostime 0; frame_id := frame |} in
  (* Parse moving obstacles, and populate markers with spheres. *)
  moving_obstacles ← markers_of "moving_obstacles" (moving_marker header lifetime) data;
  (* Parse stationary obstacles, and populate markers with cylinders. *)
  stationary_obstacles ←
    markers_of "stationary_obstacles" (stationary_marker header lifetime) data;
  Ok (moving_obstacles, stationary_obstacles).

End WithHost.
End ObstaclesDeserializer.

Module TelemetrySerializer.
Section WithInterpreter.
Context `{!Interpreter}.

Record NavSatFix : Type := { latitude : pyval; longitude : pyval; altitude : pyval }.

Definition from_msg (navsat_msg : NavSatFix) (compass_msg : pyval)
  : result (gmap string pyval) :=
  lat ← float (latitude navsat_msg);
  lon ← float (longitude navsat_msg);
  alt ← meters_to_feet (altitude navsat_msg);
  heading ← float compass_msg;
  Ok (<["uas_heading" := PFloat heading]>
      (<["altitude_msl" := PFloat alt]>
      (<["longitude" := PFloat lon]>
      (<["latitude" := PFloat lat]> ∅)))).

End WithInterpreter.
End TelemetrySerializer.

(** Monadic left fold: a [for] loop that updates [acc] and stops at the first
    exception. *)
Fixpoint foldM {A B} (f : A -> B -> result A) (acc : A) (xs : list B) : result A :=
  match xs with
  | [] => Ok acc
  | x :: xs' => acc' ← f acc x; foldM f acc' xs'
  end.

Module TargetSerializer.

(** The declared type of a [Target] field. *)
Inductive ftype : Type :=
  | FBool | FInt | FFloat | FString
  | FEnum (cls : msg_class).

(** [interop/msg/Target.msg] and the enumeration messages are generated
    files that are not in [src/]: the field list of [Target.__slots__] with
    the declared types, and the default of the [data] slot of each
    enumeration message, are taken as parameters. *)
Class Schema : Type := {
  slots : list (string * ftype);
  enum_default : msg_class -> pyval
}.

Section WithSchema.
Context `{!Interpreter} `{!Schema}.

(** The value genpy gives a field of a fresh message. *)
Definition default_of (ty : ftype) : pyval :=
  match ty with
  | FBool => PBool false
  | FInt => PInt 0
  | FFloat => PFloat 0%Qc
  | FString => PStr ""
  | FEnum cls => PMsg cls (enum_default cls)
  end.

Definition __slots__ : list string := slots.*1.

(** [Target()]: every slot at its default. *)
Definition Target : gmap string pyval :=
  list_to_map (prod_map id default_of <$> slots).

Definition getattr (msg : gmap string pyval) (attribute : string) : result pyval :=
  match msg !! attribute with
  | Some v => Ok v
  | None => Err (AttributeError attribute)
  end.

(** [value.data if type(value) in ENUMERATION_TYPES else value] *)
Definition unwrap (value : pyval) : pyval :=
  match value with
  | PMsg _ data => data
  | _ => value
  end.

Definition from_msg (msg : gmap string pyval) : result (gmap string pyval) :=
  foldM (fun data attribute =>
           value ← getattr msg attribute;
           Ok (<[attribute := unwrap value]> data))
        ∅ __slots__.

Definition from_dict (data : pyval) : result (gmap string pyval) :=
  foldM (fun msg attribute =>
           present ← contains attribute data;
           if present : bool then
             (* Get corresponding type of slot. *)
             current ← getattr msg attribute;
             let attribute_type := type_of current in
             (* Set 'casted' value. *)
             value ← getitem data attribute;
             if is_None value then Ok msg
             else v ← call attribute_type value; Ok (<[attribute := v]> msg)
           else Ok msg)
        Target __slots__.

End WithSchema.
End TargetSerializer.

End Serializers.

Import Serializers.

(* ===================================================================== *)
(** ** client.py                                                         *)
(* ===================================================================== *)

Module Client.

Definition FORBIDDEN : Z := 403.

(** What [session.request] is given. *)
Record Call : Type := {
  c_method : string;
  c_url : string;
  c_timeout : Qc;
  c_kwargs : gmap string pyval
}.

(** An HTTP response: its status and, when the body is JSON, the decoded
    body. *)
Record Response : Type := { status_code : Z; body : option pyval }.

(** A request ends in a response or in a transport exception ([Timeout],
    [ConnectionError]). *)
Inductive Outcome : Type :=
  | Responds (resp : Response)
  | Raises (e : exn).

(** What an observer of the client sees, most recent first in a trace. *)
Inductive event : Type :=
  | Polled (down : bool)
  | Sent (session : nat) (c : Call) (o : Outcome)
  | Closed (session : nat)
  | Opened (session : nat)
  | LoginCalled.

(** The world outside the client: the server's answer to a call and
    [rospy.is_shutdown()], each as a function of everything that has
    happened so far. *)
Class World : Type := {
  server : list event -> nat -> Call -> Outcome;
  is_shutdown : list event -> bool
}.

(** The attributes fixed by [__init__]. *)
Record client : Type := {
  url : string;
  timeout : Qc;
  credentials : pyval
}.

(** The mutable part: [self.session], and the history. *)
Record state : Type := {
  session : nat;
  next_session : nat;
  trace : list event
}.

(** Client operations: state passing, an exception or a value, and [None]
    when the fuel of a loop is exhausted before it ends. *)
Definition io (A : Type) : Type := state -> option (result A * state).

#[global] Instance io_ret : MRet io := fun A a st => Some (Ok a, st).
#[global] Instance io_bind : MBind io := fun A B f m st =>
  match m st with
  | Some (Ok a, st') => f a st'
  | Some (Err e, st') => Some (Err e, st')
  | None => None
  end.

Definition lift {A} (r : result A) : io A := fun st => Some (r, st).

Definition log (ev : event) (st : state) : state :=
  {| session := session st; next_session := next_session st;
     trace := ev :: trace st |}.

(** [url[:-1] if url.endswith('/') else url] *)
Fixpoint strip_slash (s : string) : string :=
  match s with
  | EmptyString => EmptyString
  | String c s' =>
      match s' with
      | EmptyString => if Ascii.eqb c "/" then EmptyString else s
      | _ => String c (strip_slash s')
      end
  end.

(** [requests.Session()] *)
Definition new_session (st : state) : state :=
  {| session := next_session st; next_session := S (next_session st);
     trace := Opened (next_session st) :: trace st |}.

(** [self.session.close()] *)
Definition close_session (st : state) : state := log (Closed (session st)) st.

Definition __init__ (url username password : string) (timeout : Qc) (history : list event)
  : client * state :=
  ({| url := strip_slash url;
      timeout := timeout;
      credentials := PDict (<["username" := PStr username]>
                            (<["password" := PStr password]> ∅)) |},
   new_session {| session := 0; next_session := 0; trace := history |}).

(** [response.raise_for_status()]: [HTTPError] on a 4xx or 5xx status. *)
Definition raise_for_status (resp : Response) : result unit :=
  if (400 <=? status_code resp) && (status_code resp <? 600)
  then Err (HTTPError (status_code resp))
  else Ok ().

(** [response.json()] *)
Definition json (resp : Response) : result pyval :=
  match body resp with
  | Some v => Ok v
  | None => Err ValueError
  end.

Section WithWorld.
Context `{!World}.

(** [self.session.request(...)] *)
Definition session_request (c : Call) (st : state) : Outcome * state :=
  let o := server (trace st) (session st) c in
  (o, log (Sent (session st) c o) st).

Definition login (self : client) : io unit := fun st =>
  let st := log LoginCalled st in
  let c := {| c_method := "POST";
              c_url := url self +:+ "/api/login";
              c_timeout := timeout self;
              c_kwargs := {[ "data" := credentials self ]} |} in
  match session_request c st with
  | (Responds response, st) => Some (raise_for_status response, st)
  | (Raises e, st) => Some (Err e, st)
  end.

Definition request_call (self : client) (method uri : string)
    (kwargs : gmap string pyval) : Call :=
  {| c_method := method;
     c_url := url self +:+ (if String.prefix "/" uri then uri else "/" +:+ uri);
     c_timeout := timeout self;
     c_kwargs := kwargs |}.

(** [return response] after the loop: the local is unbound when the loop
    body never ran. *)
Definition return_response (response : option Response) : result Response :=
  match response with
  | Some r => Ok r
  | None => Err (UnboundLocalError "response")
  end.

(** The [while not rospy.is_shutdown()] loop of [__request]; [response] is
    the local variable, [None] while unbound. One unit of fuel per
    iteration. *)
Fixpoint request_loop (fuel : nat) (self : client) (method uri : string)
    (kwargs : gmap string pyval) (response : option Response) : io Response :=
  fun st =>
  match fuel with
  | O => None
  | S fuel' =>
      (* Try until authenticated. *)
      let down := is_shutdown (trace st) in
      let st := log (Polled down) st in
      if down then Some (return_response response, st)
      else
        (* Send request. *)
        match session_request (request_call self method uri kwargs) st with
        | (Raises e, st) => Some (Err e, st)
        | (Responds response, st) =>
            (* Relogin if session expired, and try again. *)
            if status_code response =? FORBIDDEN then
              (* Start a new session. *)
              let st := close_session st in
              let st := new_session st in
              (* Relogin. *)
              match login self st with
              | Some (Ok _, st) =>
                  request_loop fuel' self method uri kwargs (Some response) st
              | Some (Err e, st) => Some (Err e, st)
              | None => None
              end
            else
              (* Notify of other errors. *)
              match raise_for_status response with
              | Err e => Some (Err e, st)
              | Ok _ =>
                  (* All is good. *)
                  Some (return_response (Some response), st)
              end
        end
  end.

Definition __request (fuel : nat) (self : client) (method uri : string)
    (kwargs : gmap string pyval) : io Response :=
  request_loop fuel self method uri kwargs None.

Definition _get (fuel : nat) (self : client) (uri : string)
    (kwargs : gmap string pyval) : io Response :=
  __request fuel self "GET" uri kwargs.

Definition _put (fuel : nat) (self : client) (uri : string)
    (kwargs : gmap string pyval) : io Response :=
  __request fuel self "PUT" uri kwargs.

Definition _post (fuel : nat) (self : client) (uri : string)
    (kwargs : gmap string pyval) : io Response :=
  __request fuel self "POST" uri kwargs.

Definition _delete (fuel : nat) (self : client) (uri : string)
    (kwargs : gmap string pyval) : io Response :=
  __request fuel self "DELETE" uri kwargs.

End WithWorld.

(** Observers of a trace: the calls of [login], and the FORBIDDEN answers
    received. *)
Fixpoint count_logins (tr : list event) : nat :=
  match tr with
  | [] => O
  | LoginCalled :: tr' => S (count_logins tr')
  | _ :: tr' => count_logins tr'
  end.

Fixpoint sent_to (u : string) (tr : list event) : nat :=
  match tr with
  | [] => O
  | Sent _ c _ :: tr' =>
      if String.eqb (c_url c) u then S (sent_to u tr') else sent_to u tr'
  | _ :: tr' => sent_to u tr'
  end.

Fixpoint forbidden_count (tr : list event) : nat :=
  match tr with
  | [] => O
  | Sent _ _ (Responds resp) :: tr' =>
      if status_code resp =? FORBIDDEN then S (forbidden_count tr')
      else forbidden_count tr'
  | _ :: tr' => forbidden_count tr'
  end.

(** A dict key: Python compares and hashes [True], [1] and [1.0] alike. *)
Inductive hkey : Type :=
  | KNone
  | KNum (q : Qc)
  | KStr (s : string).

#[global] Instance hkey_eq_dec : EqDecision hkey.
Proof. solve_decision. Defined.

#[global] Instance hkey_countable : Countable hkey.
Proof.
  refine (inj_countable'
    (fun k => match k with
              | KNone => inl ()
              | KNum q => inr (inl q)
              | KStr s => inr (inr s)
              end)
    (fun x => match x with
              | inl _ => KNone
              | inr (inl q) => KNum q
              | inr (inr s) => KStr s
              end) _).
  intros []; reflexivity.
Defined.

(** The key a value makes in a dict; a list or a dict is unhashable. *)
Definition hash_key (v : pyval) : result hkey :=
  match v with
  | PNone => Ok KNone
  | PBool b => Ok (KNum (Qc_of_Z (if b then 1 else 0)))
  | PInt z => Ok (KNum (Qc_of_Z z))
  | PFloat q => Ok (KNum q)
  | PStr s => Ok (KStr s)
  | _ => Err TypeError
  end.

(** [{t["id"]: t for t in ts}] *)
Definition index_by_id (ts : list pyval) : result (gmap hkey pyval) :=
  foldM (fun targets t =>
           id ← getitem t "id";
           k ← hash_key id;
           Ok (<[k := t]> targets))
        ∅ ts.

Section Resources.
Context `{!Interpreter} `{!Host} `{!World}.

Definition get_obstacles (fuel : nat) (self : client) (frame : string) (lifetime : Qc)
  : io (list Marker * list Marker) :=
  response ← _get fuel self "/api/obstacles" ∅;
  lift (data ← json response; ObstaclesDeserializer.from_dict data frame lifetime).

Definition post_target (fuel : nat) (self : client) (json_target : string)
  : io pyval :=
  response ← _post fuel self "/api/targets" {[ "data" := PStr json_target ]};
  lift (data ← json response; getitem data "id").

Definition get_all_targets (fuel : nat) (self : client) : io (gmap hkey pyval) :=
  response ← _get fuel self "/api/targets" ∅;
  lift (data ← json response; ts ← iter data; index_by_id ts).

(** The [for m in response.json()] loop of [get_active_mission]. *)
Fixpoint first_active (ms : list pyval) (frame : string)
  : result MissionDeserializer.mission :=
  match ms with
  | [] => Err LookupError
  | m :: ms' =>
      active ← getitem m "active";
      if truthy active then MissionDeserializer.from_dict m frame
      else first_active ms' frame
  end.

Definition get_active_mission (fuel : nat) (self : client) (frame : string)
  : io MissionDeserializer.mission :=
  response ← _get fuel self "/api/missions" ∅;
  lift (data ← json response; ms ← iter data; first_active ms frame).

End Resources.

(** Further observers of a trace: the shutdown polls, the sessions closed
    and opened, and the identifiers of the closed sessions. *)
Fixpoint count_polls (tr : list event) : nat :=
  match tr with
  | [] => O
  | Polled _ :: tr' => S (count_polls tr')
  | _ :: tr' => count_polls tr'
  end.

Fixpoint count_closed (tr : list event) : nat :=
  match tr with
  | [] => O
  | Closed _ :: tr' => S (count_closed tr')
  | _ :: tr' => count_closed tr'
  end.

Fixpoint count_opened (tr : list event) : nat :=
  match tr with
  | [] => O
  | Opened _ :: tr' => S (count_opened tr')
  | _ :: tr' => count_opened tr'
  end.

Fixpoint closed_ids (tr : list event) : list nat :=
  match tr with
  | [] => []
  | Closed s :: tr' => s :: closed_ids tr'
  | _ :: tr' => closed_ids tr'
  end.

(** [json.dumps], the encoder of the standard library. *)
Class JsonEncoder : Type := { dumps : gmap string pyval -> string }.

(** ["{:d}".format(id)] (Python 2): the decimal numeral of an integer; any
    other object is refused with [ValueError]. *)
Definition format_d (id : pyval) : result string :=
  match id with
  | PInt z => Ok (pretty z)
  | PBool b => Ok (if b then "1" else "0")
  | _ => Err ValueError
  end.

Section Probing.
Context `{!World}.

(** [requests.get(url, timeout=...)]: the library sends the request through
    a session of its own, which it closes; [self.session] is not involved. *)
Definition requests_get (c : Call) (st : state) : Outcome * state :=
  let sid := next_session st in
  let o := server (Opened sid :: trace st) sid c in
  (o, {| session := session st;
         next_session := S sid;
         trace := Closed sid :: Sent sid c o :: Opened sid :: trace st |}).

(** [response.ok] *)
Definition ok (resp : Response) : bool := is_Ok (raise_for_status resp).

(** The loop of [wait_for_server]; [reachable] is the local variable. The
    bare [except] swallows every exception of the probe. *)
Fixpoint wait_loop (fuel : nat) (self : client) (reachable : bool) : io unit :=
  fun st =>
  match fuel with
  | O => None
  | S fuel' =>
      if reachable then Some (Ok (), st)
      else
        let down := is_shutdown (trace st) in
        let st := log (Polled down) st in
        if down then Some (Ok (), st)
        else
          let c := {| c_method := "GET"; c_url := url self;
                      c_timeout := timeout self; c_kwargs := ∅ |} in
          match requests_get c st with
          | (Responds response, st) =>
              match raise_for_status response with
              | Ok _ => wait_loop fuel' self (ok response) st
              | Err _ => wait_loop fuel' self reachable st
              end
          | (Raises _, st) => wait_loop fuel' self reachable st
          end
  end.

Definition wait_for_server (fuel : nat) (self : client) : io unit :=
  wait_loop fuel self false.

End Probing.

Section MoreResources.
Context `{!Interpreter} `{!Host} `{!World} `{!JsonEncoder}.

Definition post_telemetry (fuel : nat) (self : client)
    (navsat_msg : TelemetrySerializer.NavSatFix) (compass_msg : pyval) : io unit :=
  dict_telem ← lift (TelemetrySerializer.from_msg navsat_msg compass_msg);
  _ ← _post fuel self "/api/telemetry" {[ "data" := PStr (dumps dict_telem) ]};
  mret ().

Definition get_target (fuel : nat) (self : client) (id : pyval) : io pyval :=
  n ← lift (format_d id);
  response ← _get fuel self ("/api/targets/" +:+ n) ∅;
  lift (json response).

Definition get_mission (fuel : nat) (self : client) (id : pyval) (frame : string)
  : io MissionDeserializer.mission :=
  n ← lift (format_d id);
  response ← _get fuel self ("/api/missions/" +:+ n) ∅;
  lift (data ← json response; MissionDeserializer.from_dict data frame).

Definition put_target (fuel : nat) (self : client) (id : pyval) (json_target : string)
  : io unit :=
  n ← lift (format_d id);
  _ ← _put fuel self ("/api/targets/" +:+ n) {[ "data" := PStr json_target ]};
  mret ().

Definition delete_target (fuel : nat) (self : client) (id : pyval) : io unit :=
  n ← lift (format_d id);
  _ ← _delete fuel self ("/api/targets/" +:+ n) ∅;
  mret ().

Definition post_target_image (fuel : nat) (self : client) (id : pyval) (png : string)
  : io unit :=
  n ← lift (format_d id);
  _ ← _post fuel self ("/api/targets/" +:+ n +:+ "/image") {[ "data" := PStr png ]};
  mret ().

Definition delete_target_image (fuel : nat) (self : client) (id : pyval) : io unit :=
  n ← lift (format_d id);
  _ ← _delete fuel self ("/api/targets/" +:+ n +:+ "/image") ∅;
  mret ().

End MoreResources.

End Client.

Import Client.

(* ===================================================================== *)
(** ** Sample collaborators                                              *)
(* ===================================================================== *)

(** Concrete instances on which the statements below are evaluated. *)
Module Samples.

(** An interpreter that reads no numeral from text. *)
Definition plain_interpreter : Interpreter :=
  {| float_of_string := fun _ => None;
     int_of_string := fun _ => None;
     repr := fun _ => "" |}.

(** A projection that places every position at one point of the grid, and
    a clock that counts readings. *)
Definition flat_host : Host :=
  {| from_latlon := fun _ _ => Ok (Qc_of_Z 166021, Qc_of_Z 0);
     get_rostime := fun k => {| secs := Z.of_nat k; nsecs := 0 |} |}.

(** The obstacle payload of the specification's example: one cylinder of
    radius 10 ft and height 20 ft, and no [moving_obstacles] key. *)
Definition one_cylinder : gmap string pyval :=
  {[ "stationary_obstacles" :=
       PList [PDict (<["cylinder_radius" := PInt 10]>
                     (<["cylinder_height" := PInt 20]>
                     (<["latitude" := PInt 0]>
                     (<["longitude" := PInt 0]>
                     (<["altitude_msl" := PInt 0]> ∅)))))] ]}.

(** A wire position. *)
Definition position (lat lon : Z) : pyval :=
  PDict (<["latitude" := PInt lat]> (<["longitude" := PInt lon]>
        (<["altitude_msl" := PInt 100]> ∅))).

(** A mission payload with a fly zone and no [search_grid_points]. *)
Definition no_search_grid : gmap string pyval :=
  <["fly_zones" :=
      PList [PDict (<["altitude_msl_max" := PInt 400]>
                    (<["altitude_msl_min" := PInt 100]>
                    (<["boundary_pts" := PList [position 38 (-76)]]> ∅)))]]>
  (<["mission_waypoints" := PList []]> ∅).

(** A complete mission record with the given [id] and [active] flag. *)
Definition mission_record (id : Z) (active : bool) : pyval :=
  PDict (<["id" := PInt id]> (<["active" := PBool active]>
        (<["fly_zones" := PList []]>
        (<["search_grid_points" := PList []]>
        (<["mission_waypoints" := PList [position 38 (-76)]]>
        (<["air_drop_pos" := position 38 (-76)]>
        (<["off_axis_target_pos" := position 38 (-76)]>
        (<["emergent_last_known_pos" := position 38 (-76)]> ∅)))))))).

(** A server that answers every call with status 200 and the given JSON
    body, while no shutdown is requested. *)
Definition answering (payload : pyval) : World :=
  {| server := fun _ _ _ => Responds {| status_code := 200; body := Some payload |};
     is_shutdown := fun _ => false |}.

Definition a_client : client :=
  fst (__init__ "http://127.0.0.1:8080/" "testuser" "testpass" (Qc_of_Z 1) []).

Definition initial : state :=
  snd (__init__ "http://127.0.0.1:8080/" "testuser" "testpass" (Qc_of_Z 1) []).

Definition login_url : string := "http://127.0.0.1:8080/api/login".

Definition ok_response : Response :=
  {| status_code := 200; body := Some (PList []) |}.

Definition forbidden_response : Response := {| status_code := 403; body := None |}.

(** The stub server of the retry test: it accepts every login and answers
    FORBIDDEN to a request until it has given [n] such answers, then 200. No
    shutdown is requested. *)
Definition forbid_first (n : nat) : World :=
  {| server := fun tr _ c =>
       if String.eqb (c_url c) login_url then Responds ok_response
       else if (forbidden_count tr <? n)%nat then Responds forbidden_response
       else Responds ok_response;
     is_shutdown := fun _ => false |}.

(** A server that answers FORBIDDEN to every call, the login included (the
    account is refused). No shutdown is requested. *)
Definition always_forbidden : World :=
  {| server := fun _ _ _ => Responds forbidden_response;
     is_shutdown := fun _ => false |}.

(** A server whose sessions have expired, with a shutdown requested once the
    client has logged in again. *)
Definition shutdown_after_relogin : World :=
  {| server := fun _ _ c =>
       if String.eqb (c_url c) login_url then Responds ok_response
       else Responds forbidden_response;
     is_shutdown := fun tr => negb (Nat.eqb (count_logins tr) 0) |}.

(** A shutdown requested before the call. *)
Definition already_shut_down : World :=
  {| server := fun _ _ _ => Responds ok_response;
     is_shutdown := fun _ => true |}.

(** A server whose sessions expire at once (every request is answered
    FORBIDDEN, every login accepted) and whose base URL is unreachable for
    probes; a shutdown is requested from the [n]-th poll on. *)
Definition expired_until_shutdown (n : nat) : World :=
  {| server := fun _ _ c =>
       if String.eqb (c_url c) login_url then Responds ok_response
       else if String.eqb (c_method c) "GET" && String.eqb (c_url c) "http://127.0.0.1:8080"
       then Raises ConnectionError
       else Responds forbidden_response;
     is_shutdown := fun tr => (n <=? count_polls tr)%nat |}.

(** A server that refuses connections until it has been probed [n] times. *)
Definition reachable_after (n : nat) : World :=
  {| server := fun tr _ _ =>
       if (count_closed tr <? n)%nat then Raises ConnectionError
       else Responds ok_response;
     is_shutdown := fun _ => false |}.

(** An obstacle payload with one moving sphere and one cylinder. *)
Definition sphere_and_cylinder : gmap string pyval :=
  <["moving_obstacles" :=
      PList [PDict (<["sphere_radius" := PInt 50]>
                    (<["latitude" := PInt 38]>
                    (<["longitude" := PInt (-76)]>
                    (<["altitude_msl" := PInt 200]> ∅))))]]>
  one_cylinder.

(** A target record with the given [id] and description. *)
Definition target_record (id : Z) (description : string) : pyval :=
  PDict (<["id" := PInt id]> (<["description" := PStr description]> ∅)).

(** A target schema in the shape of [Target.msg]: an enumeration, a number,
    a string and a flag; the enumeration messages wrap a string. *)
Definition target_schema : TargetSerializer.Schema :=
  {| TargetSerializer.slots :=
       [("type", TargetSerializer.FEnum TargetType);
        ("latitude", TargetSerializer.FFloat);
        ("description", TargetSerializer.FString);
        ("autonomous", TargetSerializer.FBool)];
     TargetSerializer.enum_default := fun _ => PStr "" |}.

(** A target message over [target_schema]. *)
Definition a_target : gmap string pyval :=
  <["type" := PMsg TargetType (PStr "standard")]>
  (<["latitude" := PFloat (Q2Qc (3815 # 100))]>
  (<["description" := PStr "red triangle"]>
  (<["autonomous" := PBool true]> ∅))).

(** A wire dictionary with a null, an unknown key and a missing field. *)
Definition a_wire_target : gmap string pyval :=
  <["type" := PStr "standard"]>
  (<["latitude" := PInt 38]>
  (<["description" := PNone]>
  (<["user" := PInt 7]> ∅))).

End Samples.

(* ===================================================================== *)
(** ** Unit conversions                                                  *)
(* ===================================================================== *)

Module UnitsSpec.
Section WithInterpreter.
Context `{!Interpreter}.




End WithInterpreter.


End UnitsSpec.

(* ===================================================================== *)
(** ** Timestamps                                                        *)
(* ===================================================================== *)

Module TimeSpec.
Import Dateutil.







#[local] Arguments digits : simpl never.
#[local] Arguments expect : simpl never.
#[local] Arguments fraction : simpl never.




Lemma date_time_naive s t rest : date_time s = Some (t, rest) -> tzinfo t = None.
Proof.
  unfold date_time. intros H.
  repeat match type of H with
  | context [mbind _ ?m] => destruct m as [[? ?]|]; cbn in H; [| discriminate H]
  | context [mbind _ ?m] => destruct m as [?|]; cbn in H; [| discriminate H]
  end.
  injection H as <- _. reflexivity.
Qed.
















End TimeSpec.

(* ===================================================================== *)
(** ** Loops over decoded JSON                                           *)
(* ===================================================================== *)

Module LoopFacts.

Lemma mapM_Forall2 {A B} (f : A -> result B) xs ys :
  mapM f xs = Ok ys -> Forall2 (fun x y => f x = Ok y) xs ys.
Proof.
  revert ys. induction xs as [|x xs IH]; intros ys; cbn.
  - intros [= <-]. constructor.
  - destruct (f x) as [y|e] eqn:Ex; cbn; [| discriminate].
    destruct (mapM f xs) as [ys'|e] eqn:Exs; cbn; [| discriminate].
    intros [= <-]. constructor; [exact Ex | apply IH; reflexivity].
Qed.

Lemma contains_dict key (d : gmap string pyval) :
  contains key (PDict d) = Ok (bool_decide (is_Some (d !! key))).
Proof. reflexivity. Qed.

Lemma contains_absent key (d : gmap string pyval) :
  d !! key = None -> contains key (PDict d) = Ok false.
Proof.
  intros H. rewrite contains_dict. f_equal. apply bool_decide_eq_false.
  rewrite H. intros [? [=]].
Qed.

Lemma contains_present key (d : gmap string pyval) v :
  d !! key = Some v -> contains key (PDict d) = Ok true.
Proof.
  intros H. rewrite contains_dict. f_equal. apply bool_decide_eq_true.
  rewrite H. eauto.
Qed.

End LoopFacts.

(* ===================================================================== *)
(** ** Obstacles                                                         *)
(* ===================================================================== *)

Module ObstaclesSpec.
Import ObstaclesDeserializer LoopFacts.

#[local] Arguments markers_of : simpl never.
#[local] Arguments getitem : simpl never.
#[local] Arguments feet_to_meters : simpl never.

Section WithHost.
Context {interp : Interpreter} {host : Host}.

(** [marker] is the cylinder of the wire entry [obj]: radius and height are
    the converted [cylinder_radius] and [cylinder_height], and the marker
    sits at half its height. *)
Definition cylinder_of (obj : pyval) (marker : Marker) : Prop :=
  exists cr ch radius height,
    getitem obj "cylinder_radius" = Ok cr /\ feet_to_meters cr = Ok radius /\
    getitem obj "cylinder_height" = Ok ch /\ feet_to_meters ch = Ok height /\
    type marker = CYLINDER /\
    sx (scale marker) = radius /\ sy (scale marker) = radius /\
    sz (scale marker) = height /\
    z (position (pose marker)) = (height / Qc_of_Z 2)%Qc.

Lemma stationary_marker_cylinder header lifetime obj marker :
  stationary_marker header lifetime obj = Ok marker -> cylinder_of obj marker.
Proof.
  unfold stationary_marker, cylinder_of. intros H.
  destruct (getitem obj "cylinder_radius") as [cr|] eqn:E1; cbn in H; [| discriminate].
  destruct (feet_to_meters cr) as [radius|] eqn:E2; cbn in H; [| discriminate].
  destruct (getitem obj "cylinder_height") as [ch|] eqn:E3; cbn in H; [| discriminate].
  destruct (feet_to_meters ch) as [height|] eqn:E4; cbn in H; [| discriminate].
  destruct (getitem obj "latitude") as [lat|]; cbn in H; [| discriminate].
  destruct (getitem obj "longitude") as [lon|]; cbn in H; [| discriminate].
  destruct (from_latlon lat lon) as [[e n]|]; cbn in H; [| discriminate].
  injection H as <-. exists cr, ch, radius, height. cbn. tauto.
Qed.

Lemma markers_of_absent key body (d : gmap string pyval) :
  d !! key = None -> markers_of key body (PDict d) = Ok [].
Proof. intros H. unfold markers_of. rewrite (contains_absent _ _ H). reflexivity. Qed.

Lemma markers_of_present key body (d : gmap string pyval) objs :
  d !! key = Some objs -> markers_of key body (PDict d) = for_each objs body.
Proof.
  intros H. unfold markers_of. rewrite (contains_present _ _ _ H). cbn.
  unfold getitem. rewrite H. reflexivity.
Qed.

(** C4: a missing [moving_obstacles] or [stationary_obstacles] key gives the
    empty collection for that category and raises nothing, and every entry
    of [stationary_obstacles] becomes a cylinder marker with the converted
    radius and height, placed at half the converted height. *)
Theorem from_dict_optional_keys (d : gmap string pyval) (frame : string) (lifetime : Qc) :
  let header := {| stamp := get_rostime 0; frame_id := frame |} in
  (d !! "moving_obstacles" = None ->
     from_dict (PDict d) frame lifetime =
       (stationary ← markers_of "stationary_obstacles"
                       (stationary_marker header lifetime) (PDict d);
        Ok ([], stationary))) /\
  (d !! "stationary_obstacles" = None ->
     from_dict (PDict d) frame lifetime =
       (moving ← markers_of "moving_obstacles"
                   (moving_marker header lifetime) (PDict d);
        Ok (moving, []))) /\
  (d !! "moving_obstacles" = None -> d !! "stationary_obstacles" = None ->
     from_dict (PDict d) frame lifetime = Ok ([], [])) /\
  (forall moving stationary objs,
     from_dict (PDict d) frame lifetime = Ok (moving, stationary) ->
     d !! "stationary_obstacles" = Some objs ->
     exists entries, iter objs = Ok entries /\ Forall2 cylinder_of entries stationary).
Proof.
  intros header. unfold from_dict. fold header. repeat split.
  - intros Hm. rewrite (markers_of_absent _ _ _ Hm). reflexivity.
  - intros Hs.
    destruct (markers_of "moving_obstacles" _ _); cbn; [| reflexivity].
    rewrite (markers_of_absent _ _ _ Hs). reflexivity.
  - intros Hm Hs. rewrite (markers_of_absent _ _ _ Hm).
    cbn. rewrite (markers_of_absent _ _ _ Hs). reflexivity.
  - intros moving stationary objs H Hs.
    destruct (markers_of "moving_obstacles" _ _) as [mov|]; cbn in H; [| discriminate].
    rewrite (markers_of_present _ _ _ _ Hs) in H. unfold for_each in H.
    destruct (iter objs) as [entries|]; cbn in H; [| discriminate].
    destruct (mapM _ entries) as [ms|] eqn:Em; cbn in H; [| discriminate].
    injection H as <- <-. exists entries. split; [reflexivity |].
    apply mapM_Forall2 in Em.
    induction Em as [|obj marker objs' ms' Hobj _ IH]; constructor;
      [exact (stationary_marker_cylinder _ _ _ _ Hobj) | exact IH].
Qed.

End WithHost.

(** The example of the specification: no moving obstacle, and one cylinder
    whose height is 20 ft = 6.096 m, at Z = 3.048 m. *)
Lemma from_dict_optional_keys_witness :
  Samples.one_cylinder !! "moving_obstacles" = None /\
  exists marker,
    @from_dict Samples.plain_interpreter Samples.flat_host
      (PDict Samples.one_cylinder) "map" (Qc_of_Z 1) = Ok ([], [marker]) /\
    sz (scale marker) = Q2Qc (6096 # 1000) /\
    z (position (pose marker)) = Q2Qc (3048 # 1000).
Proof.
  assert (Hm : Samples.one_cylinder !! "moving_obstacles" = None) by reflexivity.
  split; [exact Hm |].
  destruct (@from_dict_optional_keys Samples.plain_interpreter Samples.flat_host
              Samples.one_cylinder "map" (Qc_of_Z 1)) as (H1 & _).
  rewrite (H1 Hm).
  eexists. split; [reflexivity |].
  split; apply Qc_is_canon; reflexivity.
Defined.

End ObstaclesSpec.

(* ===================================================================== *)
(** ** Missions                                                          *)
(* ===================================================================== *)

Module MissionSpec.
Import MissionDeserializer LoopFacts.



Section WithHost.
Context {interp : Interpreter} {host : Host}.



#[local] Arguments __get_flyzone : simpl never.
#[local] Arguments __get_search_grid : simpl never.
#[local] Arguments __get_waypoints : simpl never.
#[local] Arguments __get_airdrop_loc : simpl never.
#[local] Arguments __get_offaxis_targ : simpl never.
#[local] Arguments __emergent_object : simpl never.







End WithHost.


End MissionSpec.

(* ===================================================================== *)
(** ** Resource methods of the client                                    *)
(* ===================================================================== *)

Module ResourceSpec.
Import LoopFacts.

(** The record [m] has an [active] field whose truth value is [b]; for the
    boolean of the wire schema, [b] is the field itself. *)
Definition active_is (b : bool) (m : pyval) : Prop :=
  exists v, getitem m "active" = Ok v /\ truthy v = b.

(** The record [m] is a JSON object that is not flagged active: its
    [active] field is false, or absent. *)
Definition not_active (m : pyval) : Prop :=
  exists d : gmap string pyval,
    m = PDict d /\ forall v, d !! "active" = Some v -> truthy v = false.

Lemma active_is_bool (b : bool) (m : pyval) :
  getitem m "active" = Ok (PBool b) -> active_is b m.
Proof. intros H. exists (PBool b). split; [exact H | reflexivity]. Qed.

(** The dict key of a target record: its [id]. *)
Definition key_of (t : pyval) : result hkey :=
  id ← getitem t "id"; hash_key id.

Definition has_key (k : hkey) (t : pyval) : bool :=
  match key_of t with
  | Ok k' => bool_decide (k' = k)
  | Err _ => false
  end.

Lemma last_cons_filter {A} (p : A -> bool) (x : A) (l : list A) :
  list.last (List.filter p (x :: l)) =
    match list.last (List.filter p l) with
    | Some y => Some y
    | None => if p x then Some x else None
    end.
Proof.
  cbn. destruct (p x); [| destruct (list.last (List.filter p l)); reflexivity].
  destruct (List.filter p l) as [|y l'] eqn:E; [reflexivity |].
  rewrite last_cons. destruct (list.last (y :: l')) eqn:El; [reflexivity |].
  apply last_None in El. discriminate.
Qed.

Lemma last_filter_app {A} (p : A -> bool) (l1 l2 : list A) (x : A) :
  p x = true -> Forall (fun y => p y = false) l2 ->
  list.last (List.filter p (l1 ++ x :: l2)) = Some x.
Proof.
  intros Hx Hl2. induction l1 as [|y l1 IH].
  - cbn [app]. rewrite last_cons_filter, Hx.
    replace (List.filter p l2) with (@nil A); [reflexivity |].
    induction Hl2 as [|z l2 Hz _ IH2]; [reflexivity |].
    cbn. rewrite Hz. exact IH2.
  - cbn [app]. rewrite last_cons_filter, IH. reflexivity.
Qed.

(** The dict comprehension, from any starting dict: a key holds the last
    record of the list that has it, or what it held before. *)
Lemma index_fold (ts : list pyval) :
  Forall (fun t => is_Ok (key_of t) = true) ts ->
  forall acc : gmap hkey pyval,
  exists m,
    foldM (fun targets t =>
             id ← getitem t "id"; k ← hash_key id; Ok (<[k := t]> targets))
          acc ts = Ok m /\
    forall k, m !! k = match list.last (List.filter (has_key k) ts) with
                       | Some t => Some t
                       | None => acc !! k
                       end.
Proof.
  induction 1 as [|t ts Ht _ IH]; intros acc.
  - exists acc. split; reflexivity.
  - unfold key_of in Ht. cbn [foldM].
    destruct (getitem t "id") as [id|] eqn:Eid; cbn in Ht;
      cbn [mbind result_bind]; [| discriminate].
    destruct (hash_key id) as [kt|] eqn:Ek; cbn in Ht;
      cbn [mbind result_bind]; [| discriminate].
    destruct (IH (<[kt := t]> acc)) as (m & Hm & Hlook).
    exists m. split; [exact Hm |].
    intros k. rewrite Hlook, last_cons_filter.
    destruct (list.last (List.filter (has_key k) ts)); [reflexivity |].
    unfold has_key, key_of. rewrite Eid. cbn. rewrite Ek.
    destruct (decide (kt = k)) as [-> | Hne].
    + rewrite bool_decide_eq_true_2 by reflexivity. apply lookup_insert_eq.
    + rewrite bool_decide_eq_false_2 by exact Hne. apply lookup_insert_ne, Hne.
Qed.

Lemma index_by_id_lookup (ts : list pyval) :
  Forall (fun t => is_Ok (key_of t) = true) ts ->
  exists m, index_by_id ts = Ok m /\
            forall k, m !! k = list.last (List.filter (has_key k) ts).
Proof.
  intros Hts. destruct (index_fold ts Hts ∅) as (m & Hm & Hlook).
  exists m. split; [exact Hm |].
  intros k. rewrite Hlook, lookup_empty.
  destruct (list.last _); reflexivity.
Qed.

Lemma index_by_id_missing (pre post : list pyval) (d : gmap string pyval) :
  Forall (fun t => is_Ok (key_of t) = true) pre ->
  d !! "id" = None ->
  index_by_id (pre ++ PDict d :: post) = Err (KeyError "id").
Proof.
  intros Hpre Hd. unfold index_by_id. generalize (∅ : gmap hkey pyval).
  induction Hpre as [|t pre Ht _ IH]; intros acc.
  - cbn. rewrite Hd. reflexivity.
  - unfold key_of in Ht. cbn [app foldM].
    destruct (getitem t "id") as [id|]; cbn in Ht |- *; [| discriminate].
    destruct (hash_key id) as [kt|]; cbn in Ht |- *; [| discriminate].
    apply IH.
Qed.

Section WithWorld.
Context {interp : Interpreter} {host : Host} {world : World}.

Lemma first_active_skip (pre rest : list pyval) (frame : string) :
  Forall (active_is false) pre ->
  first_active (pre ++ rest) frame = first_active rest frame.
Proof.
  induction 1 as [|m pre Hm _ IH]; [reflexivity |].
  cbn [app first_active]. destruct Hm as (v & Hv & Hfalse).
  rewrite Hv. cbn [mbind result_bind]. rewrite Hfalse. exact IH.
Qed.

Lemma first_active_none (ms : list pyval) (frame : string) :
  Forall not_active ms ->
  exists e, first_active ms frame = Err e /\ is_LookupError e = true.
Proof.
  induction 1 as [|m ms Hm _ IH].
  - exists LookupError. split; reflexivity.
  - destruct Hm as (d & -> & Hd). cbn [first_active]. unfold getitem.
    destruct (d !! "active") as [v|] eqn:Ev.
    + cbn [mbind result_bind]. rewrite (Hd v eq_refl). exact IH.
    + exists (KeyError "active"). split; reflexivity.
Qed.

(** C3: on the mission list the server returned, [get_active_mission]
    returns the deserialization of the first record whose [active] is true,
    and raises [LookupError] when no record has [active] true; a list of
    records none of which is flagged active raises an exception of the
    [LookupError] class. *)
Theorem get_active_mission_first_active (fuel : nat) (self : client) (frame : string)
    (st st' : state) (response : Response) (ms : list pyval) :
  _get fuel self "/api/missions" ∅ st = Some (Ok response, st') ->
  body response = Some (PList ms) ->
  (forall (pre : list pyval) m post,
     ms = (pre ++ m :: post)%list ->
     Forall (active_is false) pre -> active_is true m ->
     get_active_mission fuel self frame st
       = Some (MissionDeserializer.from_dict m frame, st')) /\
  (Forall (active_is false) ms ->
     get_active_mission fuel self frame st = Some (Err LookupError, st')) /\
  (Forall not_active ms ->
     exists e, get_active_mission fuel self frame st = Some (Err e, st') /\
               is_LookupError e = true).
Proof.
  intros Hget Hbody.
  assert (Hrun : get_active_mission fuel self frame st
                 = Some (first_active ms frame, st')).
  { unfold get_active_mission, mbind at 1, io_bind. rewrite Hget.
    unfold lift, json. rewrite Hbody. reflexivity. }
  split; [| split].
  - intros pre m post -> Hpre Hm. rewrite Hrun. f_equal. f_equal.
    rewrite (first_active_skip _ _ _ Hpre). cbn [first_active].
    destruct Hm as (v & Hv & Htrue). rewrite Hv. cbn [mbind result_bind].
    rewrite Htrue. reflexivity.
  - intros Hnone. rewrite Hrun. f_equal. f_equal.
    rewrite <- (app_nil_r ms). rewrite (first_active_skip _ _ _ Hnone).
    reflexivity.
  - intros Hnone. rewrite Hrun.
    destruct (first_active_none ms frame Hnone) as (e & He & Hclass).
    exists e. rewrite He. split; [reflexivity | exact Hclass].
Qed.

(** C10: on the target list the server returned, [get_all_targets] returns
    a dict keyed by each record's [id]; a key holds the last record of the
    list with that [id], so of two records with the same [id] the later one
    is kept; a record without [id] raises [KeyError]. *)
Theorem get_all_targets_by_id (fuel : nat) (self : client)
    (st st' : state) (response : Response) (ts : list pyval) :
  _get fuel self "/api/targets" ∅ st = Some (Ok response, st') ->
  body response = Some (PList ts) ->
  (Forall (fun t => is_Ok (key_of t) = true) ts ->
     exists targets,
       get_all_targets fuel self st = Some (Ok targets, st') /\
       (forall k, targets !! k = list.last (List.filter (has_key k) ts)) /\
       (forall (l1 : list pyval) t1 (l2 : list pyval) t2 l3 k,
          ts = (l1 ++ t1 :: l2 ++ t2 :: l3)%list ->
          key_of t1 = Ok k -> key_of t2 = Ok k ->
          Forall (fun t => has_key k t = false) l3 ->
          targets !! k = Some t2)) /\
  (forall (pre : list pyval) d post,
     ts = (pre ++ PDict d :: post)%list ->
     Forall (fun t => is_Ok (key_of t) = true) pre -> d !! "id" = None ->
     get_all_targets fuel self st = Some (Err (KeyError "id"), st')).
Proof.
  intros Hget Hbody.
  assert (Hrun : get_all_targets fuel self st = Some (index_by_id ts, st')).
  { unfold get_all_targets, mbind at 1, io_bind. rewrite Hget.
    unfold lift, json. rewrite Hbody. reflexivity. }
  split.
  - intros Hts. destruct (index_by_id_lookup ts Hts) as (m & Hm & Hlook).
    exists m. rewrite Hrun, Hm. split; [reflexivity |]. split; [exact Hlook |].
    intros l1 t1 l2 t2 l3 k -> _ H2 Hl3. rewrite Hlook.
    replace (l1 ++ t1 :: l2 ++ t2 :: l3)%list
      with ((l1 ++ t1 :: l2) ++ t2 :: l3)%list
      by (rewrite <- app_assoc; reflexivity).
    apply last_filter_app; [| exact Hl3].
    unfold has_key. rewrite H2. apply bool_decide_eq_true_2. reflexivity.
  - intros pre d post -> Hpre Hd. rewrite Hrun.
    rewrite (index_by_id_missing _ _ _ Hpre Hd). reflexivity.
Qed.

End WithWorld.

(** The example of the specification: of the missions 1 (inactive) and 2
    (active), the second is deserialized and returned. *)
Lemma get_active_mission_first_active_witness :
  let missions := [Samples.mission_record 1 false; Samples.mission_record 2 true] in
  let world := Samples.answering (PList missions) in
  exists response st',
    @_get world 1 Samples.a_client "/api/missions" ∅ Samples.initial
      = Some (Ok response, st') /\
    body response = Some (PList missions) /\
    Forall (active_is false) [Samples.mission_record 1 false] /\
    active_is true (Samples.mission_record 2 true) /\
    @get_active_mission Samples.plain_interpreter Samples.flat_host world
        1 Samples.a_client "map" Samples.initial
      = Some (@MissionDeserializer.from_dict Samples.plain_interpreter
                Samples.flat_host (Samples.mission_record 2 true) "map", st') /\
    is_Ok (@MissionDeserializer.from_dict Samples.plain_interpreter
             Samples.flat_host (Samples.mission_record 2 true) "map") = true.
Proof.
  intros missions world.
  destruct (@_get world 1 Samples.a_client "/api/missions" ∅ Samples.initial)
    as [[[response|e] st']|] eqn:Hget; try (vm_compute in Hget; discriminate Hget).
  assert (Hbody : body response = Some (PList missions))
    by (vm_compute in Hget; injection Hget as <- _; reflexivity).
  assert (H1 : Forall (active_is false) [Samples.mission_record 1 false])
    by (constructor; [apply active_is_bool; reflexivity | constructor]).
  assert (H2 : active_is true (Samples.mission_record 2 true))
    by (apply active_is_bool; reflexivity).
  exists response, st'.
  split; [reflexivity |]. split; [exact Hbody |].
  split; [exact H1 |]. split; [exact H2 |]. split.
  - exact (proj1 (@get_active_mission_first_active Samples.plain_interpreter
                    Samples.flat_host world 1 Samples.a_client "map"
                    Samples.initial st' response missions Hget Hbody)
                 [Samples.mission_record 1 false] (Samples.mission_record 2 true)
                 [] eq_refl H1 H2).
  - reflexivity.
Defined.

(** Of two records with [id] 1, the later one is the value at key 1. *)
Lemma get_all_targets_by_id_witness :
  let first := Samples.target_record 1 "first" in
  let other := Samples.target_record 2 "other" in
  let again := Samples.target_record 1 "again" in
  let world := Samples.answering (PList [first; other; again]) in
  exists response st' targets,
    @_get world 1 Samples.a_client "/api/targets" ∅ Samples.initial
      = Some (Ok response, st') /\
    body response = Some (PList [first; other; again]) /\
    Forall (fun t => is_Ok (key_of t) = true) [first; other; again] /\
    @get_all_targets world 1 Samples.a_client Samples.initial
      = Some (Ok targets, st') /\
    targets !! KNum (Qc_of_Z 1) = Some again.
Proof.
  intros first other again world.
  destruct (@_get world 1 Samples.a_client "/api/targets" ∅ Samples.initial)
    as [[[response|e] st']|] eqn:Hget; try (vm_compute in Hget; discriminate Hget).
  assert (Hbody : body response = Some (PList [first; other; again]))
    by (vm_compute in Hget; injection Hget as <- _; reflexivity).
  assert (Hts : Forall (fun t => is_Ok (key_of t) = true) [first; other; again])
    by (repeat constructor).
  destruct (proj1 (@get_all_targets_by_id world 1 Samples.a_client
                     Samples.initial st' response [first; other; again]
                     Hget Hbody) Hts) as (targets & Hrun & _ & Hlater).
  exists response, st', targets.
  split; [reflexivity |]. split; [exact Hbody |]. split; [exact Hts |].
  split; [exact Hrun |].
  apply (Hlater [] first [other] again [] (KNum (Qc_of_Z 1)));
    [reflexivity | reflexivity | reflexivity | constructor].
Defined.

End ResourceSpec.

(* ===================================================================== *)
(** ** Targets                                                           *)
(* ===================================================================== *)

Module TargetSpec.
Import TargetSerializer LoopFacts.

Lemma foldM_ext {A B} (f g : A -> B -> result A) (l : list B) :
  (forall acc x, x ∈ l -> f acc x = g acc x) ->
  forall acc, foldM f acc l = foldM g acc l.
Proof.
  induction l as [|x l IH]; intros Hfg acc; [reflexivity |].
  cbn [foldM]. rewrite (Hfg acc x) by (left).
  destruct (g acc x) as [acc'|e]; cbn; [| reflexivity].
  apply IH. intros acc0 y Hy. apply Hfg. right. exact Hy.
Qed.

Section WithSchema.
Context {interp : Interpreter} {schema : Schema}.

(** The Python type a field of declared type [ty] holds. *)
Definition domain_type (ty : ftype) : pytype :=
  match ty with
  | FBool => TyBool
  | FInt => TyInt
  | FFloat => TyFloat
  | FString => TyStr
  | FEnum cls => TyMsg cls
  end.

(** [v] is a non-null value of declared type [ty]; an enumeration message
    wraps a non-null scalar. *)
Definition has_type (ty : ftype) (v : pyval) : bool :=
  match ty, v with
  | FBool, PBool _ => true
  | FInt, PInt _ => true
  | FFloat, PFloat _ => true
  | FString, PStr _ => true
  | FEnum cls, PMsg cls' data => bool_decide (cls = cls') && negb (is_None data)
  | _, _ => false
  end.

(** A [Target] message: every slot holds a non-null value of its declared
    type, and there is no attribute besides the slots. *)
Definition well_formed (t : gmap string pyval) : Prop :=
  (forall n ty, (n, ty) ∈ slots -> exists v, t !! n = Some v /\ has_type ty v = true) /\
  (forall n, n ∉ __slots__ -> t !! n = None).

(** The step of the loop of [from_dict]. *)
Definition set_slot (data : pyval) (msg : gmap string pyval) (attribute : string)
  : result (gmap string pyval) :=
  present ← contains attribute data;
  if present : bool then
    current ← getattr msg attribute;
    value ← getitem data attribute;
    if is_None value then Ok msg
    else v ← call (type_of current) value; Ok (<[attribute := v]> msg)
  else Ok msg.

Lemma from_dict_unfold data : from_dict data = foldM (set_slot data) Target __slots__.
Proof. reflexivity. Qed.

(** The step of the loop of [from_msg]. *)
Definition copy_slot (msg data : gmap string pyval) (attribute : string)
  : result (gmap string pyval) :=
  value ← getattr msg attribute; Ok (<[attribute := unwrap value]> data).

Lemma from_msg_unfold msg : from_msg msg = foldM (copy_slot msg) ∅ __slots__.
Proof. reflexivity. Qed.

Lemma type_of_default ty : type_of (default_of ty) = domain_type ty.
Proof. destruct ty; reflexivity. Qed.

Lemma has_type_type_of ty v : has_type ty v = true -> type_of v = domain_type ty.
Proof.
  destruct ty, v; cbn; try discriminate; try reflexivity.
  intros Hc. apply andb_prop in Hc as [Hc _].
  apply bool_decide_eq_true in Hc. subst. reflexivity.
Qed.

Lemma has_type_not_None ty v : has_type ty v = true -> is_None (unwrap v) = false.
Proof.
  destruct ty, v; cbn; try discriminate; try reflexivity.
  intros Hc. apply andb_prop in Hc as [_ Hc].
  apply negb_true_iff in Hc. exact Hc.
Qed.

(** Calling the type of a typed value on its wire form rebuilds it. *)
Lemma call_unwrap ty v :
  has_type ty v = true -> call (type_of v) (unwrap v) = Ok v.
Proof. destruct ty, v; cbn; try discriminate; reflexivity. Qed.

Lemma slot_in_names n ty : (n, ty) ∈ slots -> n ∈ __slots__.
Proof.
  intros Hin. unfold __slots__. apply list_elem_of_fmap.
  exists (n, ty). split; [reflexivity | exact Hin].
Qed.

Lemma name_in_slots n : n ∈ __slots__ -> exists ty, (n, ty) ∈ slots.
Proof.
  unfold __slots__. intros Hin. apply list_elem_of_fmap in Hin as ([n' ty] & -> & Hin).
  exists ty. exact Hin.
Qed.

Lemma Target_names : (prod_map id default_of <$> slots).*1 = __slots__.
Proof.
  unfold __slots__. induction slots as [|[n ty] l IH]; [reflexivity |].
  cbn. f_equal. exact IH.
Qed.

(** A fresh message holds a default of a declared type in each slot. *)
Lemma Target_lookup_name n :
  n ∈ __slots__ -> exists ty, (n, ty) ∈ slots /\ Target !! n = Some (default_of ty).
Proof.
  intros Hn. unfold Target.
  destruct (list_to_map (prod_map id default_of <$> slots) !! n) as [v|] eqn:E.
  - apply elem_of_list_to_map_2 in E.
    apply list_elem_of_fmap in E as ([n' ty] & [= -> ->] & Hin).
    exists ty. split; [exact Hin | reflexivity].
  - apply not_elem_of_list_to_map_2 in E. rewrite Target_names in E. contradiction.
Qed.

Lemma Target_lookup_other n : n ∉ __slots__ -> Target !! n = None.
Proof.
  intros Hn. unfold Target. apply not_elem_of_list_to_map_1.
  rewrite Target_names. exact Hn.
Qed.

Lemma Target_lookup_slot n ty :
  NoDup __slots__ -> (n, ty) ∈ slots -> Target !! n = Some (default_of ty).
Proof.
  intros Hnd Hin. unfold Target. apply elem_of_list_to_map_1.
  - rewrite Target_names. exact Hnd.
  - apply list_elem_of_fmap. exists (n, ty). split; [reflexivity | exact Hin].
Qed.

(** The loop of [from_msg], from any starting dict: every listed attribute
    that the message has is copied, unwrapped. *)
Lemma from_msg_fold (t : gmap string pyval) (names : list string) :
  (forall n, n ∈ names -> is_Some (t !! n)) ->
  forall acc : gmap string pyval,
  exists data,
    foldM (copy_slot t) acc names = Ok data /\
    forall n, data !! n = if decide (n ∈ names) then unwrap <$> t !! n else acc !! n.
Proof.
  induction names as [|a names IH]; intros Hall acc.
  - exists acc. split; [reflexivity |]. intros n.
    destruct (decide (n ∈ [])) as [Hin|]; [| reflexivity].
    apply elem_of_nil in Hin. destruct Hin.
  - destruct (Hall a ltac:(left)) as [v Hv].
    assert (Hstep : copy_slot t acc a = Ok (<[a := unwrap v]> acc))
      by (unfold copy_slot, getattr; rewrite Hv; reflexivity).
    cbn [foldM]. rewrite Hstep. cbn [mbind result_bind].
    destruct (IH (fun n Hn => Hall n ltac:(right; exact Hn))
                 (<[a := unwrap v]> acc)) as (data & Hdata & Hlook).
    exists data. split; [exact Hdata |]. intros n. rewrite Hlook.
    destruct (decide (n ∈ names)) as [Hin | Hnin].
    + rewrite decide_True by (right; exact Hin). reflexivity.
    + destruct (decide (n = a)) as [-> | Hne].
      * rewrite decide_True by left. rewrite lookup_insert_eq, Hv. reflexivity.
      * rewrite decide_False by (intros Hc; apply elem_of_cons in Hc as [? | ?]; tauto).
        apply lookup_insert_ne. congruence.
Qed.

(** The loop of [from_dict] on the serialization of a well-formed message
    [t]: each visited slot takes the value it has in [t]. *)
Lemma round_trip_fold (t data : gmap string pyval) :
  well_formed t ->
  (forall n, n ∈ __slots__ -> data !! n = unwrap <$> t !! n) ->
  forall names msg,
    (forall n, n ∈ names -> n ∈ __slots__) ->
    (forall n, n ∈ __slots__ ->
       msg !! n = t !! n \/
       exists ty, (n, ty) ∈ slots /\ msg !! n = Some (default_of ty)) ->
    exists msg',
      foldM (set_slot (PDict data)) msg names = Ok msg' /\
      (forall n, n ∈ names -> msg' !! n = t !! n) /\
      (forall n, n ∉ names -> msg' !! n = msg !! n).
Proof.
  intros [Hty Hdom] Hdata.
  induction names as [|a names IH]; intros msg Hsub Hinv.
  - exists msg. split; [reflexivity |]. split; [| reflexivity].
    intros n Hin. apply elem_of_nil in Hin. destruct Hin.
  - assert (Ha : a ∈ __slots__) by (apply Hsub; left).
    destruct (name_in_slots a Ha) as [ty0 Hty0].
    destruct (Hty a ty0 Hty0) as (v & Hv & Hvt).
    assert (Hstep : set_slot (PDict data) msg a = Ok (<[a := v]> msg)).
    { unfold set_slot.
      rewrite (contains_present a data (unwrap v))
        by (rewrite (Hdata a Ha), Hv; reflexivity).
      cbn [mbind result_bind].
      assert (Hcur : exists current,
                 msg !! a = Some current /\ type_of current = type_of v).
      { destruct (Hinv a Ha) as [Heq | (ty' & Hin' & Hdef)].
        - exists v. split; [congruence | reflexivity].
        - exists (default_of ty'). split; [exact Hdef |].
          destruct (Hty a ty' Hin') as (v' & Hv' & Hvt').
          assert (v' = v) by congruence. subst v'.
          rewrite type_of_default. symmetry. apply has_type_type_of. exact Hvt'. }
      destruct Hcur as (current & Hcur & Htype).
      unfold getattr. rewrite Hcur. cbn [mbind result_bind].
      unfold getitem. rewrite (Hdata a Ha), Hv. cbn [fmap option_fmap option_map mbind result_bind].
      rewrite (has_type_not_None _ _ Hvt), Htype, (call_unwrap _ _ Hvt).
      reflexivity. }
    cbn [foldM]. rewrite Hstep. cbn [mbind result_bind].
    destruct (IH (<[a := v]> msg)) as (msg' & Hrun & Hin & Hout).
    { intros n Hn. apply Hsub. right. exact Hn. }
    { intros n Hn. destruct (decide (n = a)) as [-> | Hne].
      - left. rewrite lookup_insert_eq. congruence.
      - rewrite lookup_insert_ne by congruence. apply Hinv. exact Hn. }
    exists msg'. split; [exact Hrun |]. split.
    + intros n Hn. destruct (decide (n ∈ names)) as [Hnn | Hnn]; [apply Hin, Hnn |].
      apply elem_of_cons in Hn as [-> | Hn]; [| contradiction].
      rewrite (Hout a Hnn), lookup_insert_eq. congruence.
    + intros n Hn. rewrite Hout by (intros Hc; apply Hn; right; exact Hc).
      apply lookup_insert_ne. intros ->. apply Hn. left.
Qed.

(** What [from_dict] leaves in a slot that held [dflt], given the wire
    dictionary [d]. *)
Definition slot_outcome (d : gmap string pyval) (n : string) (dflt : pyval)
  : result pyval :=
  match d !! n with
  | Some v => if is_None v then Ok dflt else call (type_of dflt) v
  | None => Ok dflt
  end.

Lemma set_slot_outcome (d msg : gmap string pyval) (a : string) (dflt : pyval) :
  msg !! a = Some dflt ->
  set_slot (PDict d) msg a = (v ← slot_outcome d a dflt; Ok (<[a := v]> msg)).
Proof.
  intros Hmsg. unfold set_slot, slot_outcome.
  destruct (d !! a) as [v|] eqn:Ed.
  - rewrite (contains_present _ _ _ Ed). cbn [mbind result_bind].
    unfold getattr, getitem. rewrite Hmsg, Ed. cbn [mbind result_bind].
    destruct (is_None v); [| reflexivity].
    cbn [mbind result_bind]. rewrite insert_id by exact Hmsg. reflexivity.
  - rewrite (contains_absent _ _ Ed). cbn [mbind result_bind].
    rewrite insert_id by exact Hmsg. reflexivity.
Qed.

(** The loop of [from_dict] on any wire dictionary, over distinct slots. *)
Lemma permissive_fold (d : gmap string pyval) (names : list string) :
  NoDup names ->
  forall msg : gmap string pyval,
    (forall n, n ∈ names -> is_Some (msg !! n)) ->
    match foldM (set_slot (PDict d)) msg names with
    | Ok msg' =>
        (forall n dflt, n ∈ names -> msg !! n = Some dflt ->
           exists v, slot_outcome d n dflt = Ok v /\ msg' !! n = Some v) /\
        (forall n, n ∉ names -> msg' !! n = msg !! n)
    | Err e =>
        exists n dflt, n ∈ names /\ msg !! n = Some dflt /\
                       slot_outcome d n dflt = Err e
    end.
Proof.
  induction 1 as [|a names Ha Hnd IH]; intros msg Hall.
  - cbn. split; [| reflexivity].
    intros n dflt Hin. apply elem_of_nil in Hin. destruct Hin.
  - destruct (Hall a ltac:(left)) as [dflt Hdflt].
    cbn [foldM]. rewrite (set_slot_outcome _ _ _ _ Hdflt).
    destruct (slot_outcome d a dflt) as [v|e] eqn:Eo; cbn [mbind result_bind].
    + assert (Hall' : forall n, n ∈ names -> is_Some (<[a := v]> msg !! n)).
      { intros n Hn. rewrite lookup_insert_ne by (intros ->; contradiction).
        apply Hall. right. exact Hn. }
      specialize (IH (<[a := v]> msg) Hall').
      destruct (foldM (set_slot (PDict d)) (<[a := v]> msg) names) as [msg'|e].
      * destruct IH as [Hin Hout]. split.
        -- intros n dflt' Hn Hmsg. apply elem_of_cons in Hn as [-> | Hn].
           ++ exists v. assert (dflt' = dflt) by congruence. subst dflt'.
              split; [exact Eo |]. rewrite (Hout a Ha). apply lookup_insert_eq.
           ++ apply Hin; [exact Hn |].
              rewrite lookup_insert_ne by (intros ->; contradiction). exact Hmsg.
        -- intros n Hn. rewrite Hout by (intros Hc; apply Hn; right; exact Hc).
           apply lookup_insert_ne. intros ->. apply Hn. left.
      * destruct IH as (n & dflt' & Hn & Hmsg & Hout).
        exists n, dflt'. split; [right; exact Hn |]. split; [| exact Hout].
        rewrite lookup_insert_ne in Hmsg by (intros ->; contradiction). exact Hmsg.
    + exists a, dflt. split; [left |]. split; [exact Hdflt | exact Eo].
Qed.

(** C5: serializing a well-formed [Target] message and deserializing the
    resulting dictionary gives the message back, field for field; the
    dictionary holds the scalar of each enumeration message, which
    deserialization wraps again. *)
Theorem target_round_trip (t : gmap string pyval) :
  well_formed t ->
  exists data,
    from_msg t = Ok data /\
    (forall n v, n ∈ __slots__ -> t !! n = Some v -> data !! n = Some (unwrap v)) /\
    (forall n cls, (n, FEnum cls) ∈ slots ->
       exists scalar, t !! n = Some (PMsg cls scalar) /\ data !! n = Some scalar) /\
    from_dict (PDict data) = Ok t.
Proof.
  intros Hwf. pose proof Hwf as [Hty Hdom].
  assert (Hall : forall n, n ∈ __slots__ -> is_Some (t !! n)).
  { intros n Hn. destruct (name_in_slots n Hn) as [ty Hin].
    destruct (Hty n ty Hin) as (v & Hv & _). eauto. }
  destruct (from_msg_fold t __slots__ Hall ∅) as (data & Hdata & Hlook).
  assert (Hslots : forall n, n ∈ __slots__ -> data !! n = unwrap <$> t !! n).
  { intros n Hn. rewrite Hlook, decide_True by exact Hn. reflexivity. }
  exists data. rewrite from_msg_unfold. split; [exact Hdata |]. split; [| split].
  - intros n v Hn Hv. rewrite (Hslots n Hn), Hv. reflexivity.
  - intros n cls Hin. destruct (Hty n _ Hin) as (v & Hv & Hvt).
    destruct v; cbn in Hvt; try discriminate.
    apply andb_prop in Hvt as [Hc _]. apply bool_decide_eq_true in Hc. subst.
    eexists. split; [exact Hv |].
    rewrite (Hslots n (slot_in_names _ _ Hin)), Hv. reflexivity.
  - rewrite from_dict_unfold.
    destruct (round_trip_fold t data Hwf Hslots __slots__ Target)
      as (msg' & Hrun & Hin & Hout).
    { intros n Hn. exact Hn. }
    { intros n Hn. right. apply Target_lookup_name. exact Hn. }
    rewrite Hrun. f_equal. apply map_eq. intros n.
    destruct (decide (n ∈ __slots__)) as [Hn | Hn]; [apply Hin, Hn |].
    rewrite (Hout n Hn), (Target_lookup_other n Hn), (Hdom n Hn). reflexivity.
Qed.

(** C8: [from_dict] on any dictionary: a declared field present with a
    non-null value is converted to the field's type and set, a field that is
    null or missing keeps its default, the only exception is that of a
    failed conversion, and a key that is not a declared field changes
    nothing. *)
Theorem from_dict_permissive (d : gmap string pyval) :
  NoDup __slots__ ->
  (forall msg, from_dict (PDict d) = Ok msg ->
     forall n ty, (n, ty) ∈ slots ->
       match d !! n with
       | Some v =>
           if is_None v then msg !! n = Some (default_of ty)
           else exists v', call (domain_type ty) v = Ok v' /\ msg !! n = Some v'
       | None => msg !! n = Some (default_of ty)
       end) /\
  (forall e, from_dict (PDict d) = Err e ->
     exists n ty v, (n, ty) ∈ slots /\ d !! n = Some v /\ v <> PNone /\
                    call (domain_type ty) v = Err e) /\
  (forall k v, k ∉ __slots__ ->
     from_dict (PDict (<[k := v]> d)) = from_dict (PDict d)).
Proof.
  intros Hnd.
  assert (Hall : forall n, n ∈ __slots__ -> is_Some (Target !! n)).
  { intros n Hn. destruct (Target_lookup_name n Hn) as (ty & _ & Hl). eauto. }
  pose proof (permissive_fold d __slots__ Hnd Target Hall) as Hfold.
  rewrite <- from_dict_unfold in Hfold.
  split; [| split].
  - intros msg Hmsg n ty Hin. rewrite Hmsg in Hfold. destruct Hfold as [Hset _].
    destruct (Hset n (default_of ty) (slot_in_names _ _ Hin)
                (Target_lookup_slot n ty Hnd Hin)) as (v' & Hout & Hv').
    unfold slot_outcome in Hout. rewrite type_of_default in Hout.
    destruct (d !! n) as [v|].
    + destruct (is_None v).
      * injection Hout as <-. exact Hv'.
      * exists v'. split; [exact Hout | exact Hv'].
    + injection Hout as <-. exact Hv'.
  - intros e He. rewrite He in Hfold.
    destruct Hfold as (n & dflt & Hn & Hdflt & Hout).
    destruct (name_in_slots n Hn) as [ty Hin].
    rewrite (Target_lookup_slot n ty Hnd Hin) in Hdflt. injection Hdflt as <-.
    unfold slot_outcome in Hout. rewrite type_of_default in Hout.
    destruct (d !! n) as [v|] eqn:Ed; [| discriminate].
    destruct (is_None v) eqn:Ev; [discriminate |].
    exists n, ty, v. split; [exact Hin |]. split; [exact Ed |].
    split; [| exact Hout]. intros ->. discriminate.
  - intros k v Hk. rewrite !from_dict_unfold. apply foldM_ext.
    intros msg n Hn. unfold set_slot, contains, getitem.
    rewrite lookup_insert_ne by (intros ->; contradiction). reflexivity.
Qed.

End WithSchema.

Lemma a_target_well_formed :
  @well_formed Samples.target_schema Samples.a_target.
Proof.
  split.
  - intros n ty Hin. cbn in Hin.
    repeat (apply elem_of_cons in Hin as [[= -> ->] | Hin];
            [eexists; split; reflexivity |]).
    apply elem_of_nil in Hin. destruct Hin.
  - intros n Hn. unfold Samples.a_target.
    assert (Hne : forall k, k ∈ @__slots__ Samples.target_schema -> k <> n)
      by (intros k Hk ->; contradiction).
    rewrite !lookup_insert_ne by (apply Hne, list_elem_of_In; cbn; tauto).
    apply lookup_empty.
Qed.

Lemma target_round_trip_witness :
  @well_formed Samples.target_schema Samples.a_target /\
  exists data,
    @from_msg Samples.target_schema Samples.a_target = Ok data /\
    data !! "type" = Some (PStr "standard") /\
    @from_dict Samples.plain_interpreter Samples.target_schema (PDict data)
      = Ok Samples.a_target.
Proof.
  split; [exact a_target_well_formed |].
  destruct (@target_round_trip Samples.plain_interpreter Samples.target_schema
              Samples.a_target a_target_well_formed)
    as (data & Hser & Hcopy & _ & Hback).
  exists data. split; [exact Hser |]. split; [| exact Hback].
  apply (Hcopy "type" (PMsg TargetType (PStr "standard")));
    [apply list_elem_of_In; cbn; tauto | reflexivity].
Defined.

Lemma sample_slots_NoDup : NoDup (@__slots__ Samples.target_schema).
Proof.
  cbn. repeat (constructor; [rewrite list_elem_of_In; cbn; intuition discriminate |]).
  constructor.
Qed.

(** On a wire dictionary with a string for the enumeration, an integer for
    the number, a null, an unknown key and a missing flag. *)
Lemma from_dict_permissive_witness :
  NoDup (@__slots__ Samples.target_schema) /\
  exists msg,
    @from_dict Samples.plain_interpreter Samples.target_schema
      (PDict Samples.a_wire_target) = Ok msg /\
    msg !! "type" = Some (PMsg TargetType (PStr "standard")) /\
    msg !! "latitude" = Some (PFloat (Qc_of_Z 38)) /\
    msg !! "description" = Some (PStr "") /\
    msg !! "autonomous" = Some (PBool false).
Proof.
  split; [exact sample_slots_NoDup |].
  destruct (@from_dict_permissive Samples.plain_interpreter Samples.target_schema
              Samples.a_wire_target sample_slots_NoDup) as (Hok & _ & _).
  destruct (@from_dict Samples.plain_interpreter Samples.target_schema
              (PDict Samples.a_wire_target)) as [msg|e] eqn:E;
    [| vm_compute in E; discriminate E].
  exists msg. split; [reflexivity |].
  assert (Hin : forall n ty,
            In (n, ty) (@slots Samples.target_schema) ->
            (n, ty) ∈ @slots Samples.target_schema)
    by (intros n ty; apply list_elem_of_In).
  pose proof (Hok msg eq_refl "type" (FEnum TargetType)
                (Hin "type" (FEnum TargetType) ltac:(cbn; tauto))) as Htype.
  pose proof (Hok msg eq_refl "latitude" FFloat
                (Hin "latitude" FFloat ltac:(cbn; tauto))) as Hlat.
  pose proof (Hok msg eq_refl "description" FString
                (Hin "description" FString ltac:(cbn; tauto))) as Hdesc.
  pose proof (Hok msg eq_refl "autonomous" FBool
                (Hin "autonomous" FBool ltac:(cbn; tauto))) as Hauto.
  cbn in Htype, Hlat, Hdesc, Hauto.
  destruct Htype as (v1 & [= <-] & Htype). destruct Hlat as (v2 & [= <-] & Hlat).
  repeat split; assumption.
Defined.

End TargetSpec.

(* ===================================================================== *)
(** ** The request loop                                                  *)
(* ===================================================================== *)

Module RequestSpec.

(** The state in which [login] is called after a FORBIDDEN answer [r] to
    [call]: the poll and the exchange are logged, the old session is closed
    and a fresh one is current. *)
Definition after_forbidden (call : Call) (r : Response) (st : state) : state :=
  new_session
    (close_session
       (log (Sent (session st) call (Responds r)) (log (Polled false) st))).

Section WithWorld.
Context {world : World}.

Lemma request_loop_shutdown fuel self method uri kwargs response st :
  is_shutdown (trace st) = true ->
  request_loop (S fuel) self method uri kwargs response st
    = Some (return_response response, log (Polled true) st).
Proof. intros Hdown. cbn [request_loop]. rewrite Hdown. reflexivity. Qed.

Lemma request_loop_forbidden fuel self method uri kwargs response st r :
  is_shutdown (trace st) = false ->
  server (Polled false :: trace st) (session st)
         (request_call self method uri kwargs) = Responds r ->
  status_code r = FORBIDDEN ->
  request_loop (S fuel) self method uri kwargs response st =
    match login self (after_forbidden (request_call self method uri kwargs) r st) with
    | Some (Ok _, st2) => request_loop fuel self method uri kwargs (Some r) st2
    | Some (Err e, st2) => Some (Err e, st2)
    | None => None
    end.
Proof.
  intros Hdown Hserver Hstatus. cbn [request_loop]. rewrite Hdown.
  unfold session_request. cbn [log trace session]. rewrite Hserver, Hstatus.
  reflexivity.
Qed.

Lemma request_loop_answered fuel self method uri kwargs response st r :
  is_shutdown (trace st) = false ->
  server (Polled false :: trace st) (session st)
         (request_call self method uri kwargs) = Responds r ->
  status_code r <> FORBIDDEN ->
  request_loop (S fuel) self method uri kwargs response st =
    Some (_ ← raise_for_status r; Ok r,
          log (Sent (session st) (request_call self method uri kwargs) (Responds r))
              (log (Polled false) st)).
Proof.
  intros Hdown Hserver Hstatus. cbn [request_loop]. rewrite Hdown.
  unfold session_request. cbn [log trace session]. rewrite Hserver.
  rewrite (proj2 (Z.eqb_neq _ _) Hstatus).
  destruct (raise_for_status r) as [[]|e]; reflexivity.
Qed.

(** A response returned while no shutdown poll ended the loop went through
    [raise_for_status] and is not FORBIDDEN. *)
Lemma returned_not_forbidden fuel self method uri kwargs :
  forall response st r st',
    request_loop fuel self method uri kwargs response st = Some (Ok r, st') ->
    head (trace st') <> Some (Polled true) ->
    status_code r <> FORBIDDEN /\ raise_for_status r = Ok ().
Proof.
  induction fuel as [|fuel IH]; intros response st r st' Hrun Hlast;
    [discriminate |].
  cbn [request_loop] in Hrun.
  destruct (is_shutdown (trace st)).
  { injection Hrun as _ <-. cbn in Hlast. congruence. }
  destruct (session_request _ _) as [[r1|e] st1]; [| discriminate].
  destruct (status_code r1 =? FORBIDDEN) eqn:E403.
  - destruct (login self _) as [[[[]|e] st2]|]; try discriminate.
    exact (IH _ _ _ _ Hrun Hlast).
  - destruct (raise_for_status r1) as [[]|e] eqn:Eraise; [| discriminate].
    cbn in Hrun. injection Hrun as <- <-.
    split; [apply Z.eqb_neq; exact E403 | exact Eraise].
Qed.

End WithWorld.

(** *** The stub server *)

Definition targets_url : string := "http://127.0.0.1:8080/api/targets".

Definition targets_call : Call :=
  @request_call Samples.a_client "GET" "/api/targets" ∅.

Lemma stub_server n tr sess :
  @server (Samples.forbid_first n) (Polled false :: tr) sess targets_call =
    if (forbidden_count tr <? n)%nat then Responds Samples.forbidden_response
    else Responds Samples.ok_response.
Proof. reflexivity. Qed.

Lemma stub_login n st :
  exists c,
    c_url c = Samples.login_url /\
    @login (Samples.forbid_first n) Samples.a_client st =
      Some (Ok (), log (Sent (session st) c (Responds Samples.ok_response))
                       (log LoginCalled st)).
Proof. eexists. split; [| reflexivity]. reflexivity. Qed.

(** From a state in which the stub still owes [k] FORBIDDEN answers, the
    loop logs in [k] times, sends the request [k + 1] times and returns the
    200 response. *)
Lemma stub_run (n fuel : nat) :
  forall (k : nat) (st : state) (response : option Response),
    (forbidden_count (trace st) + k = n)%nat ->
    exists st',
      @request_loop (Samples.forbid_first n) (S k + fuel) Samples.a_client
        "GET" "/api/targets" ∅ response st = Some (Ok Samples.ok_response, st') /\
      count_logins (trace st') = (count_logins (trace st) + k)%nat /\
      forbidden_count (trace st') = n /\
      sent_to targets_url (trace st') = (sent_to targets_url (trace st) + S k)%nat.
Proof.
  induction k as [|k IH]; intros st response Hk.
  - cbn [Nat.add].
    rewrite (@request_loop_answered (Samples.forbid_first n) fuel Samples.a_client
               "GET" "/api/targets" ∅ response st Samples.ok_response);
      [| reflexivity | | discriminate].
    + eexists. split; [reflexivity |]. cbn. split; [lia |]. split; [lia |].
      rewrite Nat.add_1_r. reflexivity.
    + fold targets_call. rewrite stub_server.
      rewrite (proj2 (Nat.ltb_ge _ _)) by lia. reflexivity.
  - cbn [Nat.add].
    rewrite (@request_loop_forbidden (Samples.forbid_first n) (S k + fuel)
               Samples.a_client "GET" "/api/targets" ∅ response st
               Samples.forbidden_response);
      [| reflexivity | | reflexivity].
    + destruct (stub_login n (after_forbidden targets_call
                                Samples.forbidden_response st))
        as (c & Hurl & Hlogin).
      fold targets_call. rewrite Hlogin.
      match goal with
      | |- context [request_loop _ _ _ _ _ _ ?s] =>
          destruct (IH s (Some Samples.forbidden_response))
            as (st' & Hrun & Hlogins & Hforb & Hsent)
      end.
      { cbn. lia. }
      exists st'. split; [exact Hrun |].
      cbn in Hlogins, Hsent. rewrite Hurl in Hsent.
      change (sent_to targets_url (trace st') =
                (S (sent_to targets_url (trace st)) + S k)%nat) in Hsent.
      repeat split; [lia | exact Hforb | lia].
    + fold targets_call. rewrite stub_server.
      rewrite (proj2 (Nat.ltb_lt _ _)) by lia. reflexivity.
Qed.

(** C1, as the code has it: a FORBIDDEN answer makes the loop close the
    session, open a fresh one and call [login]; when [login] succeeds the
    same request is sent again, and when it raises, its exception ends the
    call. A response returned by a call that no shutdown poll ended is never
    FORBIDDEN. Against the stub that answers FORBIDDEN [n] times and then
    200, the call returns the 200 response after exactly [n] logins and
    [n + 1] sendings of the request: one login more for one FORBIDDEN. *)
Theorem reauthentication_retry :
  (forall (world : World) fuel self method uri kwargs response st r,
     is_shutdown (trace st) = false ->
     server (Polled false :: trace st) (session st)
            (request_call self method uri kwargs) = Responds r ->
     status_code r = FORBIDDEN ->
     let call := request_call self method uri kwargs in
     let st1 := after_forbidden call r st in
     session st1 = next_session st /\
     ((session st < next_session st)%nat -> session st1 <> session st) /\
     trace st1 = Opened (next_session st) :: Closed (session st)
                   :: Sent (session st) call (Responds r) :: Polled false :: trace st /\
     (forall st2, login self st1 = Some (Ok (), st2) ->
        request_loop (S fuel) self method uri kwargs response st
          = request_loop fuel self method uri kwargs (Some r) st2) /\
     (forall e st2, login self st1 = Some (Err e, st2) ->
        request_loop (S fuel) self method uri kwargs response st
          = Some (Err e, st2))) /\
  (forall (world : World) fuel self method uri kwargs r st st',
     __request fuel self method uri kwargs st = Some (Ok r, st') ->
     head (trace st') <> Some (Polled true) ->
     status_code r <> FORBIDDEN /\ raise_for_status r = Ok ()) /\
  (forall n fuel,
     exists st',
       @__request (Samples.forbid_first n) (S n + fuel) Samples.a_client
         "GET" "/api/targets" ∅ Samples.initial
         = Some (Ok Samples.ok_response, st') /\
       count_logins (trace st') = n /\
       sent_to targets_url (trace st') = S n).
Proof.
  split; [| split].
  - intros world fuel self method uri kwargs response st r Hdown Hserver Hstatus.
    cbn zeta. split; [reflexivity |].
    split; [cbn; lia |]. split; [reflexivity |].
    rewrite (request_loop_forbidden fuel self method uri kwargs response st r
               Hdown Hserver Hstatus).
    split.
    + intros st2 Hlogin. rewrite Hlogin. reflexivity.
    + intros e st2 Hlogin. rewrite Hlogin. reflexivity.
  - intros world fuel self method uri kwargs r st st' Hrun Hlast.
    exact (returned_not_forbidden fuel self method uri kwargs None st r st' Hrun Hlast).
  - intros n fuel.
    destruct (stub_run n fuel n Samples.initial None)
      as (st' & Hrun & Hlogins & _ & Hsent); [reflexivity |].
    exists st'. split; [exact Hrun |]. split; [exact Hlogins | exact Hsent].
Qed.

(** The retry test: FORBIDDEN on the first call, 200 on the second. *)
Lemma reauthentication_retry_witness :
  let world := Samples.forbid_first 1 in
  let call := @request_call Samples.a_client "GET" "/api/targets" ∅ in
  @is_shutdown world (trace Samples.initial) = false /\
  @server world (Polled false :: trace Samples.initial) (session Samples.initial) call
    = Responds Samples.forbidden_response /\
  status_code Samples.forbidden_response = FORBIDDEN /\
  (exists st2,
     @login world Samples.a_client
        (after_forbidden call Samples.forbidden_response Samples.initial)
       = Some (Ok (), st2) /\
     @request_loop world 2 Samples.a_client "GET" "/api/targets" ∅ None Samples.initial
       = @request_loop world 1 Samples.a_client "GET" "/api/targets" ∅
           (Some Samples.forbidden_response) st2) /\
  (exists st',
     @__request world 2 Samples.a_client "GET" "/api/targets" ∅ Samples.initial
       = Some (Ok Samples.ok_response, st') /\
     head (trace st') <> Some (Polled true) /\
     status_code Samples.ok_response <> FORBIDDEN /\
     count_logins (trace st') = 1%nat).
Proof.
  intros world call.
  destruct reauthentication_retry as (Hstep & Hreturned & Hstub).
  assert (Hdown : @is_shutdown world (trace Samples.initial) = false) by reflexivity.
  assert (Hserver : @server world (Polled false :: trace Samples.initial)
                      (session Samples.initial) call
                    = Responds Samples.forbidden_response) by reflexivity.
  assert (Hstatus : status_code Samples.forbidden_response = FORBIDDEN) by reflexivity.
  split; [exact Hdown |]. split; [exact Hserver |]. split; [exact Hstatus |].
  split.
  - destruct (Hstep world 1%nat Samples.a_client "GET" "/api/targets" ∅ None
                Samples.initial Samples.forbidden_response Hdown Hserver Hstatus)
      as (_ & _ & _ & Hretry & _).
    destruct (stub_login 1 (after_forbidden call Samples.forbidden_response
                              Samples.initial)) as (c & _ & Hlogin).
    eexists. split; [exact Hlogin |]. exact (Hretry _ Hlogin).
  - destruct (Hstub 1%nat 0%nat) as (st' & Hrun & Hlogins & _).
    exists st'. split; [exact Hrun |].
    assert (Hlast : head (trace st') <> Some (Polled true))
      by (vm_compute in Hrun; injection Hrun as <-; discriminate).
    split; [exact Hlast |].
    split; [| exact Hlogins].
    exact (proj1 (Hreturned world 2%nat Samples.a_client "GET" "/api/targets" ∅
                    Samples.ok_response Samples.initial st' Hrun Hlast)).
Defined.

(** C1 as stated fails when the login itself is refused: the server answers
    FORBIDDEN to the request and to the login, no shutdown is requested, and
    the call ends in an [HTTPError] carrying FORBIDDEN after sending the
    request once. *)
Lemma reauthentication_refused_login :
  exists st',
    @__request Samples.always_forbidden 5 Samples.a_client
      "GET" "/api/targets" ∅ Samples.initial
      = Some (Err (HTTPError FORBIDDEN), st') /\
    ~ In (Polled true) (trace st') /\
    sent_to targets_url (trace st') = 1%nat /\
    count_logins (trace st') = 1%nat /\
    forbidden_count (trace st') = 2%nat.
Proof.
  eexists. split; [vm_compute; reflexivity |].
  split; [| repeat split; reflexivity].
  cbn. intros H. repeat (destruct H as [H | H]; [discriminate H |]). exact H.
Qed.

(** C2 on the code: with a shutdown requested after the re-login, the loop
    is left with the FORBIDDEN response still bound and [return response]
    hands it to the caller as the result; with a shutdown requested before
    the call, [return response] reads an unbound local. *)
Theorem cancelled_request_returns_forbidden :
  (exists st',
     @__request Samples.shutdown_after_relogin 5 Samples.a_client
       "GET" "/api/targets" ∅ Samples.initial
       = Some (Ok Samples.forbidden_response, st') /\
     head (trace st') = Some (Polled true) /\
     sent_to targets_url (trace st') = 1%nat) /\
  (exists st',
     @__request Samples.already_shut_down 5 Samples.a_client
       "GET" "/api/targets" ∅ Samples.initial
       = Some (Err (UnboundLocalError "response"), st') /\
     trace st' = [Polled true; Opened 0]).
Proof.
  split.
  - eexists. split; [vm_compute; reflexivity |]. split; reflexivity.
  - eexists. split; [vm_compute; reflexivity |]. reflexivity.
Qed.

End RequestSpec.

(* ===================================================================== *)
(** ** Further properties: the client                                    *)
(* ===================================================================== *)

Module ClientFacts.

(** *** URLs *)

Fixpoint ends_with_slash (s : string) : bool :=
  match s with
  | EmptyString => false
  | String c s' =>
      match s' with
      | EmptyString => Ascii.eqb c "/"
      | _ => ends_with_slash s'
      end
  end.

Lemma strip_slash_app (b : string) : strip_slash (b +:+ "/") = b.
Proof.
  induction b as [|c b IH]; [reflexivity |].
  change (String c b +:+ "/") with (String c (b +:+ "/")).
  cbn [strip_slash]. rewrite IH.
  destruct b; reflexivity.
Qed.

Lemma strip_slash_id (b : string) : ends_with_slash b = false -> strip_slash b = b.
Proof.
  induction b as [|c b IH]; [reflexivity |].
  cbn [ends_with_slash strip_slash]. destruct b as [|c' b].
  - intros ->. reflexivity.
  - intros H. rewrite (IH H). reflexivity.
Qed.

Lemma prefix_slash (path : string) : String.prefix "/" ("/" +:+ path) = true.
Proof.
  apply String.prefix_correct. change ("/" +:+ path) with (String "/" path).
  cbn. destruct path; reflexivity.
Qed.

(** X1: the URL of a request does not depend on whether the base URL was given
    with a trailing slash, nor on whether the path is given with a leading
    one. *)
Theorem request_url_normalised (base path method username password : string)
    (timeout : Qc) (kwargs : gmap string pyval) :
  ends_with_slash base = false -> String.prefix "/" path = false ->
  let plain := fst (__init__ base username password timeout []) in
  let slashed := fst (__init__ (base +:+ "/") username password timeout []) in
  let target := base +:+ "/" +:+ path in
  c_url (request_call plain method path kwargs) = target /\
  c_url (request_call plain method ("/" +:+ path) kwargs) = target /\
  c_url (request_call slashed method path kwargs) = target /\
  c_url (request_call slashed method ("/" +:+ path) kwargs) = target.
Proof.
  intros Hbase Hpath. cbn zeta. unfold request_call, __init__. cbn [fst url c_url].
  rewrite strip_slash_app, (strip_slash_id _ Hbase), Hpath.
  rewrite prefix_slash.
  repeat split; reflexivity.
Qed.

Lemma request_url_normalised_witness :
  ends_with_slash "http://10.0.0.2:8000" = false /\
  String.prefix "/" "api/obstacles" = false /\
  c_url (request_call
           (fst (__init__ "http://10.0.0.2:8000/" "u" "p" (Qc_of_Z 1) []))
           "GET" "api/obstacles" ∅)
    = "http://10.0.0.2:8000/api/obstacles".
Proof.
  split; [reflexivity |]. split; [reflexivity |].
  exact (proj1 (proj2 (proj2
    (request_url_normalised "http://10.0.0.2:8000" "api/obstacles" "GET" "u" "p"
       (Qc_of_Z 1) ∅ eq_refl eq_refl)))).
Defined.

(** *** Session discipline *)

(** Every request of the trace went through a session that had not been
    closed before. *)
Fixpoint sends_on_open (tr : list event) : Prop :=
  match tr with
  | [] => True
  | Sent s _ _ :: tr' => (s ∉ closed_ids tr') /\ sends_on_open tr'
  | _ :: tr' => sends_on_open tr'
  end.

(** The current session is not closed, and session identifiers are handed
    out in increasing order. *)
Definition sessions_ok (st : state) : Prop :=
  (session st < next_session st)%nat /\
  Forall (fun s => (s < next_session st)%nat /\ s <> session st)
         (closed_ids (trace st)).

Definition disciplined (st : state) : Prop :=
  sessions_ok st /\ sends_on_open (trace st).

Lemma disciplined_init url username password timeout :
  disciplined (snd (__init__ url username password timeout [])).
Proof.
  unfold disciplined, sessions_ok. cbn. repeat split; [lia | constructor].
Qed.

Lemma disciplined_poll st down : disciplined st -> disciplined (log (Polled down) st).
Proof. intros H. exact H. Qed.

Lemma disciplined_login_called st : disciplined st -> disciplined (log LoginCalled st).
Proof. intros H. exact H. Qed.

Lemma disciplined_sent st c o :
  disciplined st -> disciplined (log (Sent (session st) c o) st).
Proof.
  intros [[Hlt Hclosed] Hsent]. split; [split; [exact Hlt | exact Hclosed] |].
  cbn. split; [| exact Hsent].
  intros Hin. rewrite Forall_forall in Hclosed.
  destruct (Hclosed _ Hin) as [_ Hne]. congruence.
Qed.

Lemma disciplined_renew st :
  disciplined st -> disciplined (new_session (close_session st)).
Proof.
  intros [[Hlt Hclosed] Hsent]. split; [split |]; cbn.
  - lia.
  - constructor; [lia |].
    eapply Forall_impl; [exact Hclosed |]. cbn. intros s [Hs _]. lia.
  - exact Hsent.
Qed.

Section WithWorld.
Context {world : World}.

Lemma disciplined_login self st res st' :
  disciplined st -> login self st = Some (res, st') -> disciplined st'.
Proof.
  intros Hst Hlogin. unfold login, session_request in Hlogin.
  cbn [log trace session] in Hlogin.
  match type of Hlogin with
  | context [server ?tr ?sid ?c] =>
      pose proof (disciplined_sent _ c (server tr sid c)
                    (disciplined_login_called st Hst)) as Hd;
      destruct (server tr sid c)
  end; injection Hlogin as _ <-; exact Hd.
Qed.

Lemma disciplined_requests_get c st :
  disciplined st -> disciplined (snd (requests_get c st)).
Proof.
  intros [[Hlt Hclosed] Hsent]. unfold requests_get. split; [split |]; cbn.
  - lia.
  - constructor; [lia |].
    eapply Forall_impl; [exact Hclosed |]. cbn. intros s [Hs Hne]. lia.
  - split; [| exact Hsent].
    intros Hin. rewrite Forall_forall in Hclosed.
    destruct (Hclosed _ Hin) as [Hs _]. lia.
Qed.

Lemma disciplined_request_loop fuel self method uri kwargs :
  forall response st res st',
    disciplined st ->
    request_loop fuel self method uri kwargs response st = Some (res, st') ->
    disciplined st'.
Proof.
  induction fuel as [|fuel IH]; intros response st res st' Hst Hrun;
    [discriminate |].
  cbn [request_loop] in Hrun.
  pose proof (disciplined_poll st (is_shutdown (trace st)) Hst) as Hpoll.
  destruct (is_shutdown (trace st)).
  { injection Hrun as _ <-. exact Hpoll. }
  unfold session_request in Hrun.
  match type of Hrun with
  | context [server ?tr ?sid ?c] =>
      pose proof (disciplined_sent _ c (server tr sid c) Hpoll) as Hsent;
      destruct (server tr sid c) as [r|e]
  end.
  2: { injection Hrun as _ <-. exact Hsent. }
  destruct (status_code r =? FORBIDDEN).
  - pose proof (disciplined_renew _ Hsent) as Hnew.
    destruct (login self _) as [[[[]|e] st2]|] eqn:Hlogin; [| | discriminate].
    + exact (IH _ _ _ _ (disciplined_login _ _ _ _ Hnew Hlogin) Hrun).
    + injection Hrun as _ <-. exact (disciplined_login _ _ _ _ Hnew Hlogin).
  - destruct (raise_for_status r); injection Hrun as _ <-; exact Hsent.
Qed.

Lemma disciplined_wait_loop fuel self :
  forall reachable st res st',
    disciplined st ->
    wait_loop fuel self reachable st = Some (res, st') ->
    disciplined st'.
Proof.
  induction fuel as [|fuel IH]; intros reachable st res st' Hst Hrun;
    [discriminate |].
  cbn [wait_loop] in Hrun.
  destruct reachable. { injection Hrun as _ <-. exact Hst. }
  pose proof (disciplined_poll st (is_shutdown (trace st)) Hst) as Hpoll.
  destruct (is_shutdown (trace st)).
  { injection Hrun as _ <-. exact Hpoll. }
  match type of Hrun with
  | context [requests_get ?c ?s] =>
      pose proof (disciplined_requests_get c s Hpoll) as Hget;
      destruct (requests_get c s) as [[r|e] st1]
  end; cbn [snd] in Hget.
  - destruct (raise_for_status r); exact (IH _ _ _ _ Hget Hrun).
  - exact (IH _ _ _ _ Hget Hrun).
Qed.

End WithWorld.

(** X2: no request is ever sent through a closed session: the state built by
    [__init__] is disciplined, and [login], [__request] and
    [wait_for_server] keep it so, whatever the server answers. *)
Theorem never_sends_on_closed_session :
  (forall url username password timeout,
     disciplined (snd (__init__ url username password timeout []))) /\
  (forall (world : World) self st res st',
     disciplined st -> login self st = Some (res, st') -> disciplined st') /\
  (forall (world : World) fuel self method uri kwargs st res st',
     disciplined st ->
     __request fuel self method uri kwargs st = Some (res, st') ->
     disciplined st') /\
  (forall (world : World) fuel self st res st',
     disciplined st -> wait_for_server fuel self st = Some (res, st') ->
     disciplined st').
Proof.
  split; [exact disciplined_init |]. split; [| split].
  - intros world. apply disciplined_login.
  - intros world fuel self method uri kwargs st res st'.
    apply disciplined_request_loop.
  - intros world fuel self st res st'. apply disciplined_wait_loop.
Qed.

Lemma never_sends_on_closed_session_witness :
  disciplined Samples.initial /\
  exists res st',
    @__request (Samples.forbid_first 1) 3 Samples.a_client
      "GET" "/api/targets" ∅ Samples.initial = Some (res, st') /\
    sends_on_open (trace st') /\ closed_ids (trace st') = [0%nat].
Proof.
  destruct never_sends_on_closed_session as (Hinit & _ & Hreq & _).
  assert (H0 : disciplined Samples.initial) by apply Hinit.
  split; [exact H0 |].
  destruct (@__request (Samples.forbid_first 1) 3 Samples.a_client
              "GET" "/api/targets" ∅ Samples.initial) as [[res st']|] eqn:Hrun;
    [| vm_compute in Hrun; discriminate Hrun].
  exists res, st'. split; [reflexivity |]. split.
  - exact (proj2 (Hreq _ _ _ _ _ _ _ _ _ H0 Hrun)).
  - vm_compute in Hrun. injection Hrun as _ <-. reflexivity.
Defined.

(** *** Counting re-authentications *)

(** Between [st] and [st'] there were as many closes and opens as logins,
    [extra] FORBIDDEN answers beyond one per login, and [p] polls. *)
Definition advanced (st st' : state) (extra p : nat) : Prop :=
  exists k : nat,
    count_logins (trace st') = (count_logins (trace st) + k)%nat /\
    count_closed (trace st') = (count_closed (trace st) + k)%nat /\
    count_opened (trace st') = (count_opened (trace st) + k)%nat /\
    forbidden_count (trace st') = (forbidden_count (trace st) + k + extra)%nat /\
    count_polls (trace st') = (count_polls (trace st) + p)%nat.

Lemma raise_for_status_Ok_not_forbidden r :
  raise_for_status r = Ok () -> (status_code r =? FORBIDDEN) = false.
Proof.
  unfold raise_for_status, FORBIDDEN.
  destruct (_ && _) eqn:E; [discriminate |]. intros _.
  apply Z.eqb_neq. intros Heq. rewrite Heq in E. discriminate.
Qed.

Section WithWorld.
Context {world : World}.

(** A login adds one [LoginCalled] and one exchange; a login that returns
    was not answered FORBIDDEN. *)
Lemma login_tally self st res st' :
  login self st = Some (res, st') ->
  count_logins (trace st') = S (count_logins (trace st)) /\
  count_closed (trace st') = count_closed (trace st) /\
  count_opened (trace st') = count_opened (trace st) /\
  count_polls (trace st') = count_polls (trace st) /\
  (forbidden_count (trace st') <= S (forbidden_count (trace st)))%nat /\
  (forbidden_count (trace st) <= forbidden_count (trace st'))%nat /\
  (res = Ok () -> forbidden_count (trace st') = forbidden_count (trace st)).
Proof.
  unfold login, session_request. cbn [log trace session].
  match goal with
  | |- context [server ?tr ?sid ?c] => destruct (server tr sid c) as [r|e]
  end; intros [= <- <-]; cbn.
  - destruct (status_code r =? FORBIDDEN) eqn:E403.
    + repeat split; try lia. intros Hok.
      rewrite (raise_for_status_Ok_not_forbidden r Hok) in E403. discriminate.
    + repeat split; lia.
  - repeat split; lia.
Qed.

(** Every iteration polls once; every FORBIDDEN answer to the request is
    followed by one close, one open and one login. *)
Lemma request_loop_tally fuel self method uri kwargs :
  forall response st res st',
    request_loop fuel self method uri kwargs response st = Some (res, st') ->
    exists extra p,
      advanced st st' extra p /\ (extra <= 1)%nat /\ (1 <= p)%nat /\
      (is_Ok res = true -> extra = 0%nat).
Proof.
  induction fuel as [|fuel IH]; intros response st res st' Hrun; [discriminate |].
  cbn [request_loop] in Hrun.
  destruct (is_shutdown (trace st)).
  { injection Hrun as _ <-. exists 0%nat, 1%nat.
    split; [exists 0%nat; cbn; repeat split; lia |]. repeat split; lia. }
  unfold session_request in Hrun. cbn [log trace session] in Hrun.
  match type of Hrun with
  | context [server ?tr ?sid ?c] => destruct (server tr sid c) as [r|e]
  end.
  2: { injection Hrun as <- <-. exists 0%nat, 1%nat.
       split; [exists 0%nat; cbn; repeat split; lia |].
       repeat split; lia. }
  destruct (status_code r =? FORBIDDEN) eqn:E403.
  - destruct (login self _) as [[lres st2]|] eqn:Hlogin; [| discriminate].
    destruct (login_tally _ _ _ _ Hlogin) as (Hl & Hc & Ho & Hp & Hf1 & Hf2 & Hf3).
    cbn in Hl, Hc, Ho, Hp, Hf1, Hf2, Hf3. rewrite E403 in Hf1, Hf2, Hf3.
    destruct lres as [[]|e].
    + destruct (IH _ _ _ _ Hrun) as (extra & p & (k & Hk1 & Hk2 & Hk3 & Hk4 & Hk5) & He & Hp1 & Hok).
      exists extra, (S p). split; [| repeat split; [exact He | lia | exact Hok]].
      exists (S k). specialize (Hf3 eq_refl). repeat split; lia.
    + injection Hrun as <- <-.
      exists (forbidden_count (trace st2) - S (forbidden_count (trace st)))%nat, 1%nat.
      split; [exists 1%nat; repeat split; lia |].
      repeat split; try lia. discriminate.
  - destruct (raise_for_status r) as [[]|e]; injection Hrun as <- <-;
      exists 0%nat, 1%nat;
      (split; [exists 0%nat; cbn; rewrite E403; repeat split; lia |]);
      repeat split; try lia; discriminate.
Qed.

End WithWorld.

(** X3: for every server: a call of [__request] closes a session, opens one and
    logs in the same number of times; when it returns a response, that
    number is the number of FORBIDDEN answers it received, and when it
    raises, at most one FORBIDDEN answer (the refusal of the login) is left
    without a login. *)
Theorem one_login_per_forbidden (world : World) fuel self method uri kwargs st res st' :
  __request fuel self method uri kwargs st = Some (res, st') ->
  exists extra p,
    advanced st st' extra p /\ (extra <= 1)%nat /\ (1 <= p)%nat /\
    (is_Ok res = true -> extra = 0%nat).
Proof. apply request_loop_tally. Qed.

Lemma one_login_per_forbidden_witness :
  exists res st',
    @__request (Samples.forbid_first 2) 4 Samples.a_client
      "GET" "/api/targets" ∅ Samples.initial = Some (res, st') /\
    is_Ok res = true /\ advanced Samples.initial st' 0 3.
Proof.
  destruct (@__request (Samples.forbid_first 2) 4 Samples.a_client
              "GET" "/api/targets" ∅ Samples.initial) as [[res st']|] eqn:Hrun;
    [| vm_compute in Hrun; discriminate Hrun].
  destruct (one_login_per_forbidden _ _ _ _ _ _ _ _ _ Hrun)
    as (extra & p & Hadv & _ & _ & Hok).
  assert (Hres : is_Ok res = true)
    by (vm_compute in Hrun; injection Hrun as <- _; reflexivity).
  exists res, st'. split; [reflexivity |]. split; [exact Hres |].
  rewrite (Hok Hres) in Hadv.
  destruct Hadv as (k & H1 & H2 & H3 & H4 & H5).
  assert (p = 3%nat)
    by (vm_compute in Hrun; injection Hrun as _ <-; cbn in H5; lia).
  subst p. exists k. repeat split; assumption.
Defined.

(** *** Cancellation bounds the loops *)

Section WithWorld.
Context {world : World}.

Lemma request_loop_polls_bound (limit : nat) self method uri kwargs :
  (forall tr, (limit <= count_polls tr)%nat -> is_shutdown tr = true) ->
  forall fuel response st,
    (0 < fuel)%nat -> (limit < fuel + count_polls (trace st))%nat ->
    is_Some (request_loop fuel self method uri kwargs response st).
Proof.
  intros Hdown. induction fuel as [|fuel IH]; intros response st Hpos Hfuel;
    [lia |].
  - cbn [request_loop].
    destruct (is_shutdown (trace st)) eqn:Hnow; [eauto |].
    assert (Hlt : (count_polls (trace st) < limit)%nat).
    { destruct (le_lt_dec limit (count_polls (trace st))) as [Hle | Hlt];
        [| exact Hlt]. rewrite (Hdown _ Hle) in Hnow. discriminate. }
    unfold session_request. cbn [log trace session].
    match goal with
    | |- context [server ?tr ?sid ?c] => destruct (server tr sid c) as [r|e]
    end; [| eauto].
    destruct (status_code r =? FORBIDDEN).
    + destruct (login self _) as [[lres st2]|] eqn:Hlogin.
      * destruct (login_tally _ _ _ _ Hlogin) as (_ & _ & _ & Hp & _).
        cbn in Hp. destruct lres as [[]|e]; [| eauto].
        apply IH; lia.
      * unfold login in Hlogin.
        destruct (session_request _ _) as [[] ?]; discriminate.
    + destruct (raise_for_status r); eauto.
Qed.

Lemma wait_loop_polls_bound (limit : nat) self :
  (forall tr, (limit <= count_polls tr)%nat -> is_shutdown tr = true) ->
  forall fuel reachable st,
    (0 < fuel)%nat -> (limit < fuel + count_polls (trace st))%nat ->
    is_Some (wait_loop fuel self reachable st).
Proof.
  intros Hdown. induction fuel as [|fuel IH]; intros reachable st Hpos Hfuel;
    [lia |].
  - cbn [wait_loop]. destruct reachable; [eauto |].
    destruct (is_shutdown (trace st)) eqn:Hnow; [eauto |].
    assert (Hlt : (count_polls (trace st) < limit)%nat).
    { destruct (le_lt_dec limit (count_polls (trace st))) as [Hle | Hlt];
        [| exact Hlt]. rewrite (Hdown _ Hle) in Hnow. discriminate. }
    unfold requests_get. cbn [log trace session next_session].
    match goal with
    | |- context [server ?tr ?sid ?c] => destruct (server tr sid c) as [r|e]
    end.
    + destruct (raise_for_status r); apply IH; cbn; lia.
    + apply IH; cbn; lia.
Qed.

End WithWorld.

(** X4: with a shutdown signalled from the [limit]-th poll on, [__request] and
    [wait_for_server] end within [limit + 1] iterations counted from the
    first poll, whatever the server answers: the loops are bounded by the
    cancellation signal alone. *)
Theorem loops_end_on_shutdown (world : World) (limit : nat) :
  (forall tr, (limit <= count_polls tr)%nat -> is_shutdown tr = true) ->
  (forall fuel self method uri kwargs st,
     (0 < fuel)%nat -> (limit < fuel + count_polls (trace st))%nat ->
     is_Some (__request fuel self method uri kwargs st)) /\
  (forall fuel self st,
     (0 < fuel)%nat -> (limit < fuel + count_polls (trace st))%nat ->
     is_Some (wait_for_server fuel self st)).
Proof.
  intros Hdown. split.
  - intros fuel self method uri kwargs st. apply request_loop_polls_bound, Hdown.
  - intros fuel self st. apply wait_loop_polls_bound, Hdown.
Qed.

Lemma loops_end_on_shutdown_witness :
  (forall tr, (3 <= count_polls tr)%nat ->
     @is_shutdown (Samples.expired_until_shutdown 3) tr = true) /\
  is_Some (@__request (Samples.expired_until_shutdown 3) 4 Samples.a_client
             "GET" "/api/targets" ∅ Samples.initial) /\
  is_Some (@wait_for_server (Samples.expired_until_shutdown 3) 4 Samples.a_client
             Samples.initial).
Proof.
  assert (Hdown : forall tr, (3 <= count_polls tr)%nat ->
                    @is_shutdown (Samples.expired_until_shutdown 3) tr = true).
  { intros tr Htr. cbn [is_shutdown Samples.expired_until_shutdown].
    apply Nat.leb_le. exact Htr. }
  destruct (loops_end_on_shutdown (Samples.expired_until_shutdown 3) 3 Hdown)
    as [Hreq Hwait].
  split; [exact Hdown |]. split.
  - apply Hreq; cbn; lia.
  - apply Hwait; cbn; lia.
Defined.

(** *** Where the exceptions of a request come from *)

(** The exception [e] is that of the last event of the trace: a transport
    exception of the last exchange, the [HTTPError] of its 4xx or 5xx
    answer, or the unbound local after a shutdown poll. *)
Definition raised_by (ev : event) (e : exn) : Prop :=
  match ev with
  | Sent _ _ (Raises e') => e = e'
  | Sent _ _ (Responds r) =>
      e = HTTPError (status_code r) /\ 400 <= status_code r < 600
  | Polled true => e = UnboundLocalError "response"
  | _ => False
  end.

Lemma raise_for_status_Err r e :
  raise_for_status r = Err e ->
  e = HTTPError (status_code r) /\ 400 <= status_code r < 600.
Proof.
  unfold raise_for_status. destruct (_ && _) eqn:E; [| discriminate].
  intros [= <-]. apply andb_prop in E as [E1 E2]. split; [reflexivity | lia].
Qed.

Section WithWorld.
Context {world : World}.

Lemma request_loop_raised fuel self method uri kwargs :
  forall response st e st',
    request_loop fuel self method uri kwargs response st = Some (Err e, st') ->
    exists ev, head (trace st') = Some ev /\ raised_by ev e /\
               (ev = Polled true -> response = None /\ st' = log (Polled true) st).
Proof.
  induction fuel as [|fuel IH]; intros response st e st' Hrun; [discriminate |].
  cbn [request_loop] in Hrun.
  destruct (is_shutdown (trace st)).
  { destruct response as [r|]; [discriminate |]. injection Hrun as <- <-.
    exists (Polled true). cbn. repeat split. }
  unfold session_request in Hrun. cbn [log trace session] in Hrun.
  match type of Hrun with
  | context [server ?tr ?sid ?c] => destruct (server tr sid c) as [r|e0] eqn:Hs
  end.
  2: { injection Hrun as <- <-. eexists. cbn.
       split; [reflexivity |]. split; [reflexivity | discriminate]. }
  destruct (status_code r =? FORBIDDEN).
  - destruct (login self _) as [[[[]|e1] st2]|] eqn:Hlogin; [| | discriminate].
    + destruct (IH _ _ _ _ Hrun) as (ev & Hhead & Hraised & Hpoll).
      exists ev. split; [exact Hhead |]. split; [exact Hraised |].
      intros ->. destruct (Hpoll eq_refl) as [[=] _].
    + injection Hrun as <- <-. unfold login, session_request in Hlogin.
      cbn [log trace session] in Hlogin.
      match type of Hlogin with
      | context [server ?tr ?sid ?c] => destruct (server tr sid c) as [r1|e2]
      end.
      * injection Hlogin as Hraise <-. eexists. cbn.
        split; [reflexivity |].
        split; [exact (raise_for_status_Err _ _ Hraise) | discriminate].
      * injection Hlogin as <- <-. eexists. cbn.
        split; [reflexivity |]. split; [reflexivity | discriminate].
  - destruct (raise_for_status r) as [[]|e1] eqn:Hraise; [discriminate |].
    injection Hrun as <- <-. eexists. cbn.
    split; [reflexivity |].
    split; [exact (raise_for_status_Err _ _ Hraise) | discriminate].
Qed.

End WithWorld.

(** X5: an exception of [__request] is always that of the last thing that
    happened: the transport exception of the last exchange, the [HTTPError]
    carrying the 4xx or 5xx status of its answer, or the unbound local,
    which arises only when the shutdown was already requested at the first
    poll of the call. Nothing is sent after the failure. *)
Theorem request_exception_origin (world : World) fuel self method uri kwargs st e st' :
  __request fuel self method uri kwargs st = Some (Err e, st') ->
  exists ev, head (trace st') = Some ev /\ raised_by ev e /\
             (ev = Polled true -> st' = log (Polled true) st).
Proof.
  intros Hrun. destruct (request_loop_raised _ _ _ _ _ _ _ _ _ Hrun)
    as (ev & Hhead & Hraised & Hpoll).
  exists ev. split; [exact Hhead |]. split; [exact Hraised |].
  intros Hev. exact (proj2 (Hpoll Hev)).
Qed.

Lemma request_exception_origin_witness :
  exists st' s c,
    @__request Samples.always_forbidden 2 Samples.a_client
      "GET" "/api/targets" ∅ Samples.initial
      = Some (Err (HTTPError 403), st') /\
    head (trace st') = Some (Sent s c (Responds Samples.forbidden_response)) /\
    c_url c = Samples.login_url.
Proof.
  destruct (@__request Samples.always_forbidden 2 Samples.a_client
              "GET" "/api/targets" ∅ Samples.initial)
    as [[[r|e] st']|] eqn:Hrun; try (vm_compute in Hrun; discriminate Hrun).
  assert (He : e = HTTPError 403)
    by (vm_compute in Hrun; injection Hrun as <- _; reflexivity).
  subst e.
  destruct (request_exception_origin _ _ _ _ _ _ _ _ _ Hrun)
    as (ev & Hhead & Hraised & _).
  vm_compute in Hrun. injection Hrun as <-.
  cbn in Hhead. injection Hhead as <-.
  eexists _, _, _. split; [reflexivity |]. split; reflexivity.
Defined.

(** *** Waiting for the server *)

(** The last event is a shutdown poll that answered yes. *)
Definition cancelled (st : state) : Prop := head (trace st) = Some (Polled true).

(** The last exchange was a probe of the base URL, on a session of its own,
    answered with a status that is not an error. *)
Definition probed_ok (self : client) (st : state) : Prop :=
  exists sid c r rest,
    trace st = Closed sid :: Sent sid c (Responds r) :: rest /\
    c_method c = "GET" /\ c_url c = url self /\ ok r = true.

Section WithWorld.
Context {world : World}.

Lemma wait_loop_returns fuel self :
  forall reachable st res st',
    wait_loop fuel self reachable st = Some (res, st') ->
    res = Ok () /\
    session st' = session st /\
    count_logins (trace st') = count_logins (trace st) /\
    (reachable = true /\ st' = st \/ cancelled st' \/ probed_ok self st').
Proof.
  induction fuel as [|fuel IH]; intros reachable st res st' Hrun; [discriminate |].
  cbn [wait_loop] in Hrun.
  destruct reachable. { injection Hrun as <- <-. repeat split. left. split; reflexivity. }
  destruct (is_shutdown (trace st)).
  { injection Hrun as <- <-. repeat split. right. left. reflexivity. }
  unfold requests_get in Hrun. cbn [log trace session next_session] in Hrun.
  match type of Hrun with
  | context [server ?tr ?sid ?c] => destruct (server tr sid c) as [r|e] eqn:Hs
  end.
  - destruct (raise_for_status r) as [[]|e] eqn:Hraise.
    + destruct (IH _ _ _ _ Hrun) as (Hres & Hsess & Hlog & Hend).
      cbn in Hsess, Hlog.
      repeat split; try assumption.
      destruct Hend as [[_ ->] | [Hc | Hp]]; [| right; left; exact Hc | right; right; exact Hp].
      right. right. eexists _, _, _, _. cbn. split; [reflexivity |].
      repeat split. unfold ok. rewrite Hraise. reflexivity.
    + destruct (IH _ _ _ _ Hrun) as (Hres & Hsess & Hlog & Hend).
      cbn in Hsess, Hlog.
      repeat split; try assumption.
      destruct Hend as [[[=] _] | [Hc | Hp]]; [right; left; exact Hc | right; right; exact Hp].
  - destruct (IH _ _ _ _ Hrun) as (Hres & Hsess & Hlog & Hend).
    cbn in Hsess, Hlog.
    repeat split; try assumption.
    destruct Hend as [[[=] _] | [Hc | Hp]]; [right; left; exact Hc | right; right; exact Hp].
Qed.

End WithWorld.

(** X6: [wait_for_server] never raises, whatever the probes raise or answer; it
    neither changes [self.session] nor logs in; and when it returns, either
    a shutdown was requested or the last probe of the base URL was answered
    with a status that is not an error. *)
Theorem wait_for_server_returns (world : World) fuel self st res st' :
  wait_for_server fuel self st = Some (res, st') ->
  res = Ok () /\
  session st' = session st /\
  count_logins (trace st') = count_logins (trace st) /\
  (cancelled st' \/ probed_ok self st').
Proof.
  intros Hrun.
  destruct (wait_loop_returns _ _ _ _ _ _ Hrun) as (Hres & Hsess & Hlog & Hend).
  repeat split; try assumption.
  destruct Hend as [[[=] _] | Hend]; exact Hend.
Qed.

Lemma wait_for_server_returns_witness :
  exists st',
    @wait_for_server (Samples.reachable_after 2) 5 Samples.a_client Samples.initial
      = Some (Ok (), st') /\
    probed_ok Samples.a_client st' /\ count_closed (trace st') = 3%nat.
Proof.
  destruct (@wait_for_server (Samples.reachable_after 2) 5 Samples.a_client
              Samples.initial) as [[res st']|] eqn:Hrun;
    [| vm_compute in Hrun; discriminate Hrun].
  destruct (wait_for_server_returns _ _ _ _ _ _ Hrun) as (-> & _ & _ & Hend).
  exists st'. split; [reflexivity |].
  assert (Hclosed : count_closed (trace st') = 3%nat)
    by (vm_compute in Hrun; injection Hrun as <-; reflexivity).
  split; [| exact Hclosed].
  destruct Hend as [Hc | Hp]; [| exact Hp].
  vm_compute in Hrun. injection Hrun as <-. discriminate Hc.
Defined.

End ClientFacts.

(* ===================================================================== *)
(** ** Further properties: missions                                      *)
(* ===================================================================== *)

Module MissionFacts.
Import MissionDeserializer LoopFacts.

Section WithHost.
Context {interp : Interpreter} {host : Host}.

(** The header every message of [frame] read at clock reading [k] gets. *)
Definition header_at (frame : string) (k : nat) : Header :=
  {| stamp := get_rostime k; frame_id := frame |}.

(** [p] is the projection of the wire position [entry]; [with_altitude]
    tells whether its Z is the converted [altitude_msl] or left at 0. *)
Definition projects (with_altitude : bool) (entry : pyval) (p : Point) : Prop :=
  exists lat lon easting northing,
    getitem entry "latitude" = Ok lat /\
    getitem entry "longitude" = Ok lon /\
    from_latlon lat lon = Ok (easting, northing) /\
    x p = easting /\ y p = northing /\
    if with_altitude
    then exists alt, getitem entry "altitude_msl" = Ok alt /\
                     feet_to_meters alt = Ok (z p)
    else z p = 0%Qc.

Lemma planar_point_projects entry p :
  planar_point entry = Ok p -> projects false entry p.
Proof.
  unfold planar_point, projects. intros H.
  destruct (getitem entry "latitude") as [lat|]; cbn in H; [| discriminate].
  destruct (getitem entry "longitude") as [lon|]; cbn in H; [| discriminate].
  destruct (from_latlon lat lon) as [[e n]|] eqn:E; cbn in H; [| discriminate].
  injection H as <-. exists lat, lon, e, n. cbn. tauto.
Qed.


Lemma for_each_Forall2 {A} (data : pyval) (body : pyval -> result A) (out : list A) :
  for_each data body = Ok out ->
  exists entries, iter data = Ok entries /\
                  Forall2 (fun e o => body e = Ok o) entries out.
Proof.
  unfold for_each. destruct (iter data) as [entries|]; cbn; [| discriminate].
  intros H. exists entries. split; [reflexivity | exact (mapM_Forall2 _ _ _ H)].
Qed.

(** What [from_dict] read and built, field by field. *)
Lemma mission_from_dict_inv (data : pyval) (frame : string) (m : mission) :
  from_dict data frame = Ok m ->
  exists v1 v2 v3 v4 v5 v6,
    getitem data "fly_zones" = Ok v1 /\
    __get_flyzone v1 frame 0 = Ok (flyzones m) /\
    getitem data "search_grid_points" = Ok v2 /\
    __get_search_grid v2 frame 1 = Ok (search_grid m) /\
    getitem data "mission_waypoints" = Ok v3 /\
    __get_waypoints v3 frame 2 = Ok (waypoints m) /\
    getitem data "air_drop_pos" = Ok v4 /\
    __get_airdrop_loc v4 frame 3 = Ok (air_drop_pos m) /\
    getitem data "off_axis_target_pos" = Ok v5 /\
    __get_offaxis_targ v5 frame 4 = Ok (off_axis_targ m) /\
    getitem data "emergent_last_known_pos" = Ok v6 /\
    __emergent_object v6 frame 5 = Ok (emergent_obj m).
Proof.
  unfold from_dict. intros H.
  destruct (getitem data "fly_zones") as [v1|]; [| discriminate].
  cbn [mbind result_bind] in H.
  destruct (__get_flyzone v1 frame 0) as [r1|] eqn:E1; [| discriminate].
  cbn [mbind result_bind] in H.
  destruct (getitem data "search_grid_points") as [v2|]; [| discriminate].
  cbn [mbind result_bind] in H.
  destruct (__get_search_grid v2 frame 1) as [r2|] eqn:E2; [| discriminate].
  cbn [mbind result_bind] in H.
  destruct (getitem data "mission_waypoints") as [v3|]; [| discriminate].
  cbn [mbind result_bind] in H.
  destruct (__get_waypoints v3 frame 2) as [r3|] eqn:E3; [| discriminate].
  cbn [mbind result_bind] in H.
  destruct (getitem data "air_drop_pos") as [v4|]; [| discriminate].
  cbn [mbind result_bind] in H.
  destruct (__get_airdrop_loc v4 frame 3) as [r4|] eqn:E4; [| discriminate].
  cbn [mbind result_bind] in H.
  destruct (getitem data "off_axis_target_pos") as [v5|]; [| discriminate].
  cbn [mbind result_bind] in H.
  destruct (__get_offaxis_targ v5 frame 4) as [r5|] eqn:E5; [| discriminate].
  cbn [mbind result_bind] in H.
  destruct (getitem data "emergent_last_known_pos") as [v6|]; [| discriminate].
  cbn [mbind result_bind] in H.
  destruct (__emergent_object v6 frame 5) as [r6|] eqn:E6; [| discriminate].
  cbn [mbind result_bind] in H. injection H as <-.
  exists v1, v2, v3, v4, v5, v6. cbn. repeat split; assumption || reflexivity.
Qed.

(** [fz] is the fly zone of the wire entry [entry]: converted altitude
    bounds, and one flat point per boundary point, in order. *)
Definition zone_of (frame : string) (entry : pyval) (fz : FlyZone) : Prop :=
  exists amax amin pts boundary,
    getitem entry "altitude_msl_max" = Ok amax /\
    feet_to_meters amax = Ok (max_alt fz) /\
    getitem entry "altitude_msl_min" = Ok amin /\
    feet_to_meters amin = Ok (min_alt fz) /\
    getitem entry "boundary_pts" = Ok pts /\
    iter pts = Ok boundary /\
    Forall2 (projects false) boundary (polygon (zone fz)) /\
    pg_header (zone fz) = header_at frame 0.

Lemma Forall2_weaken {A B} (P Q : A -> B -> Prop) (l : list A) (k : list B) :
  (forall a b, P a b -> Q a b) -> Forall2 P l k -> Forall2 Q l k.
Proof. intros HPQ H. induction H; constructor; auto. Qed.

Lemma get_flyzone_zones data frame zones :
  __get_flyzone data frame 0 = Ok zones ->
  exists entries, iter data = Ok entries /\ Forall2 (zone_of frame) entries zones.
Proof.
  unfold __get_flyzone. intros H.
  destruct (for_each_Forall2 _ _ _ H) as (entries & Hiter & Hall).
  exists entries. split; [exact Hiter |].
  eapply Forall2_weaken; [| exact Hall]. cbn beta.
  intros entry fz Hfz. unfold zone_of.
  destruct (getitem entry "altitude_msl_max") as [amax|]; cbn in Hfz; [| discriminate].
  destruct (feet_to_meters amax) as [hi|] eqn:Ehi; cbn in Hfz; [| discriminate].
  destruct (getitem entry "altitude_msl_min") as [amin|]; cbn in Hfz; [| discriminate].
  destruct (feet_to_meters amin) as [lo|] eqn:Elo; cbn in Hfz; [| discriminate].
  destruct (getitem entry "boundary_pts") as [pts|]; cbn in Hfz; [| discriminate].
  destruct (for_each pts planar_point) as [ps|] eqn:Eps; cbn in Hfz; [| discriminate].
  injection Hfz as <-.
  destruct (for_each_Forall2 _ _ _ Eps) as (boundary & Hb & Hps).
  exists amax, amin, pts, boundary. cbn.
  split; [reflexivity |]. split; [exact Ehi |]. split; [reflexivity |].
  split; [exact Elo |]. split; [reflexivity |]. split; [exact Hb |].
  split; [| reflexivity].
  eapply Forall2_weaken; [| exact Hps]. exact planar_point_projects.
Qed.

(** X11: every message of a mission carries the caller's frame, and the six
    parts are stamped with six successive readings of the clock, in the
    order fly zones, search grid, waypoints, air drop, off-axis target,
    emergent object. *)
Theorem mission_headers (data : pyval) (frame : string) (m : mission) :
  from_dict data frame = Ok m ->
  Forall (fun fz => pg_header (zone fz) = header_at frame 0) (flyzones m) /\
  pg_header (search_grid m) = header_at frame 1 /\
  header (waypoints m) = header_at frame 2 /\
  ps_header (air_drop_pos m) = header_at frame 3 /\
  ps_header (off_axis_targ m) = header_at frame 4 /\
  ps_header (emergent_obj m) = header_at frame 5.
Proof.
  intros H.
  destruct (mission_from_dict_inv _ _ _ H)
    as (v1 & v2 & v3 & v4 & v5 & v6 & _ & H1 & _ & H2 & _ & H3 & _ & H4 & _ & H5 & _ & H6).
  split; [| split; [| split; [| split; [| split]]]].
  - destruct (get_flyzone_zones _ _ _ H1) as (entries & _ & Hall).
    clear - Hall.
    induction Hall as [|e fz es fzs Hfz _ IH]; constructor; [| exact IH].
    destruct Hfz as (? & ? & ? & ? & _ & _ & _ & _ & _ & _ & _ & Hh). exact Hh.
  - unfold __get_search_grid in H2.
    destruct (for_each v2 spatial_point); cbn in H2; [| discriminate].
    injection H2 as <-. reflexivity.
  - unfold __get_waypoints in H3.
    destruct (for_each v3 spatial_point); cbn in H3; [| discriminate].
    injection H3 as <-. reflexivity.
  - unfold __get_airdrop_loc in H4.
    destruct (planar_point v4); cbn in H4; [| discriminate].
    injection H4 as <-. reflexivity.
  - unfold __get_offaxis_targ in H5.
    destruct (planar_point v5); cbn in H5; [| discriminate].
    injection H5 as <-. reflexivity.
  - unfold __emergent_object in H6.
    destruct (planar_point v6); cbn in H6; [| discriminate].
    injection H6 as <-. reflexivity.
Qed.


(** X13: the air-drop position, the off-axis target and the emergent object are
    flat: X and Y are the projection of latitude and longitude and Z is 0,
    whatever altitude the payload gives. *)
Theorem mission_located_points (data : pyval) (frame : string) (m : mission) :
  from_dict data frame = Ok m ->
  (exists wire, getitem data "air_drop_pos" = Ok wire /\
                projects false wire (point (air_drop_pos m))) /\
  (exists wire, getitem data "off_axis_target_pos" = Ok wire /\
                projects false wire (point (off_axis_targ m))) /\
  (exists wire, getitem data "emergent_last_known_pos" = Ok wire /\
                projects false wire (point (emergent_obj m))).
Proof.
  intros H.
  destruct (mission_from_dict_inv _ _ _ H)
    as (v1 & v2 & v3 & v4 & v5 & v6 & _ & _ & _ & _ & _ & _
        & Hg4 & H4 & Hg5 & H5 & Hg6 & H6).
  unfold __get_airdrop_loc in H4. unfold __get_offaxis_targ in H5.
  unfold __emergent_object in H6.
  destruct (planar_point v4) as [p4|] eqn:E4; cbn in H4; [| discriminate].
  destruct (planar_point v5) as [p5|] eqn:E5; cbn in H5; [| discriminate].
  destruct (planar_point v6) as [p6|] eqn:E6; cbn in H6; [| discriminate].
  injection H4 as <-. injection H5 as <-. injection H6 as <-. cbn.
  split; [| split].
  - exists v4. split; [exact Hg4 | exact (planar_point_projects _ _ E4)].
  - exists v5. split; [exact Hg5 | exact (planar_point_projects _ _ E5)].
  - exists v6. split; [exact Hg6 | exact (planar_point_projects _ _ E6)].
Qed.

(** X14: the fly zones keep the order and the number of the wire zones; each has
    the converted altitude bounds and one flat point per boundary point, in
    order. *)
Theorem mission_flyzones (data : pyval) (frame : string) (m : mission) :
  from_dict data frame = Ok m ->
  exists wire entries,
    getitem data "fly_zones" = Ok wire /\ iter wire = Ok entries /\
    Forall2 (zone_of frame) entries (flyzones m).
Proof.
  intros H.
  destruct (mission_from_dict_inv _ _ _ H) as (v1 & v2 & v3 & v4 & v5 & v6 & Hg1 & H1 & _).
  destruct (get_flyzone_zones _ _ _ H1) as (entries & Hiter & Hall).
  exists v1, entries. split; [exact Hg1 |]. split; [exact Hiter | exact Hall].
Qed.

End WithHost.

(** A complete mission with one fly zone of one boundary point. *)
Definition zoned_mission : pyval :=
  PDict (<["fly_zones" := default (PList []) (Samples.no_search_grid !! "fly_zones")]>
         (match Samples.mission_record 7 true with
          | PDict d => d
          | _ => ∅
          end)).

Lemma zoned_mission_Ok :
  exists m, @from_dict Samples.plain_interpreter Samples.flat_host zoned_mission "map"
            = Ok m.
Proof. eexists. vm_compute. reflexivity. Qed.

Lemma mission_headers_witness :
  exists m,
    @from_dict Samples.plain_interpreter Samples.flat_host zoned_mission "map" = Ok m /\
    frame_id (ps_header (emergent_obj m)) = "map" /\
    stamp (ps_header (emergent_obj m)) = {| secs := 5; nsecs := 0 |}.
Proof.
  destruct zoned_mission_Ok as [m Hm]. exists m. split; [exact Hm |].
  destruct (@mission_headers Samples.plain_interpreter Samples.flat_host
              _ _ _ Hm) as (_ & _ & _ & _ & _ & H6).
  rewrite H6. split; reflexivity.
Defined.


Lemma mission_located_points_witness :
  exists m,
    @from_dict Samples.plain_interpreter Samples.flat_host zoned_mission "map" = Ok m /\
    z (point (air_drop_pos m)) = 0%Qc.
Proof.
  destruct zoned_mission_Ok as [m Hm]. exists m. split; [exact Hm |].
  destruct (@mission_located_points Samples.plain_interpreter Samples.flat_host
              _ _ _ Hm) as ((wire & _ & Hp) & _).
  destruct Hp as (? & ? & ? & ? & _ & _ & _ & _ & _ & Hz). exact Hz.
Defined.

Lemma mission_flyzones_witness :
  exists m fz,
    @from_dict Samples.plain_interpreter Samples.flat_host zoned_mission "map" = Ok m /\
    flyzones m = [fz] /\ length (polygon (zone fz)) = 1%nat.
Proof.
  destruct zoned_mission_Ok as [m Hm].
  destruct (@mission_flyzones Samples.plain_interpreter Samples.flat_host
              _ _ _ Hm) as (wire & entries & Hg & Hi & Hall).
  vm_compute in Hg. injection Hg as <-. vm_compute in Hi. injection Hi as <-.
  inversion Hall as [|e fz es fzs Hfz Hrest Heq1 Heq2]. subst.
  inversion Hrest. subst.
  exists m, fz. split; [exact Hm |]. split; [symmetry; assumption |].
  destruct Hfz as (amax & amin & pts & boundary & _ & _ & _ & _ & Hb & Hbi & Hps & _).
  rewrite <- (Forall2_length _ _ _ Hps).
  vm_compute in Hb. injection Hb as <-. vm_compute in Hbi. injection Hbi as <-.
  reflexivity.
Defined.

End MissionFacts.

(* ===================================================================== *)
(** ** Further properties: obstacles                                     *)
(* ===================================================================== *)

Module ObstaclesFacts.
Import ObstaclesDeserializer LoopFacts.

#[local] Arguments markers_of : simpl never.
#[local] Arguments getitem : simpl never.
#[local] Arguments feet_to_meters : simpl never.

Section WithHost.
Context {interp : Interpreter} {host : Host}.

(** [marker] is the sphere of the wire entry [obj]: its three scales are the
    converted [sphere_radius], its centre the projection of latitude and
    longitude at the converted [altitude_msl]. *)
Definition sphere_of (obj : pyval) (marker : Marker) : Prop :=
  exists sr radius lat lon easting northing alt,
    getitem obj "sphere_radius" = Ok sr /\ feet_to_meters sr = Ok radius /\
    getitem obj "latitude" = Ok lat /\ getitem obj "longitude" = Ok lon /\
    from_latlon lat lon = Ok (easting, northing) /\
    getitem obj "altitude_msl" = Ok alt /\
    feet_to_meters alt = Ok (z (position (pose marker))) /\
    scale marker = {| sx := radius; sy := radius; sz := radius |} /\
    x (position (pose marker)) = easting /\
    y (position (pose marker)) = northing.

(** What every marker of a category has in common. *)
Definition styled (frame : string) (lifetime : Qc) (kind : Z) (namespace : string)
    (marker : Marker) : Prop :=
  header marker = {| stamp := get_rostime 0; frame_id := frame |} /\
  type marker = kind /\ ns marker = namespace /\
  color marker = OBSTACLE_COLOR /\
  Msg.lifetime marker = Duration_of lifetime.

Lemma moving_marker_sphere header lifetime obj marker :
  moving_marker header lifetime obj = Ok marker ->
  sphere_of obj marker /\
  Msg.header marker = header /\ type marker = SPHERE /\
  ns marker = "moving_obstacles" /\ color marker = OBSTACLE_COLOR /\
  Msg.lifetime marker = Duration_of lifetime.
Proof.
  unfold moving_marker, sphere_of. intros H.
  destruct (getitem obj "sphere_radius") as [sr|]; cbn in H; [| discriminate].
  destruct (feet_to_meters sr) as [radius|] eqn:E2; cbn in H; [| discriminate].
  destruct (getitem obj "latitude") as [lat|]; cbn in H; [| discriminate].
  destruct (getitem obj "longitude") as [lon|]; cbn in H; [| discriminate].
  destruct (from_latlon lat lon) as [[e n]|] eqn:E5; cbn in H; [| discriminate].
  destruct (getitem obj "altitude_msl") as [alt|]; cbn in H; [| discriminate].
  destruct (feet_to_meters alt) as [a|] eqn:E7; cbn in H; [| discriminate].
  injection H as <-. cbn. split; [| repeat split].
  exists sr, radius, lat, lon, e, n, alt. cbn.
  split; [reflexivity |]. split; [exact E2 |]. split; [reflexivity |].
  split; [reflexivity |]. split; [exact E5 |]. split; [reflexivity |].
  split; [exact E7 |]. repeat split.
Qed.

Lemma stationary_marker_styled header lifetime obj marker :
  stationary_marker header lifetime obj = Ok marker ->
  Msg.header marker = header /\ type marker = CYLINDER /\
  ns marker = "stationary_obstacles" /\ color marker = OBSTACLE_COLOR /\
  Msg.lifetime marker = Duration_of lifetime.
Proof.
  unfold stationary_marker. intros H.
  destruct (getitem obj "cylinder_radius") as [cr|]; cbn in H; [| discriminate].
  destruct (feet_to_meters cr) as [radius|]; cbn in H; [| discriminate].
  destruct (getitem obj "cylinder_height") as [ch|]; cbn in H; [| discriminate].
  destruct (feet_to_meters ch) as [height|]; cbn in H; [| discriminate].
  destruct (getitem obj "latitude") as [lat|]; cbn in H; [| discriminate].
  destruct (getitem obj "longitude") as [lon|]; cbn in H; [| discriminate].
  destruct (from_latlon lat lon) as [[e n]|]; cbn in H; [| discriminate].
  injection H as <-. cbn. repeat split.
Qed.

Lemma markers_of_inv key body (d : gmap string pyval) (ms : list Marker) :
  markers_of key body (PDict d) = Ok ms ->
  match d !! key with
  | Some objs => exists entries, iter objs = Ok entries /\
                                 Forall2 (fun e m => body e = Ok m) entries ms
  | None => ms = []
  end.
Proof.
  intros H. destruct (d !! key) as [objs|] eqn:Ek.
  - rewrite (ObstaclesSpec.markers_of_present _ _ _ _ Ek) in H.
    exact (MissionFacts.for_each_Forall2 _ _ _ H).
  - rewrite (ObstaclesSpec.markers_of_absent _ _ _ Ek) in H. congruence.
Qed.

Lemma obstacles_from_dict_inv (d : gmap string pyval) frame lifetime moving stationary :
  from_dict (PDict d) frame lifetime = Ok (moving, stationary) ->
  let header := {| stamp := get_rostime 0; frame_id := frame |} in
  markers_of "moving_obstacles" (moving_marker header lifetime) (PDict d) = Ok moving /\
  markers_of "stationary_obstacles" (stationary_marker header lifetime) (PDict d)
    = Ok stationary.
Proof.
  unfold from_dict. intros H. cbn zeta.
  destruct (markers_of "moving_obstacles" _ _) as [mov|]; cbn in H; [| discriminate].
  destruct (markers_of "stationary_obstacles" _ _) as [stat|]; cbn in H; [| discriminate].
  injection H as <- <-. split; reflexivity.
Qed.

(** X15: every entry of [moving_obstacles] becomes, in order, a sphere marker
    whose three scales are the converted radius and whose centre is the
    projected position at the converted altitude. *)
Theorem moving_obstacles_are_spheres (d : gmap string pyval) frame lifetime
    moving stationary objs :
  from_dict (PDict d) frame lifetime = Ok (moving, stationary) ->
  d !! "moving_obstacles" = Some objs ->
  exists entries, iter objs = Ok entries /\ Forall2 sphere_of entries moving.
Proof.
  intros H Hobjs. destruct (obstacles_from_dict_inv _ _ _ _ _ H) as [Hm _].
  apply markers_of_inv in Hm. rewrite Hobjs in Hm.
  destruct Hm as (entries & Hiter & Hall).
  exists entries. split; [exact Hiter |].
  eapply MissionFacts.Forall2_weaken; [| exact Hall].
  intros e m Hem. exact (proj1 (moving_marker_sphere _ _ _ _ Hem)).
Qed.

(** X16: all markers of a result share the header (the caller's frame, one
    reading of the clock), the colour and the caller's lifetime; moving
    obstacles are SPHERE markers in the namespace "moving_obstacles" and
    stationary ones CYLINDER markers in "stationary_obstacles". *)
Theorem obstacle_markers_styled (d : gmap string pyval) frame lifetime
    moving stationary :
  from_dict (PDict d) frame lifetime = Ok (moving, stationary) ->
  Forall (styled frame lifetime SPHERE "moving_obstacles") moving /\
  Forall (styled frame lifetime CYLINDER "stationary_obstacles") stationary.
Proof.
  intros H. destruct (obstacles_from_dict_inv _ _ _ _ _ H) as [Hm Hs].
  apply markers_of_inv in Hm. apply markers_of_inv in Hs. split.
  - destruct (d !! "moving_obstacles"); [| subst; constructor].
    destruct Hm as (entries & _ & Hall). clear - Hall.
    induction Hall as [|e m es ms Hem _ IH]; constructor; [| exact IH].
    exact (proj2 (moving_marker_sphere _ _ _ _ Hem)).
  - destruct (d !! "stationary_obstacles"); [| subst; constructor].
    destruct Hs as (entries & _ & Hall). clear - Hall.
    induction Hall as [|e m es ms Hem _ IH]; constructor; [| exact IH].
    exact (stationary_marker_styled _ _ _ _ Hem).
Qed.

Lemma markers_of_agree key body (d d' : gmap string pyval) :
  d !! key = d' !! key -> markers_of key body (PDict d) = markers_of key body (PDict d').
Proof.
  intros Heq. destruct (d !! key) as [objs|] eqn:Ek.
  - rewrite (ObstaclesSpec.markers_of_present _ _ _ _ Ek).
    rewrite (ObstaclesSpec.markers_of_present _ _ d' objs) by congruence.
    reflexivity.
  - rewrite (ObstaclesSpec.markers_of_absent _ _ _ Ek).
    rewrite (ObstaclesSpec.markers_of_absent _ _ d') by congruence.
    reflexivity.
Qed.

Lemma markers_of_empty key body (d : gmap string pyval) :
  markers_of key body (PDict (<[key := PList []]> d)) = Ok [].
Proof.
  rewrite (ObstaclesSpec.markers_of_present _ _ _ (PList [])) by apply lookup_insert_eq.
  reflexivity.
Qed.

(** X17: [from_dict] looks at the two obstacle keys only: dictionaries that
    agree on them give the same result, and a key bound to the empty list
    gives the same result as no key at all. *)
Theorem obstacles_depend_on_two_keys (d d' : gmap string pyval) frame lifetime :
  (d !! "moving_obstacles" = d' !! "moving_obstacles" ->
   d !! "stationary_obstacles" = d' !! "stationary_obstacles" ->
   from_dict (PDict d) frame lifetime = from_dict (PDict d') frame lifetime) /\
  (forall key, key = "moving_obstacles" \/ key = "stationary_obstacles" ->
     from_dict (PDict (<[key := PList []]> d)) frame lifetime
       = from_dict (PDict (delete key d)) frame lifetime).
Proof.
  split.
  - intros Hm Hs. unfold from_dict.
    rewrite (markers_of_agree "moving_obstacles" _ d d' Hm).
    destruct (markers_of "moving_obstacles" _ (PDict d')); cbn; [| reflexivity].
    rewrite (markers_of_agree "stationary_obstacles" _ d d' Hs). reflexivity.
  - intros key [-> | ->]; unfold from_dict.
    + rewrite markers_of_empty.
      rewrite (ObstaclesSpec.markers_of_absent "moving_obstacles" _ (delete _ d))
        by apply lookup_delete_eq.
      cbn.
      rewrite (markers_of_agree "stationary_obstacles" _
                 (<["moving_obstacles" := PList []]> d)
                 (delete "moving_obstacles" d)); [reflexivity |].
      rewrite lookup_insert_ne, lookup_delete_ne by discriminate. reflexivity.
    + rewrite (markers_of_agree "moving_obstacles" _
                 (<["stationary_obstacles" := PList []]> d)
                 (delete "stationary_obstacles" d))
        by (rewrite lookup_insert_ne, lookup_delete_ne by discriminate; reflexivity).
      destruct (markers_of "moving_obstacles" _ _); cbn; [| reflexivity].
      rewrite markers_of_empty.
      rewrite (ObstaclesSpec.markers_of_absent "stationary_obstacles" _ (delete _ d))
        by apply lookup_delete_eq.
      reflexivity.
Qed.

Lemma mapM_fmap_ext {A B C} (f : A -> B) (g : B -> result C) (body : A -> result C)
    (l : list A) :
  (forall a, g (f a) = body a) -> mapM g (f <$> l) = mapM body l.
Proof.
  intros Hg. induction l as [|a l IH]; [reflexivity |].
  cbn. rewrite Hg, IH. reflexivity.
Qed.

Lemma stationary_marker_ignores header lifetime (o : gmap string pyval) key v :
  key <> "cylinder_radius" -> key <> "cylinder_height" ->
  key <> "latitude" -> key <> "longitude" ->
  stationary_marker header lifetime (PDict (<[key := v]> o))
    = stationary_marker header lifetime (PDict o).
Proof.
  intros H1 H2 H3 H4. unfold stationary_marker, getitem.
  rewrite !lookup_insert_ne by congruence. reflexivity.
Qed.

(** X18: the marker of a stationary obstacle does not depend on the
    [altitude_msl] of its entry: the cylinder always stands at half its
    height. *)
Theorem stationary_ignores_altitude (d : gmap string pyval)
    (entries : list (gmap string pyval)) (v : pyval) frame lifetime :
  d !! "stationary_obstacles" = Some (PList (PDict <$> entries)) ->
  from_dict
    (PDict (<["stationary_obstacles" :=
                PList ((fun o => PDict (<["altitude_msl" := v]> o)) <$> entries)]> d))
    frame lifetime
  = from_dict (PDict d) frame lifetime.
Proof.
  intros Hd. unfold from_dict.
  rewrite (markers_of_agree "moving_obstacles" _
             (<["stationary_obstacles" := _]> d) d)
    by (apply lookup_insert_ne; discriminate).
  destruct (markers_of "moving_obstacles" _ (PDict d)); cbn; [| reflexivity].
  rewrite (ObstaclesSpec.markers_of_present _ _ _ _ (lookup_insert_eq d _ _)).
  rewrite (ObstaclesSpec.markers_of_present _ _ _ _ Hd).
  unfold for_each. cbn [iter mbind result_bind].
  rewrite (mapM_fmap_ext (fun o => PDict (<["altitude_msl" := v]> o))
             _
             (fun o => stationary_marker
                         {| stamp := get_rostime 0; frame_id := frame |}
                         lifetime (PDict o))).
  - rewrite (mapM_fmap_ext PDict _
               (fun o => stationary_marker
                           {| stamp := get_rostime 0; frame_id := frame |}
                           lifetime (PDict o))); reflexivity.
  - intros o. apply stationary_marker_ignores; discriminate.
Qed.

End WithHost.

Lemma moving_obstacles_are_spheres_witness :
  exists moving stationary marker,
    @from_dict Samples.plain_interpreter Samples.flat_host
      (PDict Samples.sphere_and_cylinder) "map" (Qc_of_Z 1) = Ok (moving, stationary) /\
    moving = [marker] /\
    sz (scale marker) = Q2Qc (1524 # 100) /\
    z (position (pose marker)) = Q2Qc (6096 # 100).
Proof.
  destruct (@from_dict Samples.plain_interpreter Samples.flat_host
              (PDict Samples.sphere_and_cylinder) "map" (Qc_of_Z 1))
    as [[moving stationary]|] eqn:Hrun; [| vm_compute in Hrun; discriminate Hrun].
  destruct (@moving_obstacles_are_spheres Samples.plain_interpreter Samples.flat_host
              _ _ _ _ _ _ Hrun eq_refl) as (entries & Hiter & Hall).
  cbn in Hiter. injection Hiter as <-.
  inversion Hall as [|e marker es ms Hs Hrest]. subst. inversion Hrest. subst.
  exists [marker], stationary, marker.
  split; [reflexivity |]. split; [reflexivity |].
  destruct Hs as (sr & radius & lat & lon & ea & no & alt & Hsr & Hr & _ & _ & _
                  & Halt & Ha & Hscale & _).
  vm_compute in Hsr. injection Hsr as <-. vm_compute in Halt. injection Halt as <-.
  rewrite Hscale. cbn [sz].
  assert (Hr' : radius = Q2Qc (1524 # 100))
    by (cbn in Hr; injection Hr as <-; apply Qc_is_canon; reflexivity).
  split; [exact Hr' |].
  cbn in Ha. injection Ha as <-. apply Qc_is_canon. reflexivity.
Defined.

Lemma obstacle_markers_styled_witness :
  exists moving stationary,
    @from_dict Samples.plain_interpreter Samples.flat_host
      (PDict Samples.sphere_and_cylinder) "map" (Qc_of_Z 1) = Ok (moving, stationary) /\
    Forall (fun m => frame_id (header m) = "map" /\ type m = SPHERE) moving /\
    Forall (fun m => frame_id (header m) = "map" /\ type m = CYLINDER) stationary.
Proof.
  destruct (@from_dict Samples.plain_interpreter Samples.flat_host
              (PDict Samples.sphere_and_cylinder) "map" (Qc_of_Z 1))
    as [[moving stationary]|] eqn:Hrun; [| vm_compute in Hrun; discriminate Hrun].
  destruct (@obstacle_markers_styled Samples.plain_interpreter Samples.flat_host
              _ _ _ _ _ Hrun) as [Hm Hs].
  exists moving, stationary. split; [reflexivity |]. split.
  - eapply Forall_impl; [exact Hm |]. intros m (Hh & Ht & _). rewrite Hh. split; [reflexivity | exact Ht].
  - eapply Forall_impl; [exact Hs |]. intros m (Hh & Ht & _). rewrite Hh. split; [reflexivity | exact Ht].
Defined.

Lemma obstacles_depend_on_two_keys_witness :
  Samples.one_cylinder !! "moving_obstacles"
    = (<["comment" := PStr "none"]> Samples.one_cylinder) !! "moving_obstacles" /\
  Samples.one_cylinder !! "stationary_obstacles"
    = (<["comment" := PStr "none"]> Samples.one_cylinder) !! "stationary_obstacles" /\
  @from_dict Samples.plain_interpreter Samples.flat_host
    (PDict Samples.one_cylinder) "map" (Qc_of_Z 1)
  = @from_dict Samples.plain_interpreter Samples.flat_host
      (PDict (<["comment" := PStr "none"]> Samples.one_cylinder)) "map" (Qc_of_Z 1).
Proof.
  assert (H1 : Samples.one_cylinder !! "moving_obstacles"
                = (<["comment" := PStr "none"]> Samples.one_cylinder)
                    !! "moving_obstacles") by reflexivity.
  assert (H2 : Samples.one_cylinder !! "stationary_obstacles"
                = (<["comment" := PStr "none"]> Samples.one_cylinder)
                    !! "stationary_obstacles") by reflexivity.
  split; [exact H1 |]. split; [exact H2 |].
  exact (proj1 (@obstacles_depend_on_two_keys Samples.plain_interpreter
                  Samples.flat_host Samples.one_cylinder
                  (<["comment" := PStr "none"]> Samples.one_cylinder)
                  "map" (Qc_of_Z 1)) H1 H2).
Defined.

Lemma stationary_ignores_altitude_witness :
  let entry : gmap string pyval :=
    <["cylinder_radius" := PInt 10]> (<["cylinder_height" := PInt 20]>
    (<["latitude" := PInt 0]> (<["longitude" := PInt 0]> ∅))) in
  let d : gmap string pyval := {[ "stationary_obstacles" := PList (PDict <$> [entry]) ]} in
  d !! "stationary_obstacles" = Some (PList (PDict <$> [entry])) /\
  @from_dict Samples.plain_interpreter Samples.flat_host
    (PDict (<["stationary_obstacles" :=
                PList ((fun o => PDict (<["altitude_msl" := PInt 5000]> o)) <$> [entry])]> d))
    "map" (Qc_of_Z 1)
  = @from_dict Samples.plain_interpreter Samples.flat_host (PDict d) "map" (Qc_of_Z 1).
Proof.
  intros entry d.
  assert (Hd : d !! "stationary_obstacles" = Some (PList (PDict <$> [entry])))
    by reflexivity.
  split; [exact Hd |].
  exact (@stationary_ignores_altitude Samples.plain_interpreter Samples.flat_host
           d [entry] (PInt 5000) "map" (Qc_of_Z 1) Hd).
Defined.

End ObstaclesFacts.

(* ===================================================================== *)
(** ** Further properties: telemetry and argument errors                 *)
(* ===================================================================== *)

Module TelemetryFacts.
Import TelemetrySerializer.

Section WithInterpreter.
Context {interp : Interpreter}.



(** [from_msg] raises exactly when one of the four readings is not a
    number. *)
Theorem telemetry_fails_on_non_number (navsat_msg : NavSatFix) (compass_msg : pyval) :
  is_Ok (from_msg navsat_msg compass_msg) =
    is_Ok (float (latitude navsat_msg)) && is_Ok (float (longitude navsat_msg))
    && is_Ok (float (altitude navsat_msg)) && is_Ok (float compass_msg).
Proof.
  unfold from_msg, meters_to_feet.
  destruct (float (latitude navsat_msg)); cbn; [| reflexivity].
  destruct (float (longitude navsat_msg)); cbn; [| reflexivity].
  destruct (float (altitude navsat_msg)); cbn; [| reflexivity].
  destruct (float compass_msg); reflexivity.
Qed.

End WithInterpreter.


End TelemetryFacts.

Module ArgumentFacts.

Section WithWorld.
Context {interp : Interpreter} {host : Host} {world : World} {encoder : JsonEncoder}.

(** X8: a method whose argument cannot be put on the wire raises before
    anything is sent: the state, trace included, is untouched. This holds
    for an [id] that is not an integer in the six methods that format it
    into the path, and for a telemetry reading that is not a number. *)
Theorem bad_argument_sends_nothing (fuel : nat) (self : client) (st : state) :
  (forall id e frame json_target png,
     format_d id = Err e ->
     get_target fuel self id st = Some (Err e, st) /\
     get_mission fuel self id frame st = Some (Err e, st) /\
     put_target fuel self id json_target st = Some (Err e, st) /\
     delete_target fuel self id st = Some (Err e, st) /\
     post_target_image fuel self id png st = Some (Err e, st) /\
     delete_target_image fuel self id st = Some (Err e, st)) /\
  (forall navsat_msg compass_msg e,
     TelemetrySerializer.from_msg navsat_msg compass_msg = Err e ->
     post_telemetry fuel self navsat_msg compass_msg st = Some (Err e, st)).
Proof.
  split.
  - intros id e frame json_target png Hid.
    unfold get_target, get_mission, put_target, delete_target, post_target_image,
      delete_target_image, mbind, io_bind, lift.
    rewrite Hid. repeat split.
  - intros navsat_msg compass_msg e Hmsg.
    unfold post_telemetry, mbind at 1, io_bind, lift. rewrite Hmsg. reflexivity.
Qed.

(** X9: requests for different integer ids go to different URLs. *)
Theorem target_url_injective (self : client) (method path : string)
    (kwargs : gmap string pyval) (a b : Z) :
  String.prefix "/" path = true -> a <> b ->
  c_url (request_call self method (path +:+ pretty a) kwargs)
    <> c_url (request_call self method (path +:+ pretty b) kwargs).
Proof.
  intros Hpath Hab. unfold request_call. cbn [c_url].
  assert (Hpre : forall n : Z, String.prefix "/" (path +:+ pretty n) = true).
  { intros n. destruct path as [|c path]; [discriminate Hpath |].
    change (String c path +:+ pretty n) with (String c (path +:+ pretty n)).
    apply String.prefix_correct in Hpath. apply String.prefix_correct.
    cbn in Hpath |- *. injection Hpath as -> _.
    destruct (path +:+ pretty n); reflexivity. }
  rewrite !Hpre. intros Heq.
  apply (inj (String.append (url self))) in Heq.
  apply (inj (String.append path)) in Heq.
  exact (Hab (inj pretty _ _ Heq)).
Qed.

End WithWorld.

Lemma bad_argument_sends_nothing_witness :
  format_d (PStr "7") = Err ValueError /\
  @get_target (Samples.answering PNone) 3 Samples.a_client (PStr "7") Samples.initial
    = Some (Err ValueError, Samples.initial).
Proof.
  split; [reflexivity |].
  exact (proj1 (proj1 (@bad_argument_sends_nothing Samples.plain_interpreter
                         Samples.flat_host (Samples.answering PNone)
                         {| dumps := fun _ => "" |} 3 Samples.a_client Samples.initial)
                      (PStr "7") ValueError "map" "" "" eq_refl)).
Defined.

Lemma target_url_injective_witness :
  String.prefix "/" "/api/targets/" = true /\ 12 <> 21 /\
  c_url (request_call Samples.a_client "GET" ("/api/targets/" +:+ pretty 12) ∅)
    <> c_url (request_call Samples.a_client "GET" ("/api/targets/" +:+ pretty 21) ∅).
Proof.
  assert (Hne : 12 <> 21) by discriminate.
  split; [reflexivity |]. split; [exact Hne |].
  exact (target_url_injective Samples.a_client "GET" "/api/targets/" ∅ 12 21
           eq_refl Hne).
Defined.

End ArgumentFacts.

(* ===================================================================== *)
(** ** Further properties: endpoints                                     *)
(* ===================================================================== *)

Module EndpointFacts.

(** The request of [login]. *)
Definition login_call (self : client) : Call :=
  {| c_method := "POST";
     c_url := url self +:+ "/api/login";
     c_timeout := timeout self;
     c_kwargs := {[ "data" := credentials self ]} |}.

(** The request for [path] (which starts with a slash) with [method]. *)
Definition endpoint (self : client) (method path : string)
    (kwargs : gmap string pyval) : Call :=
  {| c_method := method;
     c_url := url self +:+ path;
     c_timeout := timeout self;
     c_kwargs := kwargs |}.

(** An event that is no request, or is the request [c], or is the login. *)
Definition allowed (self : client) (c : Call) (ev : event) : Prop :=
  match ev with
  | Sent _ c' _ => c' = c \/ c' = login_call self
  | _ => True
  end.

(** From [st] to [st'] the trace has only grown, and every request added
    is [c] or the login. *)
Definition talks_only_to (self : client) (c : Call) (st st' : state) : Prop :=
  exists added, trace st' = (added ++ trace st)%list /\ Forall (allowed self c) added.

Lemma talks_refl self c st : talks_only_to self c st st.
Proof. exists []. split; [reflexivity | constructor]. Qed.

Lemma talks_trans self c st1 st2 st3 :
  talks_only_to self c st1 st2 -> talks_only_to self c st2 st3 ->
  talks_only_to self c st1 st3.
Proof.
  intros (a1 & H1 & Ha1) (a2 & H2 & Ha2). exists (a2 ++ a1)%list. split.
  - rewrite H2, H1. apply app_assoc.
  - apply Forall_app. split; assumption.
Qed.

Lemma talks_event self c st st' ev :
  allowed self c ev -> trace st' = ev :: trace st -> talks_only_to self c st st'.
Proof.
  intros Hev Htr. exists [ev]. split; [exact Htr | repeat constructor; exact Hev].
Qed.

Section WithWorld.
Context {world : World}.

Lemma talks_login self c st res st' :
  login self st = Some (res, st') -> talks_only_to self c st st'.
Proof.
  intros Hlogin. unfold login, session_request in Hlogin.
  cbn [log trace session] in Hlogin.
  match type of Hlogin with
  | context [server ?tr ?sid ?call] =>
      exists [Sent sid call (server tr sid call); LoginCalled];
      destruct (server tr sid call)
  end; injection Hlogin as _ <-;
    (split; [reflexivity |]); repeat constructor; right; reflexivity.
Qed.

Lemma talks_request_loop fuel self method uri kwargs :
  forall response st res st',
    request_loop fuel self method uri kwargs response st = Some (res, st') ->
    talks_only_to self (request_call self method uri kwargs) st st'.
Proof.
  set (c := request_call self method uri kwargs).
  induction fuel as [|fuel IH]; intros response st res st' Hrun; [discriminate |].
  cbn [request_loop] in Hrun. fold c in Hrun.
  assert (Hpoll : talks_only_to self c st (log (Polled (is_shutdown (trace st))) st))
    by (apply (talks_event _ _ _ _ (Polled (is_shutdown (trace st))));
        [exact I | reflexivity]).
  destruct (is_shutdown (trace st)).
  { injection Hrun as _ <-. exact Hpoll. }
  unfold session_request in Hrun.
  match type of Hrun with
  | context [server ?tr ?sid c] =>
      assert (Hsent : talks_only_to self c st
                        (log (Sent sid c (server tr sid c)) (log (Polled false) st)))
        by (eapply talks_trans; [exact Hpoll |];
            apply (talks_event _ _ _ _ (Sent sid c (server tr sid c)));
            [left; reflexivity | reflexivity]);
      destruct (server tr sid c) as [r|e]
  end.
  2: { injection Hrun as _ <-. exact Hsent. }
  destruct (status_code r =? FORBIDDEN).
  - match type of Hrun with
    | context [login self ?s] =>
        assert (Hnew : talks_only_to self c st s)
          by (eapply talks_trans; [exact Hsent |];
              exists [Opened (next_session st); Closed (session st)];
              split; [reflexivity | repeat constructor]);
        destruct (login self s) as [[[[]|e] st2]|] eqn:Hlogin; [| | discriminate]
    end.
    + eapply talks_trans; [| exact (IH _ _ _ _ Hrun)].
      eapply talks_trans; [exact Hnew | exact (talks_login _ _ _ _ _ Hlogin)].
    + injection Hrun as _ <-.
      eapply talks_trans; [exact Hnew | exact (talks_login _ _ _ _ _ Hlogin)].
  - destruct (raise_for_status r); injection Hrun as _ <-; exact Hsent.
Qed.

Lemma request_call_endpoint self method path kwargs :
  request_call self method ("/" +:+ path) kwargs
    = endpoint self method ("/" +:+ path) kwargs.
Proof.
  unfold request_call, endpoint. rewrite ClientFacts.prefix_slash. reflexivity.
Qed.

(** A method that formats its argument, sends one request and reads the
    answer without further traffic. *)
Lemma talks_method {A B} (fuel : nat) (self : client) (method : string)
    (k : Response -> result B)
    (arg : result A) (path_of : A -> string) (kwargs_of : A -> gmap string pyval)
    (a : A) (st : state) res st' :
  arg = Ok a ->
  (x ← lift arg;
   response ← __request fuel self method ("/" +:+ path_of x) (kwargs_of x);
   lift (k response)) st = Some (res, st') ->
  talks_only_to self (endpoint self method ("/" +:+ path_of a) (kwargs_of a)) st st'.
Proof.
  intros -> Hrun. unfold mbind, io_bind, lift in Hrun.
  rewrite <- request_call_endpoint.
  destruct (__request fuel self method ("/" +:+ path_of a) (kwargs_of a) st)
    as [[[r|e] st1]|] eqn:Hreq; [| | discriminate].
  - injection Hrun as _ <-. exact (talks_request_loop _ _ _ _ _ _ _ _ _ Hreq).
  - injection Hrun as _ <-. exact (talks_request_loop _ _ _ _ _ _ _ _ _ Hreq).
Qed.

Context {interp : Interpreter} {host : Host} {encoder : JsonEncoder}.

(** X7: whatever the server answers, a resource method talks to its own
    endpoint only: every request it adds to the trace is the one for its
    verb, path and payload, or the login it repeats after a FORBIDDEN
    answer; and nothing of the earlier trace is rewritten. *)
Theorem resource_methods_endpoints (fuel : nat) (self : client) (st st' : state) :
  (forall frame lifetime res,
     get_obstacles fuel self frame lifetime st = Some (res, st') ->
     talks_only_to self (endpoint self "GET" "/api/obstacles" ∅) st st') /\
  (forall navsat_msg compass_msg dict_telem res,
     TelemetrySerializer.from_msg navsat_msg compass_msg = Ok dict_telem ->
     post_telemetry fuel self navsat_msg compass_msg st = Some (res, st') ->
     talks_only_to self
       (endpoint self "POST" "/api/telemetry" {[ "data" := PStr (dumps dict_telem) ]})
       st st') /\
  (forall json_target res,
     post_target fuel self json_target st = Some (res, st') ->
     talks_only_to self
       (endpoint self "POST" "/api/targets" {[ "data" := PStr json_target ]}) st st') /\
  (forall res,
     get_all_targets fuel self st = Some (res, st') ->
     talks_only_to self (endpoint self "GET" "/api/targets" ∅) st st') /\
  (forall frame res,
     get_active_mission fuel self frame st = Some (res, st') ->
     talks_only_to self (endpoint self "GET" "/api/missions" ∅) st st') /\
  (forall id n,
     format_d id = Ok n ->
     (forall res,
        get_target fuel self id st = Some (res, st') ->
        talks_only_to self (endpoint self "GET" ("/api/targets/" +:+ n) ∅) st st') /\
     (forall frame res,
        get_mission fuel self id frame st = Some (res, st') ->
        talks_only_to self (endpoint self "GET" ("/api/missions/" +:+ n) ∅) st st') /\
     (forall json_target res,
        put_target fuel self id json_target st = Some (res, st') ->
        talks_only_to self
          (endpoint self "PUT" ("/api/targets/" +:+ n) {[ "data" := PStr json_target ]})
          st st') /\
     (forall res,
        delete_target fuel self id st = Some (res, st') ->
        talks_only_to self (endpoint self "DELETE" ("/api/targets/" +:+ n) ∅) st st') /\
     (forall png res,
        post_target_image fuel self id png st = Some (res, st') ->
        talks_only_to self
          (endpoint self "POST" ("/api/targets/" +:+ n +:+ "/image")
             {[ "data" := PStr png ]}) st st') /\
     (forall res,
        delete_target_image fuel self id st = Some (res, st') ->
        talks_only_to self
          (endpoint self "DELETE" ("/api/targets/" +:+ n +:+ "/image") ∅) st st')).
Proof.
  split; [| split; [| split; [| split; [| split;
    [| intros id n H; split; [| split; [| split; [| split; [| split]]]]]]]]].
  - intros frame lifetime res Hrun.
    exact (talks_method fuel self "GET" _ (Ok ()) (fun _ => "api/obstacles")
             (fun _ => ∅) () st res st' eq_refl Hrun).
  - intros navsat_msg compass_msg dict_telem res Hmsg Hrun.
    exact (talks_method fuel self "POST" (fun _ => Ok ()) _
             (fun _ => "api/telemetry")
             (fun d => {[ "data" := PStr (dumps d) ]}) dict_telem st res st' Hmsg Hrun).
  - intros json_target res Hrun.
    exact (talks_method fuel self "POST" _ (Ok ()) (fun _ => "api/targets")
             (fun _ => {[ "data" := PStr json_target ]}) () st res st' eq_refl Hrun).
  - intros res Hrun.
    exact (talks_method fuel self "GET" _ (Ok ()) (fun _ => "api/targets")
             (fun _ => ∅) () st res st' eq_refl Hrun).
  - intros frame res Hrun.
    exact (talks_method fuel self "GET" _ (Ok ()) (fun _ => "api/missions")
             (fun _ => ∅) () st res st' eq_refl Hrun).
  - intros res Hrun.
    exact (talks_method fuel self "GET" _ _ (fun n => "api/targets/" +:+ n)
             (fun _ => ∅) n st res st' H Hrun).
  - intros frame res Hrun.
    exact (talks_method fuel self "GET" _ _ (fun n => "api/missions/" +:+ n)
             (fun _ => ∅) n st res st' H Hrun).
  - intros json_target res Hrun.
    exact (talks_method fuel self "PUT" (fun _ => Ok ()) _
             (fun n => "api/targets/" +:+ n)
             (fun _ => {[ "data" := PStr json_target ]}) n st res st' H Hrun).
  - intros res Hrun.
    exact (talks_method fuel self "DELETE" (fun _ => Ok ()) _
             (fun n => "api/targets/" +:+ n) (fun _ => ∅) n st res st' H Hrun).
  - intros png res Hrun.
    exact (talks_method fuel self "POST" (fun _ => Ok ()) _
             (fun n => "api/targets/" +:+ n +:+ "/image")
             (fun _ => {[ "data" := PStr png ]}) n st res st' H Hrun).
  - intros res Hrun.
    exact (talks_method fuel self "DELETE" (fun _ => Ok ()) _
             (fun n => "api/targets/" +:+ n +:+ "/image") (fun _ => ∅)
             n st res st' H Hrun).
Qed.

End WithWorld.

Lemma resource_methods_endpoints_witness :
  format_d (PInt 7) = Ok "7" /\
  exists res st',
    @delete_target (Samples.forbid_first 1) 3 Samples.a_client (PInt 7) Samples.initial
      = Some (res, st') /\
    talks_only_to Samples.a_client
      (endpoint Samples.a_client "DELETE" "/api/targets/7" ∅) Samples.initial st'.
Proof.
  assert (Hid : format_d (PInt 7) = Ok "7") by reflexivity.
  split; [exact Hid |].
  destruct (@delete_target (Samples.forbid_first 1) 3 Samples.a_client (PInt 7)
              Samples.initial) as [[res st']|] eqn:Hrun;
    [| vm_compute in Hrun; discriminate Hrun].
  exists res, st'. split; [reflexivity |].
  destruct (@resource_methods_endpoints (Samples.forbid_first 1)
              Samples.plain_interpreter Samples.flat_host {| dumps := fun _ => "" |}
              3 Samples.a_client Samples.initial st')
    as (_ & _ & _ & _ & _ & Hids).
  destruct (Hids (PInt 7) "7" Hid) as (_ & _ & _ & Hdelete & _).
  exact (Hdelete res Hrun).
Defined.

End EndpointFacts.

(* ===================================================================== *)
(** ** Further properties: timestamps                                    *)
(* ===================================================================== *)

Module TimeFacts.
Import Dateutil TimeSpec.









End TimeFacts.

(* ===================================================================== *)
(** ** Further properties: targets                                       *)
(* ===================================================================== *)

Module TargetFacts.
Import TargetSerializer TargetSpec.

Section WithSchema.
Context {interp : Interpreter} {schema : Schema}.

(** A value returned by a constructor call has the type that was called. *)
Lemma call_type_of (ty : pytype) (v w : pyval) : call ty v = Ok w -> type_of w = ty.
Proof.
  destruct ty; cbn; try discriminate.
  - intros [= <-]. reflexivity.
  - destruct (int v); cbn; [intros [= <-]; reflexivity | discriminate].
  - destruct (float v); cbn; [intros [= <-]; reflexivity | discriminate].
  - intros [= <-]. reflexivity.
  - destruct (iter v); cbn; [intros [= <-]; reflexivity | discriminate].
  - destruct v; try discriminate. intros [= <-]. reflexivity.
  - intros [= <-]. reflexivity.
Qed.

(** X22: whatever the wire dictionary holds, a message returned by [from_dict]
    has exactly the declared slots, and every slot holds a value of its
    declared type. *)
Theorem from_dict_well_typed (d msg : gmap string pyval) :
  NoDup __slots__ ->
  from_dict (PDict d) = Ok msg ->
  (forall n ty, (n, ty) ∈ slots ->
     exists v, msg !! n = Some v /\ type_of v = domain_type ty) /\
  (forall n, n ∉ __slots__ -> msg !! n = None).
Proof.
  intros Hnd Hmsg.
  assert (Hall : forall n, n ∈ __slots__ -> is_Some (Target !! n)).
  { intros n Hn. destruct (Target_lookup_name n Hn) as (ty & _ & Hl). eauto. }
  pose proof (permissive_fold d __slots__ Hnd Target Hall) as Hfold.
  rewrite <- from_dict_unfold, Hmsg in Hfold. destruct Hfold as [Hin Hout].
  split.
  - intros n ty Hslot.
    destruct (Hin n (default_of ty) (slot_in_names _ _ Hslot)
                (Target_lookup_slot n ty Hnd Hslot)) as (v & Hv & Hlook).
    exists v. split; [exact Hlook |].
    unfold slot_outcome in Hv. rewrite type_of_default in Hv.
    destruct (d !! n) as [w|].
    + destruct (is_None w).
      * injection Hv as <-. apply type_of_default.
      * exact (call_type_of _ _ _ Hv).
    + injection Hv as <-. apply type_of_default.
  - intros n Hn. rewrite (Hout n Hn). exact (Target_lookup_other n Hn).
Qed.

(** [v] is the wire form of a field of declared type [ty]: the scalar
    itself, and for an enumeration any non-null scalar. *)
Definition wire_typed (ty : ftype) (v : pyval) : bool :=
  match ty, v with
  | FBool, PBool _ => true
  | FInt, PInt _ => true
  | FFloat, PFloat _ => true
  | FString, PStr _ => true
  | FEnum _, _ => negb (is_None v)
  | _, _ => false
  end.

Lemma call_wire_typed ty v :
  wire_typed ty v = true ->
  is_None v = false /\
  exists w, call (domain_type ty) v = Ok w /\ unwrap w = v.
Proof.
  destruct ty; cbn.
  - destruct v; try discriminate. intros _. split; [reflexivity |]. eexists. split; reflexivity.
  - destruct v; try discriminate. intros _. split; [reflexivity |]. eexists. split; reflexivity.
  - destruct v; try discriminate. intros _. split; [reflexivity |]. eexists. split; reflexivity.
  - destruct v; try discriminate. intros _. split; [reflexivity |]. eexists. split; reflexivity.
  - intros Hn. apply negb_true_iff in Hn. split; [exact Hn |].
    eexists. split; reflexivity.
Qed.

(** X23: deserializing a wire dictionary that has exactly the declared fields,
    each in its wire form, and serializing the message again gives the
    dictionary back. *)
Theorem wire_round_trip (d : gmap string pyval) :
  NoDup __slots__ ->
  (forall n ty, (n, ty) ∈ slots -> exists v, d !! n = Some v /\ wire_typed ty v = true) ->
  (forall n, n ∉ __slots__ -> d !! n = None) ->
  exists msg, from_dict (PDict d) = Ok msg /\ from_msg msg = Ok d.
Proof.
  intros Hnd Hty Hdom.
  assert (Hall : forall n, n ∈ __slots__ -> is_Some (Target !! n)).
  { intros n Hn. destruct (Target_lookup_name n Hn) as (ty & _ & Hl). eauto. }
  pose proof (permissive_fold d __slots__ Hnd Target Hall) as Hfold.
  rewrite <- from_dict_unfold in Hfold.
  destruct (from_dict (PDict d)) as [msg|e].
  - destruct Hfold as [Hin Hout]. exists msg. split; [reflexivity |].
    assert (Hmsg : forall n, n ∈ __slots__ ->
              exists w, msg !! n = Some w /\ Some (unwrap w) = d !! n).
    { intros n Hn. destruct (name_in_slots n Hn) as [ty Hslot].
      destruct (Hin n (default_of ty) Hn (Target_lookup_slot n ty Hnd Hslot))
        as (w & Hw & Hlook).
      exists w. split; [exact Hlook |].
      destruct (Hty n ty Hslot) as (v & Hv & Hwire).
      destruct (call_wire_typed ty v Hwire) as (Hnn & w' & Hcall & Hun).
      unfold slot_outcome in Hw. rewrite Hv, Hnn, type_of_default, Hcall in Hw.
      injection Hw as <-. rewrite Hv, Hun. reflexivity. }
    destruct (from_msg_fold msg __slots__
                (fun n Hn => let (w, Hw) := Hmsg n Hn in
                             ex_intro _ w (proj1 Hw)) ∅)
      as (data & Hdata & Hlook).
    rewrite from_msg_unfold, Hdata. f_equal. apply map_eq. intros n.
    rewrite Hlook. destruct (decide (n ∈ __slots__)) as [Hn | Hn].
    + destruct (Hmsg n Hn) as (w & Hw & Hback). rewrite Hw. exact Hback.
    + rewrite (Hdom n Hn). apply lookup_empty.
  - exfalso. destruct Hfold as (n & dflt & Hn & Hdflt & Hout).
    destruct (name_in_slots n Hn) as [ty Hslot].
    rewrite (Target_lookup_slot n ty Hnd Hslot) in Hdflt. injection Hdflt as <-.
    destruct (Hty n ty Hslot) as (v & Hv & Hwire).
    destruct (call_wire_typed ty v Hwire) as (Hnn & w' & Hcall & _).
    unfold slot_outcome in Hout. rewrite Hv, Hnn, type_of_default, Hcall in Hout.
    discriminate.
Qed.

End WithSchema.

Lemma from_dict_well_typed_witness :
  NoDup (@__slots__ Samples.target_schema) /\
  exists msg v,
    @from_dict Samples.plain_interpreter Samples.target_schema
      (PDict Samples.a_wire_target) = Ok msg /\
    msg !! "latitude" = Some v /\ type_of v = TyFloat.
Proof.
  split; [exact sample_slots_NoDup |].
  destruct (@from_dict Samples.plain_interpreter Samples.target_schema
              (PDict Samples.a_wire_target)) as [msg|e] eqn:E;
    [| vm_compute in E; discriminate E].
  destruct (@from_dict_well_typed Samples.plain_interpreter Samples.target_schema
              _ _ sample_slots_NoDup E) as [Hty _].
  destruct (Hty "latitude" FFloat) as (v & Hv & Htype).
  { apply list_elem_of_In. cbn. tauto. }
  exists msg, v. split; [reflexivity |]. split; [exact Hv | exact Htype].
Defined.

(** A wire dictionary over the sample schema. *)
Definition a_full_wire_target : gmap string pyval :=
  <["type" := PStr "standard"]>
  (<["latitude" := PFloat (Q2Qc (3815 # 100))]>
  (<["description" := PStr "red triangle"]>
  (<["autonomous" := PBool false]> ∅))).

Lemma a_full_wire_target_typed :
  (forall n ty, (n, ty) ∈ @slots Samples.target_schema ->
     exists v, a_full_wire_target !! n = Some v /\ wire_typed ty v = true) /\
  (forall n, n ∉ @__slots__ Samples.target_schema -> a_full_wire_target !! n = None).
Proof.
  split.
  - intros n ty Hin. cbn in Hin.
    repeat (apply elem_of_cons in Hin as [[= -> ->] | Hin];
            [eexists; split; reflexivity |]).
    apply elem_of_nil in Hin. destruct Hin.
  - intros n Hn. unfold a_full_wire_target.
    assert (Hne : forall k, k ∈ @__slots__ Samples.target_schema -> k <> n)
      by (intros k Hk ->; contradiction).
    rewrite !lookup_insert_ne by (apply Hne, list_elem_of_In; cbn; tauto).
    apply lookup_empty.
Qed.

Lemma wire_round_trip_witness :
  NoDup (@__slots__ Samples.target_schema) /\
  exists msg,
    @from_dict Samples.plain_interpreter Samples.target_schema
      (PDict a_full_wire_target) = Ok msg /\
    @from_msg Samples.target_schema msg = Ok a_full_wire_target.
Proof.
  split; [exact sample_slots_NoDup |].
  exact (@wire_round_trip Samples.plain_interpreter Samples.target_schema
           a_full_wire_target sample_slots_NoDup
           (proj1 a_full_wire_target_typed) (proj2 a_full_wire_target_typed)).
Defined.

End TargetFacts.

Module TargetsFacts.
Import ResourceSpec.

Lemma index_by_id_Ok_keys (ts : list pyval) (m : gmap hkey pyval) :
  index_by_id ts = Ok m -> Forall (fun t => is_Ok (key_of t) = true) ts.
Proof.
  unfold index_by_id. generalize (∅ : gmap hkey pyval). revert m.
  induction ts as [|t ts IH]; intros m acc H; [constructor |].
  cbn [foldM] in H.
  assert (Hk : exists k, key_of t = Ok k /\
             foldM (fun targets t => id ← getitem t "id"; k ← hash_key id;
                                     Ok (<[k := t]> targets))
                   (<[k := t]> acc) ts = Ok m).
  { unfold key_of.
    destruct (getitem t "id") as [id|]; cbn in H |- *; [| discriminate].
    destruct (hash_key id) as [k|]; cbn in H |- *; [| discriminate].
    exists k. split; [reflexivity | exact H]. }
  destruct Hk as (k & Hk & Hrest).
  constructor; [rewrite Hk; reflexivity | exact (IH _ _ Hrest)].
Qed.

Lemma has_key_true k t : has_key k t = true <-> key_of t = Ok k.
Proof.
  unfold has_key. destruct (key_of t) as [k'|e].
  - rewrite bool_decide_eq_true. split; congruence.
  - split; discriminate.
Qed.

Lemma filter_absent (k : hkey) (ts : list pyval) :
  Ok k ∉ key_of <$> ts -> List.filter (has_key k) ts = [].
Proof.
  induction ts as [|b ts IH]; intros Hk; [reflexivity |].
  cbn [fmap list_fmap] in Hk. apply not_elem_of_cons in Hk as [Hb Hk].
  cbn [List.filter]. destruct (has_key k b) eqn:Eb.
  - apply has_key_true in Eb. congruence.
  - exact (IH Hk).
Qed.

Lemma filter_unique (k : hkey) (t : pyval) (ts : list pyval) :
  NoDup (key_of <$> ts) -> t ∈ ts -> key_of t = Ok k ->
  List.filter (has_key k) ts = [t].
Proof.
  intros Hnd Hin Hk. induction ts as [|a ts IH]; [apply elem_of_nil in Hin; destruct Hin |].
  cbn [fmap list_fmap] in Hnd. apply NoDup_cons in Hnd as [Ha Hnd].
  cbn [List.filter].
  apply elem_of_cons in Hin as [-> | Hin].
  - rewrite (proj2 (has_key_true k a) Hk), filter_absent; [reflexivity |].
    rewrite <- Hk. exact Ha.
  - destruct (has_key k a) eqn:Ea.
    + exfalso. apply Ha. apply has_key_true in Ea. rewrite Ea, <- Hk.
      apply list_elem_of_fmap. exists t. split; [reflexivity | exact Hin].
    + exact (IH Hnd Hin).
Qed.

Section WithWorld.
Context {world : World}.

(** X10: every value of the dict returned by [get_all_targets] is a record of the
    server's list, stored under its own [id]; and when the ids of the list
    are pairwise distinct no record is lost: each one is the value at its
    [id]. *)
Theorem get_all_targets_faithful (fuel : nat) (self : client)
    (st st' : state) (response : Response) (ts : list pyval)
    (targets : gmap hkey pyval) :
  _get fuel self "/api/targets" ∅ st = Some (Ok response, st') ->
  body response = Some (PList ts) ->
  get_all_targets fuel self st = Some (Ok targets, st') ->
  (forall k t, targets !! k = Some t -> t ∈ ts /\ key_of t = Ok k) /\
  (NoDup (key_of <$> ts) ->
   forall t, t ∈ ts -> exists k, key_of t = Ok k /\ targets !! k = Some t).
Proof.
  intros Hget Hbody Hrun.
  assert (Hidx : index_by_id ts = Ok targets).
  { unfold get_all_targets, mbind at 1, io_bind in Hrun. rewrite Hget in Hrun.
    unfold lift, json in Hrun. rewrite Hbody in Hrun. cbn in Hrun.
    injection Hrun as Hrun. exact Hrun. }
  pose proof (index_by_id_Ok_keys _ _ Hidx) as Hkeys.
  destruct (index_by_id_lookup ts Hkeys) as (m & Hm & Hlook).
  assert (m = targets) by congruence. subst m.
  split.
  - intros k t Hkt. rewrite Hlook in Hkt.
    apply last_Some in Hkt as [l Hl].
    assert (Hin : In t (List.filter (has_key k) ts))
      by (rewrite Hl; apply in_or_app; right; left; reflexivity).
    apply filter_In in Hin as [Hin Hhas].
    split; [apply list_elem_of_In; exact Hin | apply has_key_true; exact Hhas].
  - intros Hnd t Hin.
    rewrite Forall_forall in Hkeys. specialize (Hkeys t Hin).
    destruct (key_of t) as [k|] eqn:Ek; [| discriminate].
    exists k. split; [reflexivity |].
    rewrite Hlook, (filter_unique k t ts Hnd Hin Ek). reflexivity.
Qed.

End WithWorld.

(** Two records with distinct ids. *)
Definition two_targets : list pyval :=
  [Samples.target_record 1 "first"; Samples.target_record 2 "other"].

Lemma get_all_targets_faithful_witness :
  exists response st' targets,
    @_get (Samples.answering (PList two_targets)) 1 Samples.a_client
      "/api/targets" ∅ Samples.initial = Some (Ok response, st') /\
    body response = Some (PList two_targets) /\
    @get_all_targets (Samples.answering (PList two_targets)) 1 Samples.a_client
      Samples.initial = Some (Ok targets, st') /\
    NoDup (key_of <$> two_targets) /\
    targets !! KNum (Qc_of_Z 2) = Some (Samples.target_record 2 "other").
Proof.
  set (world := Samples.answering (PList two_targets)).
  set (other := Samples.target_record 2 "other").
  destruct (@_get world 1 Samples.a_client "/api/targets" ∅ Samples.initial)
    as [[[response|e] st']|] eqn:Hget; try (vm_compute in Hget; discriminate Hget).
  assert (Hbody : body response = Some (PList two_targets))
    by (vm_compute in Hget; injection Hget as <- _; reflexivity).
  assert (Hrun : exists targets,
            @get_all_targets world 1 Samples.a_client Samples.initial
              = Some (Ok targets, st')).
  { unfold get_all_targets, mbind at 1, io_bind. rewrite Hget.
    unfold lift, json. rewrite Hbody. eexists. reflexivity. }
  destruct Hrun as [targets Hrun].
  assert (Hnd : NoDup (key_of <$> two_targets)).
  { cbn. repeat constructor.
    - intros Hc. apply elem_of_cons in Hc as [Hc | Hc]; [discriminate Hc |].
      apply elem_of_nil in Hc. exact Hc.
    - intros Hc. apply elem_of_nil in Hc. exact Hc. }
  destruct (@get_all_targets_faithful world 1 Samples.a_client _ _ _ _ _
              Hget Hbody Hrun) as [_ Hkeep].
  destruct (Hkeep Hnd other) as (k & Hk & Hlook).
  { apply list_elem_of_In. cbn. tauto. }
  exists response, st', targets.
  split; [reflexivity |]. split; [exact Hbody |]. split; [exact Hrun |].
  split; [exact Hnd |].
  assert (Hkey : key_of other = Ok (KNum (Qc_of_Z 2))) by reflexivity.
  rewrite Hkey in Hk. injection Hk as <-. exact Hlook.
Defined.

End TargetsFacts.
